(** * Agent Mail and Beads: the coordination core of
      [interpreter/integrations/agent_mail.py]

    A shallow embedding of the two classes [AgentMail] and [Beads] and of
    the dataclasses they work on, followed by the properties of the
    registry, the mailbox, the reservation manager and the issue graph.

    Conventions of the embedding:
    - a [datetime] is the count of microseconds since 1970-01-01T00:00:00;
      the module compares datetimes and adds a [timedelta] to one, which
      raises when the result leaves the years 1 to 9999;
    - as the class [FileReservation] is declared, Python refuses to create
      it, so that the module cannot be imported ([module_import_fails]).
      The methods are embedded as they are written, for the module in which
      that one declaration is repaired; see [FileReservation.new];
    - a Python [dict] is an insertion-ordered association list with at most
      one entry per key ([PyDict]);
    - [datetime.utcnow()], [uuid.uuid4()] and [hashlib.sha256] are read from
      a [World] that holds the successive readings;
    - a method is a computation [Py Obj A] over the object [Obj] it belongs to:
      it ends by returning a value or by raising, and in both cases leaves
      the object as the assignments made so far have left it. *)

From Stdlib Require Import String Ascii List ZArith Bool Lia.
From Stdlib Require Import Permutation Sorted.
Import ListNotations.

Local Open Scope string_scope.
Local Open Scope Z_scope.

(* ===================================================================== *)
(** ** Python values used by the module *)
(* ===================================================================== *)

(** [datetime]: microseconds since 1970-01-01T00:00:00. *)
Definition datetime : Type := Z.

(** [timedelta(seconds=n)]. *)
Definition timedelta_seconds (n : Z) : Z := n * 1000000.

(** [datetime.min] is 0001-01-01T00:00:00 and [datetime.max] is
    9999-12-31T23:59:59.999999. *)
Definition DATETIME_MIN : Z := -62135596800000000.
Definition DATETIME_MAX : Z := 253402300799999999.

(** [timedelta(seconds=n)] can be built when the whole days of [n] seconds
    are at most 999999999 in magnitude. *)
Definition timedelta_ok (n : Z) : bool := Z.abs (n / 86400) <=? 999999999.

Definition datetime_ok (t : Z) : bool :=
  (DATETIME_MIN <=? t) && (t <=? DATETIME_MAX).

(** [now + timedelta(seconds=n)] has a value. *)
Definition expiry_ok (now : datetime) (n : Z) : bool :=
  timedelta_ok n && datetime_ok (now + timedelta_seconds n).

(** The check that [@dataclass] makes when it writes [__init__]: the
    fields are given in the order of the class body, each with whether it
    has a default or a default factory; the first field without default
    that follows one with a default is refused. *)
Fixpoint misplaced_field (seen_default : bool) (fields : list (string * bool))
  : option string :=
  match fields with
  | [] => None
  | (name, has_default) :: rest =>
      if has_default then misplaced_field true rest
      else if seen_default then Some name
      else misplaced_field false rest
  end.

(** Truth value of an [Optional[str]]: [None] and the empty string are
    false. *)
Definition truthy_str (o : option string) : bool :=
  match o with
  | None => false
  | Some s => negb (String.eqb s "")
  end.

(** [x or y] for an [Optional[str]] [x] and a string [y] that is only
    evaluated when needed; see [send_message]. [l or []] for an optional
    list. *)
Definition list_or_empty {A : Type} (o : option (list A)) : list A :=
  match o with
  | None => []
  | Some l => l
  end.

(** [s.startswith(p)]. *)
Definition startswith (s p : string) : bool := String.prefix p s.

(** The stable sort behind [sorted] and [list.sort]: an element is put in
    front of the first element whose key is not smaller, so elements of
    equal key keep the order in which they were met. *)
Fixpoint insert_by {A : Type} (key : A -> Z) (x : A) (l : list A) : list A :=
  match l with
  | [] => [x]
  | y :: r => if key x <=? key y then x :: y :: r else y :: insert_by key x r
  end.

Fixpoint stable_sort {A : Type} (key : A -> Z) (l : list A) : list A :=
  match l with
  | [] => []
  | x :: r => insert_by key x (stable_sort key r)
  end.

(** [sorted(l, key=key, reverse=reverse)]. With [reverse=True] the list is
    reversed, sorted and reversed again, which keeps the sort stable. *)
Definition sorted {A : Type} (key : A -> Z) (reverse : bool) (l : list A)
  : list A :=
  if reverse then rev (stable_sort key (rev l)) else stable_sort key l.

(* ===================================================================== *)
(** ** Insertion-ordered dictionaries with string keys *)
(* ===================================================================== *)

Module PyDict.

Definition dict (V : Type) : Type := list (string * V).

Definition empty {V : Type} : dict V := [].

(** [d.get(k)] *)
Fixpoint get {V : Type} (k : string) (d : dict V) : option V :=
  match d with
  | [] => None
  | (k', v) :: r => if String.eqb k k' then Some v else get k r
  end.

(** [k in d] *)
Definition mem {V : Type} (k : string) (d : dict V) : bool :=
  match get k d with
  | Some _ => true
  | None => false
  end.

(** [d.get(k, default)] *)
Definition get_default {V : Type} (k : string) (d : dict V) (default : V)
  : V :=
  match get k d with
  | Some v => v
  | None => default
  end.

(** [d[k] = v]: an existing key keeps its place, a new key goes last. *)
Fixpoint set {V : Type} (k : string) (v : V) (d : dict V) : dict V :=
  match d with
  | [] => [(k, v)]
  | (k', v') :: r =>
      if String.eqb k k' then (k, v) :: r else (k', v') :: set k v r
  end.

(** In-place mutation of the object stored under [k], when there is
    one. *)
Fixpoint adjust {V : Type} (f : V -> V) (k : string) (d : dict V)
  : dict V :=
  match d with
  | [] => []
  | (k', v') :: r =>
      if String.eqb k k' then (k', f v') :: r else (k', v') :: adjust f k r
  end.

(** [d.keys()], [d.values()], [d.items()] in iteration order. *)
Definition keys {V : Type} (d : dict V) : list string := map fst d.
Definition values {V : Type} (d : dict V) : list V := map snd d.
Definition items {V : Type} (d : dict V) : list (string * V) := d.

End PyDict.

(* ===================================================================== *)
(** ** The outside world and the method monad *)
(* ===================================================================== *)

(** What the module reads from outside: the clock, the uuid generator and
    the hash function. [utcnow_at n] is the value of the [n]-th call of
    [datetime.utcnow()], [uuid4_at n] the first twelve characters of the
    [n]-th [str(uuid.uuid4())], and [digest6 title t] the first six
    characters of the hex digest of the SHA-256 of [title] followed by the
    ISO form of [t]. *)
Record World : Type := mkWorld {
  utcnow_at : nat -> datetime;
  ticks : nat;
  uuid4_at : nat -> string;
  draws : nat;
  digest6 : string -> datetime -> string
}.

Inductive exn : Type :=
  (** [ValueError(f"CONFLICT: {agent} has exclusive reservation on
      {paths}")]: the two interpolated values. *)
  | ValueError (agent : string) (paths : list string)
  (** [sqlite3.IntegrityError]: a plain [INSERT] met a row with the same
      primary key in [table]. *)
  | IntegrityError (table : string)
  (** [OverflowError]: a [timedelta] or the sum of a [datetime] and a
      [timedelta] is out of range. *)
  | OverflowError
  (** [TypeError], with its message. *)
  | TypeError (message : string).

Inductive outcome (A : Type) : Type :=
  | Return (a : A)
  | Raise (e : exn).
Arguments Return {A} a.
Arguments Raise {A} e.

(** The end of a call: its outcome, the object and the world after it. *)
Record Ran (Obj A : Type) : Type := mkRan {
  result : outcome A;
  self_after : Obj;
  world_after : World
}.
Arguments mkRan {Obj A} result self_after world_after.
Arguments result {Obj A} r.
Arguments self_after {Obj A} r.
Arguments world_after {Obj A} r.

Definition Py (Obj A : Type) : Type := Obj -> World -> Ran Obj A.

Definition ret {Obj A : Type} (a : A) : Py Obj A :=
  fun s w => mkRan (Return a) s w.

Definition raise {Obj A : Type} (e : exn) : Py Obj A :=
  fun s w => mkRan (Raise e) s w.

Definition bind {Obj A B : Type} (m : Py Obj A) (f : A -> Py Obj B)
  : Py Obj B :=
  fun s w =>
    match m s w with
    | mkRan (Return a) s' w' => f a s' w'
    | mkRan (Raise e) s' w' => mkRan (Raise e) s' w'
    end.

Declare Scope py_scope.
Delimit Scope py_scope with py.
Notation "x <- c1 ;; c2" := (bind c1 (fun x => c2))
  (at level 100, c1 at next level, right associativity) : py_scope.
Notation "c1 ;; c2" := (bind c1 (fun _ => c2))
  (at level 100, right associativity) : py_scope.
Local Open Scope py_scope.

Definition get_self {Obj : Type} : Py Obj Obj :=
  fun s w => mkRan (Return s) s w.

Definition modify {Obj : Type} (f : Obj -> Obj) : Py Obj unit :=
  fun s w => mkRan (Return tt) (f s) w.

(** [datetime.utcnow()] *)
Definition utcnow {Obj : Type} : Py Obj datetime :=
  fun s w =>
    mkRan (Return (utcnow_at w (ticks w))) s
      (mkWorld (utcnow_at w) (S (ticks w)) (uuid4_at w) (draws w) (digest6 w)).

(** [str(uuid.uuid4())[:12]] *)
Definition uuid4_12 {Obj : Type} : Py Obj string :=
  fun s w =>
    mkRan (Return (uuid4_at w (draws w))) s
      (mkWorld (utcnow_at w) (ticks w) (uuid4_at w) (S (draws w)) (digest6 w)).

(** [now + timedelta(seconds=n)] *)
Definition add_timedelta {Obj : Type} (now : datetime) (n : Z)
  : Py Obj datetime :=
  if expiry_ok now n then ret (now + timedelta_seconds n)
  else raise OverflowError.

(** [@dataclass class C: ...] with the given fields. *)
Definition dataclass (fields : list (string * bool)) : outcome unit :=
  match misplaced_field false fields with
  | Some name =>
      Raise (TypeError ("non-default argument '" ++ name
                        ++ "' follows default argument"))
  | None => Return tt
  end.

(** [hashlib.sha256((title + t.isoformat()).encode()).hexdigest()[:6]] *)
Definition sha256_hex6 {Obj : Type} (title : string) (t : datetime)
  : Py Obj string :=
  fun s w => mkRan (Return (digest6 w title t)) s w.

(* ===================================================================== *)
(** ** The data model *)
(* ===================================================================== *)

Inductive IssueStatus : Type := BACKLOG | READY | IN_PROGRESS | DONE | BLOCKED.

Inductive ReservationStatus : Type := ACTIVE | EXPIRED | RELEASED.

Definition IssueStatus_eqb (a b : IssueStatus) : bool :=
  match a, b with
  | BACKLOG, BACKLOG | READY, READY | IN_PROGRESS, IN_PROGRESS
  | DONE, DONE | BLOCKED, BLOCKED => true
  | _, _ => false
  end.

Definition ReservationStatus_eqb (a b : ReservationStatus) : bool :=
  match a, b with
  | ACTIVE, ACTIVE | EXPIRED, EXPIRED | RELEASED, RELEASED => true
  | _, _ => false
  end.

Module Agent.
Record t : Type := mk {
  id : string;
  name : string;
  project_key : string;
  program : string;
  model : string;
  capabilities : list string;
  registered_at : datetime;
  last_active : datetime
}.

(** The fields of the class body, with whether they have a default. *)
Definition declared : list (string * bool) :=
  [("id", false); ("name", false); ("project_key", false);
   ("program", false); ("model", false); ("capabilities", true);
   ("registered_at", true); ("last_active", true)].

(** [Agent(id=.., name=.., project_key=.., program=.., model=..,
    capabilities=..)]: the two dates come from their default factories,
    in field order. *)
Definition new {Obj : Type} (id name project_key program model : string)
    (capabilities : list string) : Py Obj t :=
  registered_at <- utcnow ;;
  last_active <- utcnow ;;
  ret (mk id name project_key program model capabilities
         registered_at last_active).
End Agent.

Module Message.
Record t : Type := mk {
  id : string;
  project_key : string;
  sender : string;
  recipient : string;
  subject : string;
  body : string;
  thread_id : option string;
  created_at : datetime;
  read : bool
}.

Definition declared : list (string * bool) :=
  [("id", false); ("project_key", false); ("sender", false);
   ("recipient", false); ("subject", false); ("body", false);
   ("thread_id", true); ("created_at", true); ("read", true)].
End Message.

Module FileReservation.
Record t : Type := mk {
  id : string;
  project_key : string;
  agent_name : string;
  paths : list string;
  exclusive : bool;
  status : ReservationStatus;
  created_at : datetime;
  expires_at : datetime;
  ttl_seconds : Z
}.

(** [res.status = s] *)
Definition set_status (s : ReservationStatus) (r : t) : t :=
  mk (id r) (project_key r) (agent_name r) (paths r) (exclusive r) s
     (created_at r) (expires_at r) (ttl_seconds r).

(** The fields of the class body, with whether they have a default:
    [created_at] has a default factory and stands before [expires_at] and
    [ttl_seconds], which have none. *)
Definition declared : list (string * bool) :=
  [("id", false); ("project_key", false); ("agent_name", false);
   ("paths", false); ("exclusive", false); ("status", false);
   ("created_at", true); ("expires_at", false); ("ttl_seconds", false)].

(** [FileReservation(id=.., .., status=.., expires_at=.., ttl_seconds=..)]
    as [reserve_files] calls it, keyword by keyword: [expires_at] is
    computed by the caller and [created_at] then comes from its default
    factory.

    This is the constructor of the class once its declaration is repaired,
    with [created_at] moved behind the fields without default or the
    fields made keyword-only; either repair leaves the call of
    [reserve_files] and the order of the clock readings as they are. As
    declared, the class is refused by [dataclass] and has no constructor
    ([module_import_fails]); whatever is proved about a reservation that
    is granted is proved for the repaired module. *)
Definition new {Obj : Type} (id project_key agent_name : string)
    (paths : list string) (exclusive : bool) (status : ReservationStatus)
    (expires_at : datetime) (ttl_seconds : Z) : Py Obj t :=
  created_at <- utcnow ;;
  ret (mk id project_key agent_name paths exclusive status created_at
         expires_at ttl_seconds).
End FileReservation.

Module Issue.
Record t : Type := mk {
  id : string;
  title : string;
  description : string;
  status : IssueStatus;
  priority : string;
  parent_id : option string;
  blocking : list string;
  blocked_by : list string;
  assignee : option string;
  created_at : datetime;
  updated_at : datetime
}.

Definition declared : list (string * bool) :=
  [("id", false); ("title", false); ("description", true);
   ("status", true); ("priority", true); ("parent_id", true);
   ("blocking", true); ("blocked_by", true); ("assignee", true);
   ("created_at", true); ("updated_at", true)].

Definition set_status (s : IssueStatus) (i : t) : t :=
  mk (id i) (title i) (description i) s (priority i) (parent_id i)
     (blocking i) (blocked_by i) (assignee i) (created_at i) (updated_at i).

Definition set_priority (p : string) (i : t) : t :=
  mk (id i) (title i) (description i) (status i) p (parent_id i)
     (blocking i) (blocked_by i) (assignee i) (created_at i) (updated_at i).

Definition set_assignee (a : option string) (i : t) : t :=
  mk (id i) (title i) (description i) (status i) (priority i) (parent_id i)
     (blocking i) (blocked_by i) a (created_at i) (updated_at i).

Definition set_updated_at (u : datetime) (i : t) : t :=
  mk (id i) (title i) (description i) (status i) (priority i) (parent_id i)
     (blocking i) (blocked_by i) (assignee i) (created_at i) u.

(** [issue.blocked_by.append(x)] *)
Definition append_blocked_by (x : string) (i : t) : t :=
  mk (id i) (title i) (description i) (status i) (priority i) (parent_id i)
     (blocking i) (blocked_by i ++ [x]) (assignee i) (created_at i)
     (updated_at i).

(** [Issue(id=.., title=.., description=.., priority=.., parent_id=..,
    blocking=..)]: status is [BACKLOG], [blocked_by] a new empty list, no
    assignee, and the two dates come from their default factories. *)
Definition new {Obj : Type} (id title description priority : string)
    (parent_id : option string) (blocking : list string) : Py Obj t :=
  created_at <- utcnow ;;
  updated_at <- utcnow ;;
  ret (mk id title description BACKLOG priority parent_id blocking []
         None created_at updated_at).

(** [Issue('', '')] *)
Definition default {Obj : Type} : Py Obj t := new "" "" "" "medium" None [].
End Issue.

(** The four [@dataclass] statements of [agent_mail.py], in the order of
    the file; the import of the module ends with the first that raises. *)
Definition module_import : outcome unit :=
  match dataclass Agent.declared with
  | Raise e => Raise e
  | Return _ =>
      match dataclass Message.declared with
      | Raise e => Raise e
      | Return _ =>
          match dataclass FileReservation.declared with
          | Raise e => Raise e
          | Return _ => dataclass Issue.declared
          end
      end
  end.

(* ===================================================================== *)
(** ** The SQLite mirror of [AgentMail] *)
(* ===================================================================== *)

(** The three tables of [mail.db]. A row holds the values that the method
    binds to its statement; the module never reads the tables back. *)
Module Database.
Record t : Type := mk {
  agents : list Agent.t;
  messages : list Message.t;
  reservations : list FileReservation.t
}.

(** [INSERT OR REPLACE INTO agents]: [id] is the primary key and [name]
    is unique, so the rows that clash on either are deleted first. *)
Definition insert_or_replace_agent (a : Agent.t) (db : t) : t :=
  mk (filter (fun r => negb (String.eqb (Agent.id r) (Agent.id a))
                       && negb (String.eqb (Agent.name r) (Agent.name a)))
             (agents db) ++ [a])
     (messages db) (reservations db).

(** [INSERT INTO messages]: refused when the primary key [id] is
    taken. *)
Definition insert_message (m : Message.t) (db : t) : option t :=
  if existsb (fun r => String.eqb (Message.id r) (Message.id m))
             (messages db)
  then None
  else Some (mk (agents db) (messages db ++ [m]) (reservations db)).

(** [INSERT INTO reservations]: refused when the primary key [id] is
    taken. *)
Definition insert_reservation (r : FileReservation.t) (db : t) : option t :=
  if existsb (fun x => String.eqb (FileReservation.id x)
                                  (FileReservation.id r))
             (reservations db)
  then None
  else Some (mk (agents db) (messages db) (reservations db ++ [r])).
End Database.

(* ===================================================================== *)
(** ** class AgentMail *)
(* ===================================================================== *)

Module AgentMail.
Import PyDict.

Record t : Type := mk {
  agents : dict Agent.t;
  messages : dict (list Message.t);
  reservations : dict FileReservation.t;
  db : Database.t
}.

Definition set_agents (x : dict Agent.t) (self : t) : t :=
  mk x (messages self) (reservations self) (db self).
Definition set_messages (x : dict (list Message.t)) (self : t) : t :=
  mk (agents self) x (reservations self) (db self).
Definition set_reservations (x : dict FileReservation.t) (self : t) : t :=
  mk (agents self) (messages self) x (db self).
Definition set_db (x : Database.t) (self : t) : t :=
  mk (agents self) (messages self) (reservations self) x.

(** [__init__]: empty dictionaries over the database file found at
    [base_path], whose tables are created when missing. *)
Definition init (disk : Database.t) : t := mk empty empty empty disk.

(** [if name not in self.messages: self.messages[name] = []] *)
Definition ensure_inbox (name : string) : Py t unit :=
  self <- get_self ;;
  if mem name (messages self) then ret tt
  else modify (fun self => set_messages (set name [] (messages self)) self).

Definition register_agent (name project_key program model : string)
    (capabilities : option (list string)) : Py t Agent.t :=
  uid <- uuid4_12 ;;
  agent <- Agent.new uid name project_key program model
             (list_or_empty capabilities) ;;
  modify (fun self => set_agents (set name agent (agents self)) self) ;;
  modify (fun self =>
            set_db (Database.insert_or_replace_agent agent (db self)) self) ;;
  ensure_inbox name ;;
  ret agent.

(** [thread_id or str(uuid.uuid4())[:12]] *)
Definition thread_id_or_fresh (thread_id : option string) : Py t string :=
  match thread_id with
  | Some s => if String.eqb s "" then uuid4_12 else ret s
  | None => uuid4_12
  end.

Definition send_message (project_key sender recipient subject body : string)
    (thread_id : option string) : Py t Message.t :=
  mid <- uuid4_12 ;;
  tid <- thread_id_or_fresh thread_id ;;
  now <- utcnow ;;
  let message :=
    Message.mk mid project_key sender recipient subject body (Some tid)
               now false in
  ensure_inbox recipient ;;
  modify (fun self =>
            set_messages
              (adjust (fun inbox => (inbox ++ [message])%list) recipient
                      (messages self)) self) ;;
  self <- get_self ;;
  match Database.insert_message message (db self) with
  | None => raise (IntegrityError "messages")
  | Some db' => modify (set_db db') ;; ret message
  end.

Definition fetch_inbox (agent_name : string) (since_ts : option datetime)
  : Py t (list Message.t) :=
  self <- get_self ;;
  let inbox := get_default agent_name (messages self) [] in
  let inbox :=
    match since_ts with
    | Some since => filter (fun m => since <=? Message.created_at m) inbox
    | None => inbox
    end in
  ret (sorted Message.created_at true inbox).

(** [any(p.startswith(path) or path.startswith(p) for p in res.paths)] *)
Definition overlaps_any (path : string) (res_paths : list string) : bool :=
  existsb (fun p => startswith p path || startswith path p) res_paths.

(** The inner loop of the conflict check, over the requested paths. *)
Fixpoint check_paths (res : FileReservation.t) (agent_name : string)
    (paths : list string) : Py t unit :=
  match paths with
  | [] => ret tt
  | path :: rest =>
      if overlaps_any path (FileReservation.paths res) then
        if negb (String.eqb (FileReservation.agent_name res) agent_name)
        then raise (ValueError (FileReservation.agent_name res)
                               (FileReservation.paths res))
        else check_paths res agent_name rest
      else check_paths res agent_name rest
  end.

(** The outer loop, over [self.reservations.items()]. *)
Fixpoint check_conflicts (items : list (string * FileReservation.t))
    (agent_name : string) (paths : list string) : Py t unit :=
  match items with
  | [] => ret tt
  | (_, res) :: rest =>
      (if ReservationStatus_eqb (FileReservation.status res) ACTIVE
       then check_paths res agent_name paths
       else ret tt) ;;
      check_conflicts rest agent_name paths
  end.

Definition reserve_files (project_key agent_name : string)
    (paths : list string) (exclusive : bool) (ttl_seconds : Z)
  : Py t FileReservation.t :=
  self <- get_self ;;
  check_conflicts (items (reservations self)) agent_name paths ;;
  rid <- uuid4_12 ;;
  now <- utcnow ;;
  expires_at <- add_timedelta now ttl_seconds ;;
  reservation <- FileReservation.new rid project_key agent_name paths
                   exclusive ACTIVE expires_at ttl_seconds ;;
  modify (fun self =>
            set_reservations
              (set (FileReservation.id reservation) reservation
                   (reservations self)) self) ;;
  self <- get_self ;;
  match Database.insert_reservation reservation (db self) with
  | None => raise (IntegrityError "reservations")
  | Some db' => modify (set_db db') ;; ret reservation
  end.

Definition release_reservation (reservation_id : string) : Py t bool :=
  self <- get_self ;;
  if mem reservation_id (reservations self) then
    modify (fun self =>
              set_reservations
                (adjust (FileReservation.set_status RELEASED)
                        reservation_id (reservations self)) self) ;;
    ret true
  else ret false.

(** The loop of [get_active_reservations]: the reservations appended to
    [active], and the dictionary with the lapsed ones marked. *)
Fixpoint sweep (project_key : string) (now : datetime)
    (items : dict FileReservation.t)
  : list FileReservation.t * dict FileReservation.t :=
  match items with
  | [] => ([], [])
  | (k, res) :: rest =>
      let (active, rest') := sweep project_key now rest in
      if String.eqb (FileReservation.project_key res) project_key then
        if ReservationStatus_eqb (FileReservation.status res) ACTIVE then
          if now <? FileReservation.expires_at res
          then (res :: active, (k, res) :: rest')
          else (active, (k, FileReservation.set_status EXPIRED res) :: rest')
        else (active, (k, res) :: rest')
      else (active, (k, res) :: rest')
  end.

Definition get_active_reservations (project_key : string)
  : Py t (list FileReservation.t) :=
  now <- utcnow ;;
  self <- get_self ;;
  let (active, swept) := sweep project_key now (reservations self) in
  modify (set_reservations swept) ;;
  ret active.

End AgentMail.

(* ===================================================================== *)
(** ** class Beads *)
(* ===================================================================== *)

Module Beads.
Import PyDict.

(** [issues] is the dictionary in memory, [issues_db] the lines of
    [issues.jsonl], one snapshot of an issue per line. *)
Record t : Type := mk {
  issues : dict Issue.t;
  issues_db : list Issue.t
}.

Definition set_issues (x : dict Issue.t) (self : t) : t :=
  mk x (issues_db self).

(** [_load_issues]: a later line of an id replaces an earlier one. *)
Definition _load_issues (lines : list Issue.t) : dict Issue.t :=
  fold_left (fun d issue => set (Issue.id issue) issue d) lines empty.

Definition init (lines : list Issue.t) : t := mk (_load_issues lines) lines.

Definition _save_issue (issue : Issue.t) : Py t unit :=
  modify (fun self => mk (issues self) (issues_db self ++ [issue])%list).

Definition _generate_id (title : string) : Py t string :=
  now <- utcnow ;;
  h <- sha256_hex6 title now ;;
  ret ("bd-" ++ h).

(** [for blocked_id in issue.blocking: if blocked_id in self.issues:
    self.issues[blocked_id].blocked_by.append(issue.id)] *)
Fixpoint link_blocked (blocking : list string) (issue_id : string)
  : Py t unit :=
  match blocking with
  | [] => ret tt
  | blocked_id :: rest =>
      self <- get_self ;;
      (if mem blocked_id (issues self) then
         modify (fun self =>
                   set_issues
                     (adjust (Issue.append_blocked_by issue_id) blocked_id
                             (issues self)) self)
       else ret tt) ;;
      link_blocked rest issue_id
  end.

Definition create_issue (title description priority : string)
    (parent_id : option string) (blocking : option (list string))
  : Py t Issue.t :=
  iid <- _generate_id title ;;
  issue <- Issue.new iid title description priority parent_id
             (list_or_empty blocking) ;;
  link_blocked (Issue.blocking issue) (Issue.id issue) ;;
  modify (fun self => set_issues (set (Issue.id issue) issue (issues self))
                                 self) ;;
  _save_issue issue ;;
  ret issue.

(** The assignments of [update_issue] to the issue found under
    [issue_id]; an enum member is always true, a string only when it is
    not empty. *)
Definition assign_fields (status : option IssueStatus)
    (assignee priority : option string) (issue : Issue.t) : Issue.t :=
  let issue :=
    match status with
    | Some s => Issue.set_status s issue
    | None => issue
    end in
  let issue :=
    if truthy_str assignee then Issue.set_assignee assignee issue
    else issue in
  match priority with
  | Some p => if truthy_str priority then Issue.set_priority p issue
              else issue
  | None => issue
  end.

Definition update_issue (issue_id : string) (status : option IssueStatus)
    (assignee priority : option string) : Py t (option Issue.t) :=
  self <- get_self ;;
  if negb (mem issue_id (issues self)) then ret None
  else
    modify (fun self =>
              set_issues (adjust (assign_fields status assignee priority)
                                 issue_id (issues self)) self) ;;
    now <- utcnow ;;
    modify (fun self =>
              set_issues (adjust (Issue.set_updated_at now) issue_id
                                 (issues self)) self) ;;
    self <- get_self ;;
    (* [issue] is the object stored under [issue_id], which is there *)
    match get issue_id (issues self) with
    | None => ret None
    | Some issue => _save_issue issue ;; ret (Some issue)
    end.

(** [i.assignee == assignee] for two optional strings. *)
Definition assignee_is (a b : option string) : bool :=
  match a, b with
  | Some x, Some y => String.eqb x y
  | None, None => true
  | _, _ => false
  end.

Definition list_issues (status : option IssueStatus)
    (assignee : option string) (blocked : bool) : Py t (list Issue.t) :=
  self <- get_self ;;
  let results := values (issues self) in
  let results :=
    match status with
    | Some s => filter (fun i => IssueStatus_eqb (Issue.status i) s) results
    | None => results
    end in
  let results :=
    if truthy_str assignee
    then filter (fun i => assignee_is (Issue.assignee i) assignee) results
    else results in
  let results :=
    if blocked
    then filter (fun i =>
                   negb (IssueStatus_eqb (Issue.status i) BLOCKED)
                   && match Issue.blocked_by i with
                      | [] => false
                      | _ :: _ => true
                      end) results
    else results in
  ret (sorted Issue.created_at true results).

(** [all(self.issues.get(bid, Issue('','')).status == IssueStatus.DONE
        for bid in issue.blocked_by if bid in self.issues)]:
    the default [Issue('','')] is built, and the clock read for it, at
    every blocker that is looked up; [all] stops at the first one that
    is not done. *)
Fixpoint all_blockers_done (store : dict Issue.t) (blocked_by : list string)
  : Py t bool :=
  match blocked_by with
  | [] => ret true
  | bid :: rest =>
      if mem bid store then
        fallback <- Issue.default ;;
        if IssueStatus_eqb (Issue.status (get_default bid store fallback))
                           DONE
        then all_blockers_done store rest
        else ret false
      else all_blockers_done store rest
  end.

(** The loop of [get_ready_issues] over [self.issues.values()]. *)
Fixpoint ready_loop (store : dict Issue.t) (todo : list Issue.t)
    (ready : list Issue.t) : Py t (list Issue.t) :=
  match todo with
  | [] => ret ready
  | issue :: rest =>
      if IssueStatus_eqb (Issue.status issue) READY then
        match Issue.blocked_by issue with
        | [] => ready_loop store rest (ready ++ [issue])%list
        | _ :: _ =>
            all_done <- all_blockers_done store (Issue.blocked_by issue) ;;
            if all_done then ready_loop store rest (ready ++ [issue])%list
            else ready_loop store rest ready
        end
      else ready_loop store rest ready
  end.

Definition get_ready_issues : Py t (list Issue.t) :=
  self <- get_self ;;
  ready_loop (issues self) (values (issues self)) [].

End Beads.

(* ===================================================================== *)
(** ** Concrete worlds and stores used by the examples *)
(* ===================================================================== *)

Module Demo.
(** A clock that advances by one microsecond at each reading, and a uuid
    generator that never repeats. *)
Definition uuid (n : nat) : string :=
  match n with
  | 0%nat => "3f2a9c1e-7b4"
  | 1%nat => "a81d04c7-e55"
  | 2%nat => "5c0be9f2-1a3"
  | 3%nat => "d7740a6b-c09"
  | _ => "0e6f31b8-4d2"
  end.

Definition world : World :=
  mkWorld (fun n => 1700000000000000 + Z.of_nat n) 0 uuid 0
          (fun title _ => if String.eqb title "parser" then "a1b2c3"
                          else "d4e5f6").

Definition mail : AgentMail.t := AgentMail.init (Database.mk [] [] []).

Definition beads : Beads.t := Beads.init [].

(** The issue "parser", then the issue "lexer" created with
    [blocking=["bd-a1b2c3", "bd-ffffff"]]: the first id is that of
    "parser", the second one is unknown. *)
Definition parser_created : Ran Beads.t Issue.t :=
  Beads.create_issue "parser" "" "medium" None None beads world.

Definition lexer_created : Ran Beads.t Issue.t :=
  Beads.create_issue "lexer" "" "high" None
    (Some ["bd-a1b2c3"; "bd-ffffff"])
    (self_after parser_created) (world_after parser_created).

(** "parser" is then marked ready. *)
Definition parser_ready : Ran Beads.t (option Issue.t) :=
  Beads.update_issue "bd-a1b2c3" (Some READY) None None
    (self_after lexer_created) (world_after lexer_created).

(** alice registers, then registers again under the same name. *)
Definition alice_registered : Ran AgentMail.t Agent.t :=
  AgentMail.register_agent "alice" "web" "claude" "opus"
    (Some ["python"]) mail world.

Definition alice_registered_again : Ran AgentMail.t Agent.t :=
  AgentMail.register_agent "alice" "web" "codex" "gpt" None
    (self_after alice_registered) (world_after alice_registered).

(** A registration under the empty name. *)
Definition nameless_registered : Ran AgentMail.t Agent.t :=
  AgentMail.register_agent "" "web" "claude" "opus" None mail world.


(** Three messages to bob, created at times 5, 7 and 5. *)
Definition note (id : string) (t : datetime) : Message.t :=
  Message.mk id "web" "alice" "bob" "note" "" (Some id) t false.

Definition bob_inbox : AgentMail.t :=
  AgentMail.mk PyDict.empty
    [("bob", [note "m1" 5; note "m2" 7; note "m3" 5])]
    PyDict.empty (Database.mk [] [] []).

(** alice holds ["/src/a.py"] for an hour, shared, in project "web". *)
Definition alice_holds : Ran AgentMail.t FileReservation.t :=
  AgentMail.reserve_files "web" "alice" ["/src/a.py"] false 3600 mail world.

(** alice holds ["/src/a.py"] for an hour, exclusive. *)
Definition alice_exclusive : Ran AgentMail.t FileReservation.t :=
  AgentMail.reserve_files "web" "alice" ["/src/a.py"] true 3600 mail world.

(** alice's lease of zero seconds in project "web", then a listing of
    the active reservations of project "docs". *)
Definition alice_lapsed : Ran AgentMail.t FileReservation.t :=
  AgentMail.reserve_files "web" "alice" ["/src/a.py"] true 0 mail world.

Definition docs_listed : Ran AgentMail.t (list FileReservation.t) :=
  AgentMail.get_active_reservations "docs" (self_after alice_lapsed)
    (world_after alice_lapsed).

Definition web_listed : Ran AgentMail.t (list FileReservation.t) :=
  AgentMail.get_active_reservations "web" (self_after alice_lapsed)
    (world_after alice_lapsed).
End Demo.

(* ===================================================================== *)
(** ** Predicates used in the statements *)
(* ===================================================================== *)

(** Some requested path and some reserved path are one a prefix of the
    other. *)
Definition paths_overlap (reserved requested : list string) : bool :=
  existsb (fun path => AgentMail.overlaps_any path reserved) requested.

(** The reservation [res] stops a request of [agent_name] for [paths]. *)
Definition blocks (res : FileReservation.t) (agent_name : string)
    (paths : list string) : bool :=
  ReservationStatus_eqb (FileReservation.status res) ACTIVE
  && negb (String.eqb (FileReservation.agent_name res) agent_name)
  && paths_overlap (FileReservation.paths res) paths.

(** [agent_name]'s mailbox: the messages that [send_message] has appended
    for this recipient, oldest first. *)
Definition inbox_of (agent_name : string) (self : AgentMail.t)
  : list Message.t :=
  PyDict.get_default agent_name (AgentMail.messages self) [].

(** The message that [send_message] builds in the world [w]: the first
    uuid drawn is its id, the thread id is the one supplied or else the
    second uuid drawn, and the clock gives [created_at]. *)
Definition message_built (w : World)
    (project_key sender recipient subject body : string)
    (thread_id : option string) : Message.t :=
  Message.mk (uuid4_at w (draws w)) project_key sender recipient subject body
    (Some (match thread_id with
           | Some s => if String.eqb s "" then uuid4_at w (S (draws w)) else s
           | None => uuid4_at w (S (draws w))
           end))
    (utcnow_at w (ticks w)) false.

(** The inboxes after [message] has been appended to that of
    [recipient]. *)
Definition delivered (message : Message.t) (recipient : string)
    (boxes : PyDict.dict (list Message.t)) : PyDict.dict (list Message.t) :=
  PyDict.adjust (fun inbox => (inbox ++ [message])%list) recipient
    (if PyDict.mem recipient boxes then boxes
     else PyDict.set recipient [] boxes).

(** The messages of [inbox] that [fetch_inbox] is asked for. *)
Definition since_filter (since_ts : option datetime) (inbox : list Message.t)
  : list Message.t :=
  match since_ts with
  | Some since => filter (fun m => since <=? Message.created_at m) inbox
  | None => inbox
  end.

(** The elements of [l] whose key is [t], in the order of [l]. *)
Definition with_key {A : Type} (key : A -> Z) (t : Z) (l : list A) : list A :=
  filter (fun x => key x =? t) l.

(** The issue [i] after [n] appends of [x] to its [blocked_by]. *)
Definition blocked_by_extended (x : string) (n : nat) (i : Issue.t)
  : Issue.t :=
  Issue.mk (Issue.id i) (Issue.title i) (Issue.description i)
    (Issue.status i) (Issue.priority i) (Issue.parent_id i)
    (Issue.blocking i) (Issue.blocked_by i ++ repeat x n)
    (Issue.assignee i) (Issue.created_at i) (Issue.updated_at i).

(** Every id of [blocked_by] that the store knows is that of an issue
    whose status is done. *)
Definition blockers_done (store : PyDict.dict Issue.t)
    (blocked_by : list string) : bool :=
  forallb (fun bid =>
             match PyDict.get bid store with
             | Some blocker => IssueStatus_eqb (Issue.status blocker) DONE
             | None => true
             end) blocked_by.

Definition is_ready (store : PyDict.dict Issue.t) (issue : Issue.t) : bool :=
  IssueStatus_eqb (Issue.status issue) READY
  && blockers_done store (Issue.blocked_by issue).

(** What [get_active_reservations] does to one reservation. *)
Definition swept_one (project_key : string) (now : datetime)
    (res : FileReservation.t) : FileReservation.t :=
  if String.eqb (FileReservation.project_key res) project_key
     && ReservationStatus_eqb (FileReservation.status res) ACTIVE
     && negb (now <? FileReservation.expires_at res)
  then FileReservation.set_status EXPIRED res
  else res.

(** The first blocking reservation in iteration order. *)
Definition first_blocker (items : list (string * FileReservation.t))
    (agent_name : string) (paths : list string)
  : option (string * FileReservation.t) :=
  find (fun kv => blocks (snd kv) agent_name paths) items.

(* ===================================================================== *)
(** ** Further predicates and scenarios *)
(* ===================================================================== *)

(** The reservation that [reserve_files] builds in the world [w]: one
    uuid, the clock for [expires_at], then the clock for [created_at]. *)
Definition reservation_built (w : World) (project_key agent_name : string)
    (paths : list string) (exclusive : bool) (ttl_seconds : Z)
  : FileReservation.t :=
  FileReservation.mk (uuid4_at w (draws w)) project_key agent_name paths
    exclusive ACTIVE (utcnow_at w (S (ticks w)))
    (utcnow_at w (ticks w) + timedelta_seconds ttl_seconds) ttl_seconds.

(** The three tests that [get_active_reservations] makes before it appends
    a reservation to its result. *)
Definition listed (project_key : string) (now : datetime)
    (res : FileReservation.t) : bool :=
  String.eqb (FileReservation.project_key res) project_key
  && ReservationStatus_eqb (FileReservation.status res) ACTIVE
  && (now <? FileReservation.expires_at res).

(** Every issue is stored under its own id, and no key occurs twice. *)
Definition keyed (store : PyDict.dict Issue.t) : Prop :=
  NoDup (PyDict.keys store)
  /\ forall k issue, In (k, issue) store -> Issue.id issue = k.

(** The last line of a log that carries the id [k]. *)
Definition last_record (k : string) (lines : list Issue.t) : option Issue.t :=
  find (fun issue => String.eqb (Issue.id issue) k) (rev lines).

(** The three filters of [list_issues], as one test. *)
Definition selected (status : option IssueStatus) (assignee : option string)
    (blocked : bool) (i : Issue.t) : bool :=
  match status with
  | Some s => IssueStatus_eqb (Issue.status i) s
  | None => true
  end
  && (if truthy_str assignee
      then Beads.assignee_is (Issue.assignee i) assignee
      else true)
  && (if blocked
      then negb (IssueStatus_eqb (Issue.status i) BLOCKED)
           && match Issue.blocked_by i with
              | [] => false
              | _ :: _ => true
              end
      else true).

(* ===================================================================== *)
(** ** The module-level accessors of [agent_mail.py] *)
(* ===================================================================== *)

(** The two global variables of the module, and the files that the
    constructors read: for each [base_path], the database file of an
    [AgentMail] and the lines of the log of a [Beads]. A path without a
    file stands for a directory that the constructor creates empty. *)
Module Process.
Import PyDict.

Record t : Type := mk {
  _agent_mail_instance : option AgentMail.t;
  _beads_instance : option Beads.t;
  mail_files : dict Database.t;
  beads_files : dict (list Issue.t)
}.

(** [get_agent_mail(base_path)]: the instance, created first when the
    global is [None]. *)
Definition get_agent_mail (base_path : string) : Py t AgentMail.t :=
  self <- get_self ;;
  match _agent_mail_instance self with
  | None =>
      let instance :=
        AgentMail.init
          (get_default base_path (mail_files self) (Database.mk [] [] [])) in
      modify (fun self =>
                mk (Some instance) (_beads_instance self) (mail_files self)
                   (beads_files self)) ;;
      ret instance
  | Some instance => ret instance
  end.

(** [get_beads(base_path)] *)
Definition get_beads (base_path : string) : Py t Beads.t :=
  self <- get_self ;;
  match _beads_instance self with
  | None =>
      let instance :=
        Beads.init (get_default base_path (beads_files self) []) in
      modify (fun self =>
                mk (_agent_mail_instance self) (Some instance)
                   (mail_files self) (beads_files self)) ;;
      ret instance
  | Some instance => ret instance
  end.

(** [get_agent_mail(base_path).method(...)]: the method runs on the
    instance itself, so what it assigns stays in the global, also when it
    raises. *)
Definition call_agent_mail {A : Type} (base_path : string)
    (method : Py AgentMail.t A) : Py t A :=
  fun self w =>
    match get_agent_mail base_path self w with
    | mkRan (Return instance) self1 w1 =>
        match method instance w1 with
        | mkRan r instance' w2 =>
            mkRan r
              (mk (Some instance') (_beads_instance self1)
                  (mail_files self1) (beads_files self1))
              w2
        end
    | mkRan (Raise e) self1 w1 => mkRan (Raise e) self1 w1
    end.

(** [get_beads(base_path).method(...)] *)
Definition call_beads {A : Type} (base_path : string)
    (method : Py Beads.t A) : Py t A :=
  fun self w =>
    match get_beads base_path self w with
    | mkRan (Return instance) self1 w1 =>
        match method instance w1 with
        | mkRan r instance' w2 =>
            mkRan r
              (mk (_agent_mail_instance self1) (Some instance')
                  (mail_files self1) (beads_files self1))
              w2
        end
    | mkRan (Raise e) self1 w1 => mkRan (Raise e) self1 w1
    end.
End Process.

(* ===================================================================== *)
(** ** class DashboardState of [dashboard.py] *)
(* ===================================================================== *)

(** The state that the route handlers keep beside the coordination core.
    A record of the dashboard is a dictionary of scalar JSON values.
    [isoformat] is [datetime.isoformat]. *)
Module Dashboard.
Import PyDict.

Inductive Json : Type :=
  | JStr (s : string)
  | JNum (n : Z)
  | JBool (b : bool)
  | JNull.

(** [v == s] for a string [s]; a missing value is [None]. *)
Definition equals_str (v : option Json) (s : string) : bool :=
  match v with
  | Some (JStr x) => String.eqb x s
  | _ => false
  end.

Record t : Type := mk {
  agents : dict (dict Json);
  messages : list (dict Json);
  issues : list (dict Json);
  reservations : list (dict Json);
  logs : list (dict Json);
  workflows : dict Json
}.

Definition set_logs (x : list (dict Json)) (self : t) : t :=
  mk (agents self) (messages self) (issues self) (reservations self) x
     (workflows self).

Definition set_issues (x : list (dict Json)) (self : t) : t :=
  mk (agents self) (messages self) x (reservations self) (logs self)
     (workflows self).

Definition set_agents (x : dict (dict Json)) (self : t) : t :=
  mk x (messages self) (issues self) (reservations self) (logs self)
     (workflows self).

(** [socketio.emit(event, payload, broadcast=True)] on the server object
    [socketio = SocketIO(app, ...)]: its [emit] hands the keywords that it
    does not know on to the [emit] of the python-socketio server, which has
    no parameter [broadcast]. The call raises [TypeError] and nothing is
    sent. *)
Definition emit (event : string) (payload : dict Json) : Py t unit :=
  raise (TypeError "emit() got an unexpected keyword argument 'broadcast'").

(** [l[-n:]] *)
Definition last_n {A : Type} (n : nat) (l : list A) : list A :=
  skipn (length l - n) l.

(** [{**a, **b}] *)
Definition merge (a b : dict Json) : dict Json :=
  fold_left (fun d kv => set (fst kv) (snd kv) d) b a.

Section WithIsoformat.
Variable isoformat : datetime -> string.

Definition add_log (level message source : string) : Py t unit :=
  now <- utcnow ;;
  let log := [("timestamp", JStr (isoformat now)); ("level", JStr level);
              ("message", JStr message); ("source", JStr source)] in
  modify (fun self => set_logs (logs self ++ [log])%list self) ;;
  self <- get_self ;;
  (if (1000 <? length (logs self))%nat
   then modify (fun self => set_logs (last_n 1000 (logs self)) self)
   else ret tt) ;;
  emit "log_update" log.

Definition update_agent (agent_id : string) (data : dict Json)
  : Py t unit :=
  self <- get_self ;;
  now <- utcnow ;;
  let record :=
    set "updated_at" (JStr (isoformat now))
        (merge (get_default agent_id (agents self) []) data) in
  modify (fun self => set_agents (set agent_id record (agents self)) self) ;;
  emit "agent_update" record.
End WithIsoformat.

(** The loop of [update_issue] over [enumerate(self.issues)]: the list
    with the first issue of that id replaced, and the replacement. *)
Fixpoint replace_first (issue_id : string) (data : dict Json)
    (todo : list (dict Json)) : list (dict Json) * option (dict Json) :=
  match todo with
  | [] => ([], None)
  | issue :: rest =>
      if equals_str (get "id" issue) issue_id
      then (merge issue data :: rest, Some (merge issue data))
      else let (rest', hit) := replace_first issue_id data rest in
           (issue :: rest', hit)
  end.

Definition update_issue (issue_id : string) (data : dict Json) : Py t unit :=
  self <- get_self ;;
  let (issues', hit) := replace_first issue_id data (issues self) in
  modify (set_issues issues') ;;
  match hit with
  | Some updated => emit "issue_update" updated
  | None => ret tt
  end.
End Dashboard.

Module Scenes.
(** alice's exclusive lease of an hour, released by its id. *)
Definition alice_released : Ran AgentMail.t bool :=
  AgentMail.release_reservation "3f2a9c1e-7b4"
    (self_after Demo.alice_exclusive) (world_after Demo.alice_exclusive).

(** A store that holds alice's lease of a minute on "/src/a.py", still
    marked active a day after it expired. *)
Definition lapsed_store : AgentMail.t :=
  AgentMail.mk PyDict.empty PyDict.empty
    [("9d1c55e0-a27",
      FileReservation.mk "9d1c55e0-a27" "web" "alice" ["/src/a.py"] true
        ACTIVE 1699913540000000 1699913600000000 60)]
    (Database.mk [] [] []).

(** A database file left by an earlier process: alice's active lease on
    ["/src"] is one of its rows. *)
Definition old_disk : Database.t :=
  Database.mk [] []
    [FileReservation.mk "77aa11bb-c0d" "web" "alice" ["/src"] true ACTIVE
       1600000000000000 1900000000000000 300000000].

(** A database file in which the id that [Demo.world] draws first is
    already a row of both tables. *)
Definition used_disk : Database.t :=
  Database.mk []
    [Message.mk "3f2a9c1e-7b4" "web" "carol" "dave" "old" "" None 5 false]
    [FileReservation.mk "3f2a9c1e-7b4" "web" "carol" ["/tmp"] true RELEASED
       1 2 1].

(** A process in which nothing has been built yet, over a disk without
    files. *)
Definition fresh_process : Process.t :=
  Process.mk None None PyDict.empty PyDict.empty.

(** [isoformat], for the examples: the digits are left out. *)
Definition iso (t : datetime) : string :=
  if t =? 1700000000000000 then "2023-11-14T22:13:20"
  else "2023-11-14T22:13:20.000001".

(** A dashboard that shows two issues of the same id. *)
Definition board : Dashboard.t :=
  Dashboard.mk PyDict.empty []
    [[("id", Dashboard.JStr "bd-1"); ("status", Dashboard.JStr "backlog")];
     [("id", Dashboard.JStr "bd-2"); ("status", Dashboard.JStr "backlog")];
     [("id", Dashboard.JStr "bd-2"); ("status", Dashboard.JStr "ready")]]
    [] [] PyDict.empty.

(** The issue "parser" is created a second time, naming the id of the
    first; the digest of [Demo.world] gives both the same id. *)
Definition parser_again : Ran Beads.t Issue.t :=
  Beads.create_issue "parser" "rewrite" "high" None (Some ["bd-a1b2c3"])
    (self_after Demo.parser_created) (world_after Demo.parser_created).
End Scenes.

(* ===================================================================== *)
(** ** Facts about strings, lists and dictionaries *)
(* ===================================================================== *)

Lemma prefix_refl : forall s : string, String.prefix s s = true.
Proof.
  induction s as [| c s IH]; simpl.
  - reflexivity.
  - destruct (Ascii.ascii_dec c c) as [_ | Hneq]; [exact IH | congruence].
Qed.

Lemma IssueStatus_eqb_eq : forall a b, IssueStatus_eqb a b = true <-> a = b.
Proof. intros [] []; simpl; split; congruence. Qed.

Lemma ReservationStatus_eqb_eq :
  forall a b, ReservationStatus_eqb a b = true <-> a = b.
Proof. intros [] []; simpl; split; congruence. Qed.

Section DictFacts.
Import PyDict.
Context {V : Type}.
Implicit Types (d : dict V) (k : string) (v : V).

Lemma get_set_same : forall d k v, get k (set k v d) = Some v.
Proof.
  induction d as [| [k' v'] d IH]; intros k v; simpl.
  - now rewrite String.eqb_refl.
  - destruct (String.eqb k k') eqn:E; simpl.
    + now rewrite String.eqb_refl.
    + rewrite E. apply IH.
Qed.

Lemma get_set_other :
  forall d k k' v, k' <> k -> get k' (set k v d) = get k' d.
Proof.
  induction d as [| [k0 v0] d IH]; intros k k' v Hne; simpl.
  - apply String.eqb_neq in Hne. now rewrite Hne.
  - destruct (String.eqb k k0) eqn:E; simpl.
    + apply String.eqb_eq in E. subst k0.
      apply String.eqb_neq in Hne. now rewrite Hne.
    + destruct (String.eqb k' k0); [reflexivity | now apply IH].
Qed.

Lemma get_adjust_same :
  forall (f : V -> V) d k, get k (adjust f k d) = option_map f (get k d).
Proof.
  intros f. induction d as [| [k0 v0] d IH]; intros k; simpl.
  - reflexivity.
  - destruct (String.eqb k k0) eqn:E; simpl; rewrite E.
    + reflexivity.
    + apply IH.
Qed.

Lemma get_adjust_other :
  forall (f : V -> V) d k k', k' <> k -> get k' (adjust f k d) = get k' d.
Proof.
  intros f. induction d as [| [k0 v0] d IH]; intros k k' Hne; simpl.
  - reflexivity.
  - destruct (String.eqb k k0) eqn:E; simpl.
    + apply String.eqb_eq in E. subst k0.
      apply String.eqb_neq in Hne. now rewrite Hne.
    + destruct (String.eqb k' k0); [reflexivity | now apply IH].
Qed.

Lemma get_adjust :
  forall (f : V -> V) d k k',
    get k' (adjust f k d)
    = if String.eqb k' k then option_map f (get k' d) else get k' d.
Proof.
  intros f d k k'. destruct (String.eqb k' k) eqn:E.
  - apply String.eqb_eq in E. subst. apply get_adjust_same.
  - apply String.eqb_neq in E. now apply get_adjust_other.
Qed.

Lemma mem_true_get : forall d k, mem k d = true <-> exists v, get k d = Some v.
Proof.
  intros d k. unfold mem. destruct (get k d) as [v |].
  - split; [eauto | reflexivity].
  - split; [discriminate | intros [v Hv]; discriminate].
Qed.

Lemma mem_false_get : forall d k, mem k d = false <-> get k d = None.
Proof.
  intros d k. unfold mem. destruct (get k d); split; congruence.
Qed.

Lemma get_some_in_items : forall d k v, get k d = Some v -> In (k, v) d.
Proof.
  induction d as [| [k0 v0] d IH]; intros k v; simpl.
  - discriminate.
  - destruct (String.eqb k k0) eqn:E.
    + apply String.eqb_eq in E. intros [= ->]. left. now subst.
    + intros H. right. now apply IH.
Qed.

Lemma get_some_in_values : forall d k v, get k d = Some v -> In v (values d).
Proof.
  intros d k v H. apply get_some_in_items in H.
  unfold values. change v with (snd (k, v)). now apply in_map.
Qed.

Lemma in_values_items : forall d v, In v (values d) -> exists k, In (k, v) d.
Proof.
  intros d v H. unfold values in H. apply in_map_iff in H.
  destruct H as [[k v'] [Hv Hin]]. simpl in Hv. subst. eauto.
Qed.
End DictFacts.

(* ===================================================================== *)
(** ** The reservation manager *)
(* ===================================================================== *)

Section Reservations.
Import PyDict.
Import AgentMail.

Lemma paths_overlap_intro :
  forall reserved requested p q,
    In p reserved -> In q requested ->
    String.prefix p q = true \/ p = q \/ String.prefix q p = true ->
    paths_overlap reserved requested = true.
Proof.
  intros reserved requested p q Hp Hq H.
  unfold paths_overlap. apply existsb_exists. exists q. split; [exact Hq |].
  unfold overlaps_any. apply existsb_exists. exists p. split; [exact Hp |].
  unfold startswith. apply orb_true_iff.
  destruct H as [H | [H | H]].
  - right. exact H.
  - subst q. left. apply prefix_refl.
  - left. exact H.
Qed.

Lemma paths_overlap_elim :
  forall reserved requested,
    paths_overlap reserved requested = true ->
    exists p q, In p reserved /\ In q requested
                /\ (String.prefix p q = true \/ String.prefix q p = true).
Proof.
  intros reserved requested H.
  unfold paths_overlap in H. apply existsb_exists in H.
  destruct H as [q [Hq H]]. unfold overlaps_any in H.
  apply existsb_exists in H. destruct H as [p [Hp H]].
  unfold startswith in H. apply orb_true_iff in H.
  exists p, q. tauto.
Qed.

Lemma check_paths_run :
  forall res agent_name paths self w,
    check_paths res agent_name paths self w
    = if negb (String.eqb (FileReservation.agent_name res) agent_name)
         && paths_overlap (FileReservation.paths res) paths
      then mkRan (Raise (ValueError (FileReservation.agent_name res)
                                    (FileReservation.paths res))) self w
      else mkRan (Return tt) self w.
Proof.
  intros res agent_name paths self w.
  induction paths as [| path rest IH]; simpl.
  - now rewrite andb_false_r.
  - unfold paths_overlap in *. simpl.
    destruct (overlaps_any path (FileReservation.paths res)); simpl.
    + destruct (negb (String.eqb (FileReservation.agent_name res)
                                 agent_name)) eqn:E; simpl.
      * reflexivity.
      * rewrite IH. reflexivity.
    + exact IH.
Qed.

Lemma check_conflicts_run :
  forall items agent_name paths self w,
    check_conflicts items agent_name paths self w
    = match first_blocker items agent_name paths with
      | Some (_, res) =>
          mkRan (Raise (ValueError (FileReservation.agent_name res)
                                   (FileReservation.paths res))) self w
      | None => mkRan (Return tt) self w
      end.
Proof.
  intros items agent_name paths self w.
  induction items as [| [k res] rest IH]; simpl.
  - reflexivity.
  - unfold bind, blocks. simpl.
    destruct (ReservationStatus_eqb (FileReservation.status res) ACTIVE);
      simpl.
    + rewrite check_paths_run.
      destruct (negb (String.eqb (FileReservation.agent_name res)
                                 agent_name)
                && paths_overlap (FileReservation.paths res) paths).
      * reflexivity.
      * exact IH.
    + exact IH.
Qed.

Lemma first_blocker_some :
  forall items agent_name paths res,
    In res (values items) -> blocks res agent_name paths = true ->
    exists k blocker,
      first_blocker items agent_name paths = Some (k, blocker)
      /\ In blocker (values items)
      /\ blocks blocker agent_name paths = true.
Proof.
  intros items agent_name paths res Hin Hb.
  apply in_values_items in Hin. destruct Hin as [k Hin].
  unfold first_blocker.
  destruct (find (fun kv => blocks (snd kv) agent_name paths) items)
    as [[k' blocker] |] eqn:E.
  - exists k', blocker. apply find_some in E. destruct E as [E1 E2].
    split; [reflexivity |]. split; [| exact E2].
    unfold values. change blocker with (snd (k', blocker)).
    now apply in_map.
  - exfalso. apply (find_none _ _ E) in Hin. simpl in Hin. congruence.
Qed.

Lemma first_blocker_none :
  forall items agent_name paths,
    (forall k res, In (k, res) items -> blocks res agent_name paths = false)
    -> first_blocker items agent_name paths = None.
Proof.
  intros items agent_name paths H. unfold first_blocker.
  destruct (find (fun kv => blocks (snd kv) agent_name paths) items)
    as [[k res] |] eqn:E; [| reflexivity].
  apply find_some in E. destruct E as [E1 E2]. simpl in E2.
  rewrite (H _ _ E1) in E2. discriminate.
Qed.

(** A blocked request raises before anything is read or written. *)
Lemma reserve_files_blocked :
  forall self w project_key agent_name paths exclusive ttl res,
    In res (values (reservations self)) ->
    blocks res agent_name paths = true ->
    exists blocker,
      In blocker (values (reservations self))
      /\ blocks blocker agent_name paths = true
      /\ reserve_files project_key agent_name paths exclusive ttl self w
         = mkRan (Raise (ValueError (FileReservation.agent_name blocker)
                                    (FileReservation.paths blocker)))
                 self w.
Proof.
  intros self w project_key agent_name paths exclusive ttl res Hin Hb.
  destruct (first_blocker_some _ _ _ _ Hin Hb) as [k [blocker [E [Hi Hk]]]].
  exists blocker. split; [exact Hi |]. split; [exact Hk |].
  unfold reserve_files, bind, get_self, items.
  rewrite check_conflicts_run, E. reflexivity.
Qed.

Lemma blocks_true_iff :
  forall res agent_name paths,
    blocks res agent_name paths = true <->
    FileReservation.status res = ACTIVE
    /\ FileReservation.agent_name res <> agent_name
    /\ paths_overlap (FileReservation.paths res) paths = true.
Proof.
  intros res agent_name paths. unfold blocks.
  rewrite !andb_true_iff, negb_true_iff, ReservationStatus_eqb_eq.
  rewrite String.eqb_neq. tauto.
Qed.

End Reservations.

Section Leases.
Import PyDict.
Import AgentMail.

Lemma sweep_active :
  forall project_key now items x,
    In x (fst (sweep project_key now items)) ->
    In x (values items)
    /\ FileReservation.project_key x = project_key
    /\ FileReservation.status x = ACTIVE
    /\ now < FileReservation.expires_at x.
Proof.
  intros project_key now items.
  induction items as [| [k res] rest IH]; intros x; simpl.
  - intros [].
  - destruct (sweep project_key now rest) as [active rest'] eqn:E.
    simpl in IH.
    destruct (String.eqb (FileReservation.project_key res) project_key)
      eqn:Ep; [| simpl; intros H; apply IH in H; tauto].
    destruct (ReservationStatus_eqb (FileReservation.status res) ACTIVE)
      eqn:Es; [| simpl; intros H; apply IH in H; tauto].
    destruct (now <? FileReservation.expires_at res) eqn:Et;
      [| simpl; intros H; apply IH in H; tauto].
    simpl. intros [<- | H].
    + apply String.eqb_eq in Ep. apply ReservationStatus_eqb_eq in Es.
      apply Z.ltb_lt in Et. tauto.
    + apply IH in H. tauto.
Qed.

Lemma sweep_store :
  forall project_key now items,
    snd (sweep project_key now items)
    = map (fun kv => (fst kv, swept_one project_key now (snd kv))) items.
Proof.
  intros project_key now items.
  induction items as [| [k res] rest IH]; simpl.
  - reflexivity.
  - destruct (sweep project_key now rest) as [active rest'] eqn:E.
    simpl in IH. subst rest'. unfold swept_one.
    destruct (String.eqb (FileReservation.project_key res) project_key);
      simpl; [| reflexivity].
    destruct (ReservationStatus_eqb (FileReservation.status res) ACTIVE);
      simpl; [| reflexivity].
    destruct (now <? FileReservation.expires_at res); reflexivity.
Qed.

Lemma get_map_values :
  forall (f : FileReservation.t -> FileReservation.t)
         (items : dict FileReservation.t) k,
    get k (map (fun kv => (fst kv, f (snd kv))) items)
    = option_map f (get k items).
Proof.
  intros f items. induction items as [| [k0 r0] rest IH]; intros k; simpl.
  - reflexivity.
  - destruct (String.eqb k k0); [reflexivity | apply IH].
Qed.

Lemma get_active_reservations_run :
  forall project_key self w,
    get_active_reservations project_key self w
    = mkRan
        (Return (fst (sweep project_key (utcnow_at w (ticks w))
                            (reservations self))))
        (set_reservations
           (map (fun kv => (fst kv,
                            swept_one project_key (utcnow_at w (ticks w))
                                      (snd kv)))
                (reservations self)) self)
        (mkWorld (utcnow_at w) (S (ticks w)) (uuid4_at w) (draws w)
                 (digest6 w)).
Proof.
  intros project_key self w.
  unfold get_active_reservations, bind, utcnow, get_self, modify, ret.
  simpl. rewrite <- sweep_store.
  destruct (sweep project_key (utcnow_at w (ticks w)) (reservations self)).
  reflexivity.
Qed.

Lemma swept_one_blocks :
  forall project_key now res agent_name paths,
    blocks res agent_name paths = false ->
    blocks (swept_one project_key now res) agent_name paths = false.
Proof.
  intros project_key now res agent_name paths H. unfold swept_one.
  destruct (String.eqb (FileReservation.project_key res) project_key
            && ReservationStatus_eqb (FileReservation.status res) ACTIVE
            && negb (now <? FileReservation.expires_at res)).
  - reflexivity.
  - exact H.
Qed.

Lemma swept_one_lapsed :
  forall now res agent_name paths,
    FileReservation.expires_at res <= now ->
    blocks (swept_one (FileReservation.project_key res) now res)
           agent_name paths = false.
Proof.
  intros now res agent_name paths Hexp. unfold swept_one.
  rewrite String.eqb_refl.
  assert (Hlt : (now <? FileReservation.expires_at res) = false)
    by (apply Z.ltb_ge; exact Hexp).
  rewrite Hlt. simpl.
  destruct (ReservationStatus_eqb (FileReservation.status res) ACTIVE)
    eqn:Es; simpl.
  - reflexivity.
  - unfold blocks. rewrite Es. reflexivity.
Qed.

(** The reservation that a successful [reserve_files] builds in the
    world [w]: one uuid, then the clock for [expires_at], then the clock
    for [created_at]. *)
Lemma reserve_files_free :
  forall self w project_key agent_name paths exclusive ttl,
    (forall k res, In (k, res) (reservations self) ->
                   blocks res agent_name paths = false) ->
    (forall row, In row (Database.reservations (db self)) ->
                 FileReservation.id row <> uuid4_at w (draws w)) ->
    expiry_ok (utcnow_at w (ticks w)) ttl = true ->
    exists self' w',
      reserve_files project_key agent_name paths exclusive ttl self w
      = mkRan
          (Return (FileReservation.mk (uuid4_at w (draws w)) project_key
                     agent_name paths exclusive ACTIVE
                     (utcnow_at w (S (ticks w)))
                     (utcnow_at w (ticks w) + timedelta_seconds ttl) ttl))
          self' w'
      /\ reservations self'
         = set (uuid4_at w (draws w))
             (FileReservation.mk (uuid4_at w (draws w)) project_key
                agent_name paths exclusive ACTIVE
                (utcnow_at w (S (ticks w)))
                (utcnow_at w (ticks w) + timedelta_seconds ttl) ttl)
             (reservations self).
Proof.
  intros self w project_key agent_name paths exclusive ttl Hfree Hfresh Hok.
  unfold reserve_files, bind, get_self, items.
  rewrite check_conflicts_run, (first_blocker_none _ _ _ Hfree).
  unfold FileReservation.new, add_timedelta, bind, uuid4_12, utcnow, modify,
    ret.
  simpl. rewrite Hok. simpl.
  unfold Database.insert_reservation. simpl.
  destruct (existsb _ (Database.reservations (db self))) eqn:E.
  - exfalso. apply existsb_exists in E. destruct E as [row [Hin Heq]].
    apply String.eqb_eq in Heq. exact (Hfresh row Hin Heq).
  - simpl. eexists. eexists. split; reflexivity.
Qed.

End Leases.

Section ReservationClaims.
Import PyDict.
Import AgentMail.

(** C1. Let agent A hold a reservation [res] that is active, not yet
    expired and exclusive, and let agent B, different from A, request a
    path set [p2] in which some path has a path of [res] as a prefix, is
    equal to one, or is a prefix of one. Then [reserve_files] raises the
    conflict error, which carries the agent name and the paths of a
    reservation that blocks B (active, of another agent, overlapping
    [p2]), and those of [res] itself when no other reservation blocks B;
    the object and the world are left as they were, so nothing is reserved
    for B. *)
Theorem reserve_files_conflict :
  forall (self : AgentMail.t) (w : World) (now : datetime)
         (res : FileReservation.t) (project_key agent_b : string)
         (p2 : list string) (exclusive : bool) (ttl_seconds : Z),
    In res (values (reservations self)) ->
    FileReservation.agent_name res <> agent_b ->
    FileReservation.status res = ACTIVE ->
    now < FileReservation.expires_at res ->
    FileReservation.exclusive res = true ->
    (exists p q,
        In p (FileReservation.paths res) /\ In q p2
        /\ (String.prefix p q = true \/ p = q \/ String.prefix q p = true)) ->
    exists blocker,
      In blocker (values (reservations self))
      /\ FileReservation.status blocker = ACTIVE
      /\ FileReservation.agent_name blocker <> agent_b
      /\ paths_overlap (FileReservation.paths blocker) p2 = true
      /\ reserve_files project_key agent_b p2 exclusive ttl_seconds self w
         = mkRan (Raise (ValueError (FileReservation.agent_name blocker)
                                    (FileReservation.paths blocker)))
                 self w
      /\ ((forall other,
              In other (values (reservations self)) ->
              blocks other agent_b p2 = true -> other = res) ->
          blocker = res).
Proof.
  intros self w now res project_key agent_b p2 exclusive ttl_seconds
         Hin Hagent Hstatus _ _ [p [q [Hp [Hq Hpq]]]].
  assert (Hb : blocks res agent_b p2 = true).
  { apply blocks_true_iff. split; [exact Hstatus |].
    split; [exact Hagent |]. exact (paths_overlap_intro _ _ p q Hp Hq Hpq). }
  destruct (reserve_files_blocked self w project_key agent_b p2 exclusive
              ttl_seconds res Hin Hb) as [blocker [Hi [Hk Hrun]]].
  assert (Honly : (forall other,
                      In other (values (reservations self)) ->
                      blocks other agent_b p2 = true -> other = res) ->
                  blocker = res)
    by (intros Honly; exact (Honly blocker Hi Hk)).
  apply blocks_true_iff in Hk. destruct Hk as [Hs [Ha Ho]].
  exists blocker. repeat split; assumption.
Qed.

Lemma reserve_files_conflict_witness :
  exists blocker,
    In blocker (values (reservations (self_after Demo.alice_exclusive)))
    /\ FileReservation.status blocker = ACTIVE
    /\ FileReservation.agent_name blocker <> "bob"
    /\ paths_overlap (FileReservation.paths blocker)
                     ["/src/a.py"; "/src/b.py"] = true
    /\ reserve_files "web" "bob" ["/src/a.py"; "/src/b.py"] true 3600
         (self_after Demo.alice_exclusive)
         (world_after Demo.alice_exclusive)
       = mkRan (Raise (ValueError (FileReservation.agent_name blocker)
                                  (FileReservation.paths blocker)))
               (self_after Demo.alice_exclusive)
               (world_after Demo.alice_exclusive)
    /\ ((forall other,
            In other (values (reservations (self_after Demo.alice_exclusive)))
            -> blocks other "bob" ["/src/a.py"; "/src/b.py"] = true ->
            other
            = FileReservation.mk "3f2a9c1e-7b4" "web" "alice" ["/src/a.py"]
                true ACTIVE 1700000000000001 1700003600000000 3600) ->
        blocker
        = FileReservation.mk "3f2a9c1e-7b4" "web" "alice" ["/src/a.py"]
            true ACTIVE 1700000000000001 1700003600000000 3600).
Proof.
  apply (reserve_files_conflict
           (self_after Demo.alice_exclusive)
           (world_after Demo.alice_exclusive)
           1700000000000002
           (FileReservation.mk "3f2a9c1e-7b4" "web" "alice" ["/src/a.py"]
              true ACTIVE 1700000000000001 1700003600000000 3600)
           "web" "bob" ["/src/a.py"; "/src/b.py"] true 3600).
  - vm_compute. left. reflexivity.
  - simpl. discriminate.
  - reflexivity.
  - simpl. lia.
  - reflexivity.
  - exists "/src/a.py", "/src/a.py". simpl. tauto.
Defined.

(** C10. The conflict check looks neither at the exclusive flag of the
    stored reservation or of the request, nor at their project keys:
    whatever the values [res_exclusive] and [res_project] of an active
    reservation of another agent whose paths overlap the request, and
    whatever the [exclusive] and [project_key] of the request,
    [reserve_files] raises the conflict error and changes nothing. *)
Theorem conflict_check_ignores_exclusive_and_project :
  forall (self : AgentMail.t) (w : World) (res : FileReservation.t)
         (res_exclusive : bool) (res_project : string)
         (project_key agent_b : string) (p2 : list string)
         (exclusive : bool) (ttl_seconds : Z),
    In res (values (reservations self)) ->
    FileReservation.exclusive res = res_exclusive ->
    FileReservation.project_key res = res_project ->
    FileReservation.status res = ACTIVE ->
    FileReservation.agent_name res <> agent_b ->
    paths_overlap (FileReservation.paths res) p2 = true ->
    exists blocker,
      In blocker (values (reservations self))
      /\ blocks blocker agent_b p2 = true
      /\ reserve_files project_key agent_b p2 exclusive ttl_seconds self w
         = mkRan (Raise (ValueError (FileReservation.agent_name blocker)
                                    (FileReservation.paths blocker)))
                 self w.
Proof.
  intros self w res res_exclusive res_project project_key agent_b p2
         exclusive ttl_seconds Hin _ _ Hstatus Hagent Hover.
  apply (reserve_files_blocked self w project_key agent_b p2 exclusive
           ttl_seconds res Hin).
  apply blocks_true_iff. auto.
Qed.

(** alice's reservation is shared and in project "web"; bob asks for a
    shared reservation in project "docs". *)
Lemma conflict_check_ignores_exclusive_and_project_witness :
  exists blocker,
    In blocker (values (reservations (self_after Demo.alice_holds)))
    /\ blocks blocker "bob" ["/src"] = true
    /\ reserve_files "docs" "bob" ["/src"] false 60
         (self_after Demo.alice_holds) (world_after Demo.alice_holds)
       = mkRan (Raise (ValueError (FileReservation.agent_name blocker)
                                  (FileReservation.paths blocker)))
               (self_after Demo.alice_holds) (world_after Demo.alice_holds).
Proof.
  apply (conflict_check_ignores_exclusive_and_project
           (self_after Demo.alice_holds) (world_after Demo.alice_holds)
           (FileReservation.mk "3f2a9c1e-7b4" "web" "alice" ["/src/a.py"]
              false ACTIVE 1700000000000001 1700003600000000 3600)
           false "web" "docs" "bob" ["/src"] false 60).
  - vm_compute. left. reflexivity.
  - reflexivity.
  - reflexivity.
  - reflexivity.
  - simpl. discriminate.
  - reflexivity.
Defined.

(** C2. The claim does not hold of [reserve_files]: the method tests the
    status of a stored reservation and never its [expires_at], which
    [get_active_reservations] does compare with the clock. Let [res] be
    stored with status active and an [expires_at] that the time [now] has
    reached, however long ago, and let another agent request overlapping
    paths. Then [reserve_files] raises the conflict error in the name of a
    blocking reservation, of [res] itself when no other one blocks, and
    nothing is changed. *)
Theorem lapsed_reservation_blocks :
  forall (self : AgentMail.t) (w : World) (now : datetime)
         (res : FileReservation.t) (project_key agent_b : string)
         (p2 : list string) (exclusive : bool) (ttl_seconds : Z),
    In res (values (reservations self)) ->
    FileReservation.status res = ACTIVE ->
    FileReservation.expires_at res <= now ->
    FileReservation.agent_name res <> agent_b ->
    paths_overlap (FileReservation.paths res) p2 = true ->
    exists blocker,
      In blocker (values (reservations self))
      /\ blocks blocker agent_b p2 = true
      /\ reserve_files project_key agent_b p2 exclusive ttl_seconds self w
         = mkRan (Raise (ValueError (FileReservation.agent_name blocker)
                                    (FileReservation.paths blocker)))
                 self w
      /\ ((forall other,
              In other (values (reservations self)) ->
              blocks other agent_b p2 = true -> other = res) ->
          blocker = res).
Proof.
  intros self w now res project_key agent_b p2 exclusive ttl_seconds
         Hin Hstatus _ Hagent Hover.
  assert (Hb : blocks res agent_b p2 = true)
    by (apply blocks_true_iff; auto).
  destruct (reserve_files_blocked self w project_key agent_b p2 exclusive
              ttl_seconds res Hin Hb) as [blocker [Hi [Hk Hrun]]].
  exists blocker. split; [exact Hi |]. split; [exact Hk |].
  split; [exact Hrun |]. intros Honly. exact (Honly blocker Hi Hk).
Qed.

(** The store holds alice's lease on "/src/a.py", which expired a day
    before the clock reading of [Demo.world]; bob asks for the same
    path. *)
Lemma lapsed_reservation_blocks_witness :
  exists blocker,
    In blocker (values (reservations Scenes.lapsed_store))
    /\ blocks blocker "bob" ["/src/a.py"] = true
    /\ reserve_files "web" "bob" ["/src/a.py"] true 3600 Scenes.lapsed_store
         Demo.world
       = mkRan (Raise (ValueError (FileReservation.agent_name blocker)
                                  (FileReservation.paths blocker)))
               Scenes.lapsed_store Demo.world
    /\ ((forall other,
            In other (values (reservations Scenes.lapsed_store)) ->
            blocks other "bob" ["/src/a.py"] = true ->
            other
            = FileReservation.mk "9d1c55e0-a27" "web" "alice" ["/src/a.py"]
                true ACTIVE 1699913540000000 1699913600000000 60) ->
        blocker
        = FileReservation.mk "9d1c55e0-a27" "web" "alice" ["/src/a.py"]
            true ACTIVE 1699913540000000 1699913600000000 60).
Proof.
  apply (lapsed_reservation_blocks Scenes.lapsed_store Demo.world
           (utcnow_at Demo.world (ticks Demo.world))
           (FileReservation.mk "9d1c55e0-a27" "web" "alice" ["/src/a.py"]
              true ACTIVE 1699913540000000 1699913600000000 60)
           "web" "bob" ["/src/a.py"] true 3600).
  - left. reflexivity.
  - reflexivity.
  - vm_compute. discriminate.
  - simpl. discriminate.
  - reflexivity.
Defined.

(** The same with a lease that [reserve_files] has granted for zero
    seconds in project "web": the listing of project "docs" leaves it out
    but does not touch its status, and bob's request is refused. *)
Example lapsed_reservation_still_blocks :
  (exists res,
      result Demo.alice_lapsed = Return res
      /\ FileReservation.expires_at res
         <= utcnow_at (world_after Demo.alice_lapsed)
                      (ticks (world_after Demo.alice_lapsed)))
  /\ result Demo.docs_listed = Return []
  /\ result (reserve_files "docs" "bob" ["/src/a.py"] true 3600
               (self_after Demo.docs_listed) (world_after Demo.docs_listed))
     = Raise (ValueError "alice" ["/src/a.py"]).
Proof.
  split.
  - eexists. split; [vm_compute; reflexivity |]. vm_compute. discriminate.
  - split; vm_compute; reflexivity.
Qed.

(** [reserve_files] does not read the clock before its check: without any
    listing in between, bob's request meets alice's lapsed lease as well. *)
Example lapsed_reservation_unswept :
  result (reserve_files "web" "bob" ["/src/a.py"] true 3600
            (self_after Demo.alice_lapsed) (world_after Demo.alice_lapsed))
  = Raise (ValueError "alice" ["/src/a.py"]).
Proof. vm_compute. reflexivity. Qed.

(** Let [res], stored under [rid], have an [expires_at] that is
    reached when the clock is read. Listing the active reservations of any
    project leaves [res] out; listing those of the project of [res] also
    replaces an active status of [res] by expired. After that listing, a
    request of an agent that no other stored reservation blocks, whose
    fresh id is not yet a row of the reservations table and whose expiry
    date can be represented, is granted. *)
Theorem lapsed_reservation_swept :
  forall (self : AgentMail.t) (w : World) (rid : string)
         (res : FileReservation.t) (project_key agent_b : string)
         (p2 : list string) (exclusive : bool) (ttl_seconds : Z),
    get rid (reservations self) = Some res ->
    FileReservation.expires_at res <= utcnow_at w (ticks w) ->
    FileReservation.agent_name res <> agent_b ->
    (forall k r, In (k, r) (reservations self) ->
                 r = res \/ blocks r agent_b p2 = false) ->
    (forall row, In row (Database.reservations (db self)) ->
                 FileReservation.id row <> uuid4_at w (draws w)) ->
    expiry_ok (utcnow_at w (S (ticks w))) ttl_seconds = true ->
    (forall any_project active,
        result (get_active_reservations any_project self w) = Return active ->
        ~ In res active)
    /\ exists active self1 w1 granted self2 w2,
        get_active_reservations (FileReservation.project_key res) self w
        = mkRan (Return active) self1 w1
        /\ ~ In res active
        /\ get rid (reservations self1)
           = Some (if ReservationStatus_eqb (FileReservation.status res)
                                            ACTIVE
                   then FileReservation.set_status EXPIRED res
                   else res)
        /\ reserve_files project_key agent_b p2 exclusive ttl_seconds
             self1 w1
           = mkRan (Return granted) self2 w2
        /\ FileReservation.agent_name granted = agent_b
        /\ FileReservation.paths granted = p2
        /\ FileReservation.status granted = ACTIVE
        /\ get (FileReservation.id granted) (reservations self2)
           = Some granted.
Proof.
  intros self w rid res project_key agent_b p2 exclusive ttl_seconds
         Hget Hexp Hagent Hothers Hfresh Hok.
  assert (Hout : forall any_project,
             ~ In res (fst (sweep any_project (utcnow_at w (ticks w))
                                  (reservations self)))).
  { intros any_project Hin. apply sweep_active in Hin.
    destruct Hin as [_ [_ [_ Hlt]]]. lia. }
  split.
  - intros any_project active Hrun.
    rewrite get_active_reservations_run in Hrun. simpl in Hrun.
    injection Hrun as <-. apply Hout.
  - rewrite get_active_reservations_run.
    set (now := utcnow_at w (ticks w)) in *.
    set (pk := FileReservation.project_key res).
    set (self1 := set_reservations
                    (map (fun kv => (fst kv, swept_one pk now (snd kv)))
                         (reservations self)) self).
    set (w1 := mkWorld (utcnow_at w) (S (ticks w)) (uuid4_at w) (draws w)
                       (digest6 w)).
    destruct (reserve_files_free self1 w1 project_key agent_b p2 exclusive
                ttl_seconds) as [self2 [w2 [Hrun Hstore]]].
    + intros k r Hin. unfold self1 in Hin. simpl in Hin.
      apply in_map_iff in Hin. destruct Hin as [[k0 r0] [Heq Hin0]].
      simpl in Heq. injection Heq as <- <-.
      destruct (Hothers _ _ Hin0) as [-> | Hnb].
      * apply swept_one_lapsed. exact Hexp.
      * apply swept_one_blocks. exact Hnb.
    + exact Hfresh.
    + exact Hok.
    + eexists. exists self1, w1. eexists. exists self2, w2.
      split; [reflexivity |]. split; [apply Hout |].
      split.
      { unfold self1. simpl. rewrite get_map_values, Hget. simpl.
        unfold swept_one, pk. rewrite String.eqb_refl.
        assert (Hlt : (now <? FileReservation.expires_at res) = false)
          by (apply Z.ltb_ge; exact Hexp).
        rewrite Hlt. simpl. rewrite andb_true_r. reflexivity. }
      split; [exact Hrun |].
      simpl. repeat split.
      rewrite Hstore. apply get_set_same.
Qed.

Lemma lapsed_reservation_swept_witness :
  (forall any_project active,
      result (get_active_reservations any_project
                (self_after Demo.alice_lapsed)
                (world_after Demo.alice_lapsed)) = Return active ->
      ~ In (FileReservation.mk "3f2a9c1e-7b4" "web" "alice" ["/src/a.py"]
              true ACTIVE 1700000000000001 1700000000000000 0) active)
  /\ exists active self1 w1 granted self2 w2,
      get_active_reservations "web" (self_after Demo.alice_lapsed)
        (world_after Demo.alice_lapsed)
      = mkRan (Return active) self1 w1
      /\ ~ In (FileReservation.mk "3f2a9c1e-7b4" "web" "alice"
                 ["/src/a.py"] true ACTIVE 1700000000000001
                 1700000000000000 0) active
      /\ get "3f2a9c1e-7b4" (reservations self1)
         = Some (FileReservation.mk "3f2a9c1e-7b4" "web" "alice"
                   ["/src/a.py"] true EXPIRED 1700000000000001
                   1700000000000000 0)
      /\ reserve_files "docs" "bob" ["/src/a.py"] true 3600 self1 w1
         = mkRan (Return granted) self2 w2
      /\ FileReservation.agent_name granted = "bob"
      /\ FileReservation.paths granted = ["/src/a.py"]
      /\ FileReservation.status granted = ACTIVE
      /\ get (FileReservation.id granted) (reservations self2)
         = Some granted.
Proof.
  apply (lapsed_reservation_swept
           (self_after Demo.alice_lapsed) (world_after Demo.alice_lapsed)
           "3f2a9c1e-7b4"
           (FileReservation.mk "3f2a9c1e-7b4" "web" "alice" ["/src/a.py"]
              true ACTIVE 1700000000000001 1700000000000000 0)
           "docs" "bob" ["/src/a.py"] true 3600).
  - reflexivity.
  - vm_compute. discriminate.
  - simpl. discriminate.
  - intros k r Hin. vm_compute in Hin. destruct Hin as [Heq | []].
    left. injection Heq as _ <-. reflexivity.
  - intros row Hin. vm_compute in Hin. destruct Hin as [<- | []].
    vm_compute. discriminate.
  - vm_compute. reflexivity.
Defined.

End ReservationClaims.

(* ===================================================================== *)
(** ** Sorting *)
(* ===================================================================== *)

Section Sorting.
Context {A : Type} (key : A -> Z).

Lemma insert_by_perm :
  forall x l, Permutation (insert_by key x l) (x :: l).
Proof.
  intros x. induction l as [| y r IH]; simpl.
  - apply Permutation_refl.
  - destruct (key x <=? key y).
    + apply Permutation_refl.
    + apply Permutation_trans with (y :: x :: r).
      * apply perm_skip. exact IH.
      * apply perm_swap.
Qed.

Lemma stable_sort_perm : forall l, Permutation (stable_sort key l) l.
Proof.
  induction l as [| x r IH]; simpl.
  - apply Permutation_refl.
  - apply Permutation_trans with (x :: stable_sort key r).
    + apply insert_by_perm.
    + apply perm_skip. exact IH.
Qed.

Lemma insert_by_ascending :
  forall x l,
    StronglySorted (fun a b => key a <= key b) l ->
    StronglySorted (fun a b => key a <= key b) (insert_by key x l).
Proof.
  intros x. induction l as [| y r IH]; intros Hs; simpl.
  - constructor; constructor.
  - inversion Hs as [| y' r' Hr Hall]; subst.
    destruct (Z.leb_spec (key x) (key y)) as [Hle | Hgt].
    + constructor; [exact Hs |]. constructor; [exact Hle |].
      apply Forall_forall. intros z Hz.
      rewrite Forall_forall in Hall. specialize (Hall z Hz). lia.
    + constructor; [apply IH; exact Hr |].
      apply Forall_forall. intros z Hz.
      apply (Permutation_in z (insert_by_perm x r)) in Hz.
      destruct Hz as [<- | Hz]; [lia |].
      rewrite Forall_forall in Hall. apply Hall. exact Hz.
Qed.

Lemma stable_sort_ascending :
  forall l, StronglySorted (fun a b => key a <= key b) (stable_sort key l).
Proof.
  induction l as [| x r IH]; simpl.
  - constructor.
  - apply insert_by_ascending. exact IH.
Qed.

Lemma insert_by_with_key :
  forall t x l,
    with_key key t (insert_by key x l)
    = if key x =? t then x :: with_key key t l else with_key key t l.
Proof.
  intros t x. unfold with_key.
  induction l as [| y r IH]; simpl.
  - reflexivity.
  - destruct (Z.leb_spec (key x) (key y)) as [Hle | Hgt]; simpl.
    + reflexivity.
    + rewrite IH.
      destruct (Z.eqb_spec (key x) t) as [Hx | Hx];
        destruct (Z.eqb_spec (key y) t) as [Hy | Hy];
        try reflexivity.
      lia.
Qed.

Lemma stable_sort_with_key :
  forall t l, with_key key t (stable_sort key l) = with_key key t l.
Proof.
  intros t. induction l as [| x r IH]; simpl.
  - reflexivity.
  - rewrite insert_by_with_key, IH. unfold with_key. simpl.
    destruct (key x =? t); reflexivity.
Qed.

Lemma StronglySorted_snoc :
  forall (R : A -> A -> Prop) l x,
    StronglySorted R l -> Forall (fun y => R y x) l ->
    StronglySorted R (l ++ [x]).
Proof.
  intros R. induction l as [| y r IH]; intros x Hs Hall; simpl.
  - constructor; constructor.
  - inversion Hs as [| y' r' Hr Hy]; subst.
    inversion Hall as [| y' r' Hyx Hrx]; subst.
    constructor.
    + apply IH; assumption.
    + apply Forall_app. split; [exact Hy |]. constructor; [exact Hyx |].
      constructor.
Qed.

Lemma StronglySorted_rev :
  forall (R : A -> A -> Prop) l,
    StronglySorted R l -> StronglySorted (fun a b => R b a) (rev l).
Proof.
  intros R. induction l as [| x r IH]; intros Hs; simpl.
  - constructor.
  - inversion Hs as [| x' r' Hr Hall]; subst.
    apply StronglySorted_snoc.
    + apply IH. exact Hr.
    + apply Forall_rev. exact Hall.
Qed.

(** [sorted(l, key=key, reverse=True)] holds the elements of [l], in
    weakly decreasing order of key, those of equal key in the order they
    have in [l]. *)
Lemma sorted_reverse_perm :
  forall l, Permutation (sorted key true l) l.
Proof.
  intros l. unfold sorted.
  apply Permutation_trans with (stable_sort key (rev l)).
  - apply Permutation_sym, Permutation_rev.
  - apply Permutation_trans with (rev l).
    + apply stable_sort_perm.
    + apply Permutation_sym, Permutation_rev.
Qed.

Lemma sorted_reverse_descending :
  forall l, StronglySorted (fun a b => key a >= key b) (sorted key true l).
Proof.
  intros l. unfold sorted.
  assert (H := StronglySorted_rev _ _ (stable_sort_ascending (rev l))).
  simpl in H. induction H as [| x r Hr IH Hall]; constructor.
  - exact IH.
  - apply Forall_forall. intros y Hy.
    rewrite Forall_forall in Hall. specialize (Hall y Hy). lia.
Qed.

Lemma sorted_reverse_stable :
  forall t l, with_key key t (sorted key true l) = with_key key t l.
Proof.
  intros t l. unfold sorted, with_key.
  rewrite filter_rev.
  change (filter (fun x => key x =? t) (stable_sort key (rev l)))
    with (with_key key t (stable_sort key (rev l))).
  rewrite stable_sort_with_key. unfold with_key.
  rewrite filter_rev. apply rev_involutive.
Qed.
End Sorting.

(* ===================================================================== *)
(** ** The identity registry and the mailbox *)
(* ===================================================================== *)

Section RegistryAndMailbox.
Import PyDict.
Import AgentMail.

(** A registration always returns: it draws one uuid and reads the clock
    twice, stores the new record under [name], mirrors it in the
    database and creates the inbox of [name] when there is none. *)
Lemma register_agent_run :
  forall self w name project_key program model capabilities,
    register_agent name project_key program model capabilities self w
    = mkRan
        (Return (Agent.mk (uuid4_at w (draws w)) name project_key program
                   model (list_or_empty capabilities)
                   (utcnow_at w (ticks w)) (utcnow_at w (S (ticks w)))))
        (mk (set name
                 (Agent.mk (uuid4_at w (draws w)) name project_key program
                    model (list_or_empty capabilities)
                    (utcnow_at w (ticks w)) (utcnow_at w (S (ticks w))))
                 (agents self))
            (if mem name (messages self) then messages self
             else set name [] (messages self))
            (reservations self)
            (Database.insert_or_replace_agent
               (Agent.mk (uuid4_at w (draws w)) name project_key program
                  model (list_or_empty capabilities)
                  (utcnow_at w (ticks w)) (utcnow_at w (S (ticks w))))
               (db self)))
        (mkWorld (utcnow_at w) (S (S (ticks w))) (uuid4_at w)
                 (S (draws w)) (digest6 w)).
Proof.
  intros self w name project_key program model capabilities.
  unfold register_agent, Agent.new, ensure_inbox, bind, uuid4_12, utcnow,
    modify, get_self, ret.
  simpl. destruct (mem name (messages self)); reflexivity.
Qed.

Lemma inbox_of_ensured :
  forall name (boxes : dict (list Message.t)),
    get name (if mem name boxes then boxes else set name [] boxes)
    = Some (get_default name boxes []).
Proof.
  intros name boxes. unfold mem, get_default.
  destruct (get name boxes) as [l |] eqn:E.
  - exact E.
  - apply get_set_same.
Qed.

Lemma get_ensured_other :
  forall name other (boxes : dict (list Message.t)),
    other <> name ->
    get other (if mem name boxes then boxes else set name [] boxes)
    = get other boxes.
Proof.
  intros name other boxes Hne.
  destruct (mem name boxes); [reflexivity | now apply get_set_other].
Qed.

(** C3, as stated, fails: the second registration of "alice" returns an
    agent with another id and another [registered_at]. *)
Lemma register_agent_again_new_identity :
  exists first second,
    result Demo.alice_registered = Return first
    /\ result Demo.alice_registered_again = Return second
    /\ Agent.name first = Agent.name second
    /\ Agent.id second <> Agent.id first
    /\ Agent.registered_at second <> Agent.registered_at first.
Proof.
  eexists. eexists.
  split; [vm_compute; reflexivity |].
  split; [vm_compute; reflexivity |].
  split; [reflexivity |].
  split; vm_compute; discriminate.
Qed.

(** C3, amended. Registering a name that is already registered replaces
    the whole record of that name: the agent returned and stored has the
    program, model and capabilities of the call, a newly drawn id, and
    [registered_at] and [last_active] read from the clock during the
    call. The other agents and every inbox, that of [name] included,
    are kept. *)
Theorem register_agent_again_replaces :
  forall (self : AgentMail.t) (w : World) (name : string) (old : Agent.t)
         (project_key program model : string)
         (capabilities : option (list string)),
    get name (agents self) = Some old ->
    exists agent self' w',
      register_agent name project_key program model capabilities self w
      = mkRan (Return agent) self' w'
      /\ agent = Agent.mk (uuid4_at w (draws w)) name project_key program
                   model (list_or_empty capabilities)
                   (utcnow_at w (ticks w)) (utcnow_at w (S (ticks w)))
      /\ get name (agents self') = Some agent
      /\ (forall other, other <> name ->
                        get other (agents self') = get other (agents self))
      /\ (forall any, inbox_of any self' = inbox_of any self).
Proof.
  intros self w name old project_key program model capabilities Hold.
  rewrite register_agent_run.
  eexists. eexists. eexists. split; [reflexivity |].
  split; [reflexivity |]. simpl.
  split; [apply get_set_same |].
  split; [intros other Hne; now apply get_set_other |].
  intros any. unfold inbox_of, get_default. simpl.
  destruct (String.eqb_spec any name) as [-> | Hne].
  - rewrite inbox_of_ensured. unfold get_default.
    destruct (get name (messages self)); reflexivity.
  - rewrite get_ensured_other by exact Hne. reflexivity.
Qed.

Lemma register_agent_again_replaces_witness :
  exists agent self' w',
    register_agent "alice" "web" "codex" "gpt" None
      (self_after Demo.alice_registered) (world_after Demo.alice_registered)
    = mkRan (Return agent) self' w'
    /\ agent = Agent.mk "a81d04c7-e55" "alice" "web" "codex" "gpt" []
                 1700000000000002 1700000000000003
    /\ get "alice" (agents self') = Some agent
    /\ (forall other, other <> "alice" ->
                      get other (agents self')
                      = get other (agents (self_after Demo.alice_registered)))
    /\ (forall any, inbox_of any self'
                    = inbox_of any (self_after Demo.alice_registered)).
Proof.
  apply (register_agent_again_replaces
           (self_after Demo.alice_registered)
           (world_after Demo.alice_registered) "alice"
           (Agent.mk "3f2a9c1e-7b4" "alice" "web" "claude" "opus" ["python"]
              1700000000000000 1700000000000001)
           "web" "codex" "gpt" None).
  reflexivity.
Defined.

(** C4, as stated, fails: the registration under the empty name returns
    an agent, and the registry then holds it. *)
Lemma register_agent_empty_name_accepted :
  exists agent,
    result Demo.nameless_registered = Return agent
    /\ Agent.name agent = ""
    /\ get "" (agents Demo.mail) = None
    /\ get "" (agents (self_after Demo.nameless_registered)) = Some agent.
Proof.
  eexists. split; [vm_compute; reflexivity |].
  repeat split.
Qed.

(** C4, amended. A call of [register_agent] with the empty name is not
    refused: it returns an agent whose name is empty, and the registry
    holds that agent under the empty name afterwards. *)
Theorem register_agent_empty_name :
  forall (self : AgentMail.t) (w : World)
         (project_key program model : string)
         (capabilities : option (list string)),
    exists agent self' w',
      register_agent "" project_key program model capabilities self w
      = mkRan (Return agent) self' w'
      /\ Agent.name agent = ""
      /\ get "" (agents self') = Some agent.
Proof.
  intros self w project_key program model capabilities.
  rewrite register_agent_run.
  eexists. eexists. eexists. split; [reflexivity |].
  split; [reflexivity |]. simpl. apply get_set_same.
Qed.






Lemma send_message_run :
  forall self w project_key sender recipient subject body thread_id,
    exists w',
      send_message project_key sender recipient subject body thread_id
        self w
      = if existsb
             (fun row =>
                String.eqb (Message.id row) (uuid4_at w (draws w)))
             (Database.messages (db self))
        then mkRan (Raise (IntegrityError "messages"))
               (mk (agents self)
                  (delivered
                     (message_built w project_key sender recipient subject
                        body thread_id) recipient (messages self))
                  (reservations self) (db self))
               w'
        else mkRan
               (Return (message_built w project_key sender recipient
                          subject body thread_id))
               (mk (agents self)
                  (delivered
                     (message_built w project_key sender recipient subject
                        body thread_id) recipient (messages self))
                  (reservations self)
                  (Database.mk (Database.agents (db self))
                     (Database.messages (db self)
                      ++ [message_built w project_key sender recipient
                            subject body thread_id])%list
                     (Database.reservations (db self))))
               w'.
Proof.
  intros self w project_key sender recipient subject body thread_id.
  unfold send_message, message_built, delivered.
  unfold bind at 1. unfold uuid4_12 at 1. unfold bind at 1.
  destruct thread_id as [s |]; simpl;
    [destruct (String.eqb s "") |];
    unfold uuid4_12, utcnow, ensure_inbox, bind, modify, get_self, ret;
    simpl;
    (destruct (mem recipient (messages self)); simpl;
     unfold Database.insert_message; simpl;
     destruct (existsb _ (Database.messages (db self))); simpl;
     eexists; reflexivity).
Qed.

(** Whatever the thread id, and whether or not the row is accepted,
    [send_message] appends one message, addressed to [recipient] and
    dated by the clock, to the inbox of [recipient], and touches no other
    inbox. *)
Lemma send_message_appends :
  forall self w project_key sender recipient subject body thread_id,
    exists message,
      Message.recipient message = recipient
      /\ Message.created_at message = utcnow_at w (ticks w)
      /\ inbox_of recipient
           (self_after (send_message project_key sender recipient subject
                          body thread_id self w))
         = (inbox_of recipient self ++ [message])%list
      /\ (forall other,
             other <> recipient ->
             inbox_of other
               (self_after (send_message project_key sender recipient
                              subject body thread_id self w))
             = inbox_of other self)
      /\ (result (send_message project_key sender recipient subject body
                    thread_id self w) = Return message
          \/ result (send_message project_key sender recipient subject body
                       thread_id self w) = Raise (IntegrityError "messages")).
Proof.
  intros self w project_key sender recipient subject body thread_id.
  destruct (send_message_run self w project_key sender recipient subject
              body thread_id) as [w' Hrun].
  rewrite Hrun.
  exists (message_built w project_key sender recipient subject body
            thread_id).
  split; [reflexivity |]. split; [reflexivity |].
  assert (Hbox :
            get recipient
              (delivered
                 (message_built w project_key sender recipient subject
                    body thread_id) recipient (messages self))
            = Some (inbox_of recipient self
                    ++ [message_built w project_key sender recipient
                          subject body thread_id])%list).
  { unfold delivered. rewrite get_adjust_same, inbox_of_ensured.
    reflexivity. }
  assert (Hother :
            forall other, other <> recipient ->
              get other
                (delivered
                   (message_built w project_key sender recipient subject
                      body thread_id) recipient (messages self))
              = get other (messages self)).
  { intros other Hne. unfold delivered.
    rewrite get_adjust_other by exact Hne.
    apply get_ensured_other. exact Hne. }
  destruct (existsb _ (Database.messages (db self))); simpl.
  - split; [unfold inbox_of at 1, get_default; simpl; now rewrite Hbox |].
    split; [| right; reflexivity].
    intros other Hne. unfold inbox_of, get_default. simpl.
    now rewrite Hother.
  - split; [unfold inbox_of at 1, get_default; simpl; now rewrite Hbox |].
    split; [| left; reflexivity].
    intros other Hne. unfold inbox_of, get_default. simpl.
    now rewrite Hother.
Qed.

(** C6. [fetch_inbox] returns, and changes nothing. With [since_ts] it
    returns exactly the messages of the agent's inbox whose [created_at]
    is at least [since_ts], without it all of them; each as many times as
    the inbox holds it, in weakly decreasing order of [created_at], and
    the messages of one and the same [created_at] in the order in which
    the inbox holds them. *)
Theorem fetch_inbox_sorted_since :
  forall (self : AgentMail.t) (w : World) (agent_name : string)
         (since_ts : option datetime),
    exists fetched,
      fetch_inbox agent_name since_ts self w = mkRan (Return fetched) self w
      /\ (forall m,
             In m fetched <->
             In m (inbox_of agent_name self)
             /\ (forall since, since_ts = Some since ->
                               since <= Message.created_at m))
      /\ Permutation fetched (since_filter since_ts (inbox_of agent_name self))
      /\ StronglySorted
           (fun a b => Message.created_at a >= Message.created_at b) fetched
      /\ (forall t,
             with_key Message.created_at t fetched
             = with_key Message.created_at t
                 (since_filter since_ts (inbox_of agent_name self))).
Proof.
  intros self w agent_name since_ts.
  exists (sorted Message.created_at true
            (since_filter since_ts (inbox_of agent_name self))).
  split; [reflexivity |].
  assert (Hperm := sorted_reverse_perm Message.created_at
                     (since_filter since_ts (inbox_of agent_name self))).
  split.
  - intros m. split.
    + intros Hin. apply (Permutation_in m Hperm) in Hin.
      destruct since_ts as [since |]; simpl in Hin.
      * apply filter_In in Hin. destruct Hin as [Hin Hle].
        split; [exact Hin |]. intros since' [= <-].
        apply Z.leb_le. exact Hle.
      * split; [exact Hin |]. discriminate.
    + intros [Hin Hsince].
      apply (Permutation_in m (Permutation_sym Hperm)).
      destruct since_ts as [since |]; simpl.
      * apply filter_In. split; [exact Hin |].
        apply Z.leb_le. apply Hsince. reflexivity.
      * exact Hin.
  - split; [exact Hperm |].
    split; [apply sorted_reverse_descending |].
    intros t. apply sorted_reverse_stable.
Qed.

(** The two messages of time 5 come after the message of time 7, the
    earlier of them first. *)
Example fetch_inbox_ties :
  result (fetch_inbox "bob" None Demo.bob_inbox Demo.world)
  = Return [Demo.note "m2" 7; Demo.note "m1" 5; Demo.note "m3" 5]
  /\ result (fetch_inbox "bob" (Some 6) Demo.bob_inbox Demo.world)
     = Return [Demo.note "m2" 7].
Proof. split; reflexivity. Qed.

End RegistryAndMailbox.

(* ===================================================================== *)
(** ** The issue graph *)
(* ===================================================================== *)

Section IssueGraph.
Import PyDict.
Import Beads.

Lemma adjust_absent :
  forall (f : Issue.t -> Issue.t) (store : dict Issue.t) k,
    mem k store = false -> adjust f k store = store.
Proof.
  intros f store. induction store as [| [k0 v0] rest IH]; intros k; simpl.
  - reflexivity.
  - unfold mem. simpl. destruct (String.eqb k k0); [discriminate |].
    intros H. f_equal. apply IH. exact H.
Qed.

Lemma link_blocked_run :
  forall blocking issue_id self w,
    link_blocked blocking issue_id self w
    = mkRan (Return tt)
        (set_issues
           (fold_left
              (fun store blocked_id =>
                 adjust (Issue.append_blocked_by issue_id) blocked_id store)
              blocking (issues self)) self)
        w.
Proof.
  induction blocking as [| blocked_id rest IH]; intros issue_id self w.
  - destruct self. reflexivity.
  - simpl. unfold bind, get_self.
    destruct (mem blocked_id (issues self)) eqn:E.
    + unfold modify. rewrite IH. reflexivity.
    + unfold ret. rewrite IH.
      rewrite (adjust_absent _ _ _ E). reflexivity.
Qed.

Lemma blocked_by_extended_step :
  forall x n i,
    blocked_by_extended x n (Issue.append_blocked_by x i)
    = blocked_by_extended x (S n) i.
Proof.
  intros x n i. unfold blocked_by_extended, Issue.append_blocked_by. simpl.
  rewrite <- app_assoc. reflexivity.
Qed.

Lemma blocked_by_extended_zero :
  forall x i, blocked_by_extended x 0 i = i.
Proof.
  intros x [id title description status priority parent blocking blocked
              assignee created updated].
  unfold blocked_by_extended. simpl. rewrite app_nil_r. reflexivity.
Qed.

Lemma get_linked :
  forall blocking issue_id (store : dict Issue.t) k,
    get k (fold_left
             (fun store blocked_id =>
                adjust (Issue.append_blocked_by issue_id) blocked_id store)
             blocking store)
    = option_map
        (blocked_by_extended issue_id (count_occ string_dec blocking k))
        (get k store).
Proof.
  induction blocking as [| blocked_id rest IH]; intros issue_id store k;
    simpl.
  - destruct (get k store) as [i |]; simpl; [| reflexivity].
    rewrite blocked_by_extended_zero. reflexivity.
  - rewrite IH, get_adjust.
    destruct (string_dec blocked_id k) as [-> | Hne].
    + rewrite String.eqb_refl.
      destruct (get k store) as [i |]; simpl; [| reflexivity].
      rewrite blocked_by_extended_step. reflexivity.
    + assert (E : String.eqb k blocked_id = false)
        by (apply String.eqb_neq; congruence).
      rewrite E. reflexivity.
Qed.

(** A creation always returns: the clock is read three times, for the
    id and for the two dates; the blockers named in [blocking] that the
    store knows get the new id appended; the new issue is stored and
    logged. *)
Lemma create_issue_run :
  forall self w title description priority parent_id blocking,
    create_issue title description priority parent_id blocking self w
    = mkRan
        (Return (Issue.mk ("bd-" ++ digest6 w title (utcnow_at w (ticks w)))
                   title description BACKLOG priority parent_id
                   (list_or_empty blocking) [] None
                   (utcnow_at w (S (ticks w)))
                   (utcnow_at w (S (S (ticks w))))))
        (mk (set ("bd-" ++ digest6 w title (utcnow_at w (ticks w)))
                 (Issue.mk
                    ("bd-" ++ digest6 w title (utcnow_at w (ticks w)))
                    title description BACKLOG priority parent_id
                    (list_or_empty blocking) [] None
                    (utcnow_at w (S (ticks w)))
                    (utcnow_at w (S (S (ticks w)))))
                 (fold_left
                    (fun store blocked_id =>
                       adjust (Issue.append_blocked_by
                                 ("bd-" ++ digest6 w title
                                                   (utcnow_at w (ticks w))))
                              blocked_id store)
                    (list_or_empty blocking) (issues self)))
            (issues_db self
             ++ [Issue.mk
                   ("bd-" ++ digest6 w title (utcnow_at w (ticks w)))
                   title description BACKLOG priority parent_id
                   (list_or_empty blocking) [] None
                   (utcnow_at w (S (ticks w)))
                   (utcnow_at w (S (S (ticks w))))])%list)
        (mkWorld (utcnow_at w) (S (S (S (ticks w)))) (uuid4_at w) (draws w)
                 (digest6 w)).
Proof.
  intros self w title description priority parent_id blocking.
  unfold create_issue, _generate_id, Issue.new, _save_issue.
  unfold bind at 1. unfold bind at 1. unfold utcnow at 1.
  unfold bind at 1. unfold sha256_hex6, ret at 1.
  unfold bind at 1. unfold bind at 1. unfold utcnow at 1.
  unfold bind at 1. unfold utcnow at 1. unfold ret at 1.
  cbn [ticks utcnow_at digest6 uuid4_at draws Issue.blocking Issue.id].
  unfold bind at 1. rewrite link_blocked_run.
  unfold bind, modify, ret. reflexivity.
Qed.

End IssueGraph.

Section IssueClaims.
Import PyDict.
Import Beads.

(** C7, as stated, fails when the id generated for the new issue is the
    id of the blocker: "parser" is stored under "bd-a1b2c3", and the issue
    created with [blocking = ["bd-a1b2c3"]] gets the same id. The append
    goes to the issue that was stored, which the new issue then replaces:
    the issue under "bd-a1b2c3" is the new one, and its [blocked_by] is
    empty. *)
Lemma create_issue_collision_drops_edge :
  exists b c,
    get "bd-a1b2c3" (issues (self_after Demo.parser_created)) = Some b
    /\ result Scenes.parser_again = Return c
    /\ In "bd-a1b2c3" (Issue.blocking c)
    /\ get "bd-a1b2c3" (issues (self_after Scenes.parser_again)) = Some c
    /\ Issue.blocked_by c = []
    /\ ~ In (Issue.id c) (Issue.blocked_by c).
Proof.
  eexists. eexists.
  split; [vm_compute; reflexivity |].
  split; [vm_compute; reflexivity |].
  split; [left; reflexivity |].
  split; [vm_compute; reflexivity |].
  split; [reflexivity |]. intros [].
Qed.

(** C7, amended. Let [create_issue] be called with [blocking = l], let [b_id] be
    an id of [l] under which the store holds an issue [b], and let the id
    generated for the new issue [c] be another one than [b_id]. Then the
    call returns [c], with [c.blocking = l] and [c] stored under its id,
    and the issue stored under [b_id] is [b] with the id of [c] appended
    to its [blocked_by], once for each occurrence of [b_id] in [l]: the
    id of [c] is in [b.blocked_by]. An id under which the store holds
    nothing still holds nothing afterwards, so no edge is recorded for it,
    and the issues not named in [l] are as they were. The new issue
    itself starts with an empty [blocked_by], whatever the [blocking]
    lists of the issues already stored: an issue that names an id before
    the issue of that id is created is not linked to it afterwards. *)
Theorem create_issue_links_blockers :
  forall (self : Beads.t) (w : World) (title description priority : string)
         (parent_id : option string) (l : list string) (b_id : string)
         (b : Issue.t),
    In b_id l ->
    get b_id (issues self) = Some b ->
    b_id <> "bd-" ++ digest6 w title (utcnow_at w (ticks w)) ->
    exists c self' w',
      create_issue title description priority parent_id (Some l) self w
      = mkRan (Return c) self' w'
      /\ Issue.id c = "bd-" ++ digest6 w title (utcnow_at w (ticks w))
      /\ Issue.blocking c = l
      /\ Issue.blocked_by c = []
      /\ get (Issue.id c) (issues self') = Some c
      /\ get b_id (issues self')
         = Some (blocked_by_extended (Issue.id c)
                   (count_occ string_dec l b_id) b)
      /\ In (Issue.id c)
            (Issue.blocked_by
               (blocked_by_extended (Issue.id c)
                  (count_occ string_dec l b_id) b))
      /\ (forall k, k <> Issue.id c -> get k (issues self) = None ->
                    get k (issues self') = None)
      /\ (forall k, k <> Issue.id c -> ~ In k l ->
                    get k (issues self') = get k (issues self)).
Proof.
  intros self w title description priority parent_id l b_id b
         Hin Hget Hnew.
  rewrite create_issue_run.
  eexists. eexists. eexists. split; [reflexivity |].
  cbn [Issue.id Issue.blocking Issue.blocked_by issues list_or_empty].
  set (cid := "bd-" ++ digest6 w title (utcnow_at w (ticks w))) in *.
  split; [reflexivity |]. split; [reflexivity |]. split; [reflexivity |].
  split; [apply get_set_same |].
  split.
  { rewrite get_set_other by exact Hnew.
    rewrite get_linked, Hget. reflexivity. }
  split.
  { unfold blocked_by_extended. cbn [Issue.blocked_by].
    apply in_or_app. right.
    assert (Hpos : (count_occ string_dec l b_id > 0)%nat)
      by (apply count_occ_In; exact Hin).
    destruct (count_occ string_dec l b_id) as [| n]; [lia |].
    simpl. left. reflexivity. }
  split.
  - intros k Hk Hnone. rewrite get_set_other by exact Hk.
    rewrite get_linked, Hnone. reflexivity.
  - intros k Hk Hnot. rewrite get_set_other by exact Hk.
    rewrite get_linked.
    rewrite (proj1 (count_occ_not_In string_dec l k) Hnot).
    destruct (get k (issues self)) as [i |]; simpl; [| reflexivity].
    rewrite blocked_by_extended_zero. reflexivity.
Qed.

Lemma create_issue_links_blockers_witness :
  exists c self' w',
    create_issue "lexer" "" "high" None (Some ["bd-a1b2c3"; "bd-ffffff"])
      (self_after Demo.parser_created) (world_after Demo.parser_created)
    = mkRan (Return c) self' w'
    /\ Issue.id c = "bd-d4e5f6"
    /\ Issue.blocking c = ["bd-a1b2c3"; "bd-ffffff"]
    /\ Issue.blocked_by c = []
    /\ get (Issue.id c) (issues self') = Some c
    /\ get "bd-a1b2c3" (issues self')
       = Some (blocked_by_extended (Issue.id c) 1
                 (Issue.mk "bd-a1b2c3" "parser" "" BACKLOG "medium" None
                    [] [] None 1700000000000001 1700000000000002))
    /\ In (Issue.id c) ([] ++ [Issue.id c])
    /\ (forall k, k <> Issue.id c ->
                  get k (issues (self_after Demo.parser_created)) = None ->
                  get k (issues self') = None)
    /\ (forall k, k <> Issue.id c -> ~ In k ["bd-a1b2c3"; "bd-ffffff"] ->
                  get k (issues self')
                  = get k (issues (self_after Demo.parser_created))).
Proof.
  apply (create_issue_links_blockers
           (self_after Demo.parser_created)
           (world_after Demo.parser_created)
           "lexer" "" "high" None ["bd-a1b2c3"; "bd-ffffff"] "bd-a1b2c3"
           (Issue.mk "bd-a1b2c3" "parser" "" BACKLOG "medium" None []
              [] None 1700000000000001 1700000000000002)).
  - simpl. left. reflexivity.
  - reflexivity.
  - vm_compute. discriminate.
Defined.

Lemma blockers_done_spec :
  forall store blocked_by,
    blockers_done store blocked_by = true <->
    (forall bid blocker,
        In bid blocked_by -> get bid store = Some blocker ->
        Issue.status blocker = DONE).
Proof.
  intros store blocked_by. unfold blockers_done.
  rewrite forallb_forall. split.
  - intros H bid blocker Hin Hget. specialize (H bid Hin).
    rewrite Hget in H. apply IssueStatus_eqb_eq. exact H.
  - intros H bid Hin. destruct (get bid store) as [blocker |] eqn:E.
    + apply IssueStatus_eqb_eq. exact (H bid blocker Hin E).
    + reflexivity.
Qed.

Lemma all_blockers_done_run :
  forall store blocked_by self w,
    exists w',
      all_blockers_done store blocked_by self w
      = mkRan (Return (blockers_done store blocked_by)) self w'.
Proof.
  intros store. induction blocked_by as [| bid rest IH]; intros self w.
  - exists w. reflexivity.
  - simpl. unfold mem, get_default.
    destruct (get bid store) as [blocker |] eqn:E.
    + unfold Issue.default, Issue.new, bind, utcnow, ret. simpl.
      destruct (IssueStatus_eqb (Issue.status blocker) DONE).
      * apply IH.
      * eexists. reflexivity.
    + apply IH.
Qed.

Lemma ready_loop_run :
  forall store todo ready self w,
    exists w',
      ready_loop store todo ready self w
      = mkRan (Return (ready ++ filter (is_ready store) todo)%list) self w'.
Proof.
  intros store. induction todo as [| issue rest IH]; intros ready self w.
  - exists w. simpl. rewrite app_nil_r. reflexivity.
  - simpl. unfold is_ready at 1.
    destruct (IssueStatus_eqb (Issue.status issue) READY); simpl.
    + destruct (Issue.blocked_by issue) as [| bid more] eqn:E.
      * simpl. destruct (IH (ready ++ [issue])%list self w) as [w' Hw'].
        exists w'. rewrite Hw', <- app_assoc. reflexivity.
      * unfold bind.
        destruct (all_blockers_done_run store (bid :: more) self w)
          as [w1 Hw1].
        rewrite Hw1.
        destruct (blockers_done store (bid :: more)).
        -- destruct (IH (ready ++ [issue])%list self w1) as [w' Hw'].
           exists w'. rewrite Hw', <- app_assoc. reflexivity.
        -- apply IH.
    + apply IH.
Qed.

(** C8. [get_ready_issues] returns and leaves the store as it is. An
    issue of the store is in the list returned if and only if its status
    is ready and either its [blocked_by] is empty or every id of its
    [blocked_by] under which the store holds an issue is the id of an
    issue whose status is done; an id under which the store holds nothing
    asks for nothing. *)
Theorem get_ready_issues_spec :
  forall (self : Beads.t) (w : World) (issue : Issue.t),
    In issue (values (issues self)) ->
    exists ready w',
      get_ready_issues self w = mkRan (Return ready) self w'
      /\ (In issue ready <->
          Issue.status issue = READY
          /\ (Issue.blocked_by issue = []
              \/ forall bid blocker,
                  In bid (Issue.blocked_by issue) ->
                  get bid (issues self) = Some blocker ->
                  Issue.status blocker = DONE)).
Proof.
  intros self w issue Hin.
  unfold get_ready_issues, bind, get_self.
  destruct (ready_loop_run (issues self) (values (issues self)) [] self w)
    as [w' Hw'].
  exists (filter (is_ready (issues self)) (values (issues self))), w'.
  split; [exact Hw' |].
  rewrite filter_In. unfold is_ready.
  rewrite andb_true_iff, IssueStatus_eqb_eq, blockers_done_spec.
  split.
  - intros [_ [Hs Hb]]. split; [exact Hs |]. right. exact Hb.
  - intros [Hs Hb]. split; [exact Hin |]. split; [exact Hs |].
    destruct Hb as [Hempty | Hb]; [| exact Hb].
    rewrite Hempty. intros bid blocker [].
Qed.

(** After "parser" is marked ready it is still held back by "lexer",
    whose id is in its [blocked_by] and whose status is not done. *)
Lemma get_ready_issues_spec_witness :
  exists ready w',
    get_ready_issues (self_after Demo.parser_ready)
      (world_after Demo.parser_ready)
    = mkRan (Return ready) (self_after Demo.parser_ready) w'
    /\ (In (Issue.mk "bd-a1b2c3" "parser" "" READY "medium" None []
              ["bd-d4e5f6"] None 1700000000000001 1700000000000006)
           ready <->
        READY = READY
        /\ (["bd-d4e5f6"] = []
            \/ forall bid blocker,
                In bid ["bd-d4e5f6"] ->
                get bid (issues (self_after Demo.parser_ready))
                = Some blocker ->
                Issue.status blocker = DONE)).
Proof.
  apply (get_ready_issues_spec
           (self_after Demo.parser_ready) (world_after Demo.parser_ready)
           (Issue.mk "bd-a1b2c3" "parser" "" READY "medium" None []
              ["bd-d4e5f6"] None 1700000000000001 1700000000000006)).
  vm_compute. left. reflexivity.
Defined.

Example parser_held_back :
  result (get_ready_issues (self_after Demo.parser_ready)
            (world_after Demo.parser_ready)) = Return [].
Proof. reflexivity. Qed.

End IssueClaims.

Section IssueUpdates.
Import PyDict.
Import Beads.

Lemma keys_adjust :
  forall (f : Issue.t -> Issue.t) (store : dict Issue.t) k,
    keys (adjust f k store) = keys store.
Proof.
  intros f store. induction store as [| [k0 v0] rest IH]; intros k; simpl.
  - reflexivity.
  - destruct (String.eqb k k0); simpl; [reflexivity |].
    f_equal. apply IH.
Qed.

Lemma assign_fields_fields :
  forall status assignee priority now old,
    Issue.set_updated_at now (assign_fields status assignee priority old)
    = Issue.mk (Issue.id old) (Issue.title old) (Issue.description old)
        (match status with
         | Some s => s
         | None => Issue.status old
         end)
        (match priority with
         | Some p => if String.eqb p "" then Issue.priority old else p
         | None => Issue.priority old
         end)
        (Issue.parent_id old) (Issue.blocking old) (Issue.blocked_by old)
        (if truthy_str assignee then assignee else Issue.assignee old)
        (Issue.created_at old) now.
Proof.
  intros [s |] assignee [p |] now old; unfold assign_fields; simpl;
    destruct (truthy_str assignee); simpl;
    try (destruct (String.eqb p "")); reflexivity.
Qed.

(** C9. For an id under which the store holds nothing, [update_issue]
    returns [None] and changes neither the store nor the log. For an id
    under which the store holds [old], it returns and stores the issue
    that differs from [old] at most in [status], [assignee], [priority]
    and [updated_at]: [status] is the one supplied, if any; [assignee]
    and [priority] are the ones supplied, if any and not empty;
    [updated_at] is the time read during the call. Every other field is
    that of [old], every other issue and the order of the store are as
    before, and the log gets one more line, the updated issue. *)
Theorem update_issue_spec :
  forall (self : Beads.t) (w : World) (issue_id : string)
         (status : option IssueStatus) (assignee priority : option string),
    match get issue_id (issues self) with
    | None =>
        update_issue issue_id status assignee priority self w
        = mkRan (Return None) self w
    | Some old =>
        exists updated self' w',
          update_issue issue_id status assignee priority self w
          = mkRan (Return (Some updated)) self' w'
          /\ updated
             = Issue.mk (Issue.id old) (Issue.title old)
                 (Issue.description old)
                 (match status with
                  | Some s => s
                  | None => Issue.status old
                  end)
                 (match priority with
                  | Some p =>
                      if String.eqb p "" then Issue.priority old else p
                  | None => Issue.priority old
                  end)
                 (Issue.parent_id old) (Issue.blocking old)
                 (Issue.blocked_by old)
                 (if truthy_str assignee then assignee
                  else Issue.assignee old)
                 (Issue.created_at old) (utcnow_at w (ticks w))
          /\ get issue_id (issues self') = Some updated
          /\ (forall other, other <> issue_id ->
                            get other (issues self')
                            = get other (issues self))
          /\ keys (issues self') = keys (issues self)
          /\ issues_db self' = (issues_db self ++ [updated])%list
    end.
Proof.
  intros self w issue_id status assignee priority.
  destruct (get issue_id (issues self)) as [old |] eqn:Hget.
  - assert (Hafter :
              get issue_id
                (adjust (Issue.set_updated_at (utcnow_at w (ticks w)))
                   issue_id
                   (adjust (assign_fields status assignee priority)
                      issue_id (issues self)))
              = Some (Issue.set_updated_at (utcnow_at w (ticks w))
                        (assign_fields status assignee priority old))).
    { rewrite !get_adjust_same, Hget. reflexivity. }
    unfold update_issue, bind, get_self, modify, utcnow, _save_issue, ret.
    unfold mem. rewrite Hget. simpl. rewrite Hafter.
    eexists. eexists. eexists. split; [reflexivity |].
    split; [apply assign_fields_fields |]. simpl.
    split; [exact Hafter |].
    split.
    + intros other Hne. rewrite !get_adjust_other by exact Hne.
      reflexivity.
    + split; [| reflexivity]. rewrite !keys_adjust. reflexivity.
  - unfold update_issue, bind, get_self, ret. unfold mem.
    rewrite Hget. reflexivity.
Qed.

(** "parser" is handed to alice with an empty priority: the assignee is
    set, the priority is kept. *)
Lemma update_issue_spec_witness :
  exists updated self' w',
    update_issue "bd-a1b2c3" None (Some "alice") (Some "")
      (self_after Demo.lexer_created) (world_after Demo.lexer_created)
    = mkRan (Return (Some updated)) self' w'
    /\ updated
       = Issue.mk "bd-a1b2c3" "parser" "" BACKLOG "medium" None []
           ["bd-d4e5f6"] (Some "alice") 1700000000000001 1700000000000006
    /\ get "bd-a1b2c3" (issues self') = Some updated
    /\ (forall other, other <> "bd-a1b2c3" ->
                      get other (issues self')
                      = get other (issues (self_after Demo.lexer_created)))
    /\ keys (issues self') = keys (issues (self_after Demo.lexer_created))
    /\ issues_db self'
       = (issues_db (self_after Demo.lexer_created) ++ [updated])%list.
Proof.
  exact (update_issue_spec
           (self_after Demo.lexer_created) (world_after Demo.lexer_created)
           "bd-a1b2c3" None (Some "alice") (Some "")).
Defined.

Example update_issue_unknown :
  update_issue "bd-ffffff" (Some DONE) None None
    (self_after Demo.lexer_created) (world_after Demo.lexer_created)
  = mkRan (Return None) (self_after Demo.lexer_created)
          (world_after Demo.lexer_created).
Proof. reflexivity. Qed.

End IssueUpdates.

(* ===================================================================== *)
(** ** More on dictionaries *)
(* ===================================================================== *)

Section DictOrder.
Import PyDict.
Context {V : Type}.
Implicit Types (d : dict V) (k : string) (v : V).

Lemma keys_adjust_any :
  forall (f : V -> V) d k, keys (adjust f k d) = keys d.
Proof.
  intros f d. induction d as [| [k0 v0] rest IH]; intros k; simpl.
  - reflexivity.
  - destruct (String.eqb k k0); simpl; [reflexivity |].
    f_equal. apply IH.
Qed.

Lemma keys_set :
  forall d k v,
    keys (set k v d) = if mem k d then keys d else (keys d ++ [k])%list.
Proof.
  induction d as [| [k0 v0] rest IH]; intros k v; simpl.
  - reflexivity.
  - unfold mem. simpl. destruct (String.eqb k k0) eqn:E; simpl.
    + apply String.eqb_eq in E. now subst.
    + rewrite IH. unfold mem. destruct (get k rest); reflexivity.
Qed.

Lemma get_none_not_key : forall d k, get k d = None -> ~ In k (keys d).
Proof.
  induction d as [| [k0 v0] rest IH]; intros k; simpl.
  - intros _ [].
  - destruct (String.eqb k k0) eqn:E; [discriminate |].
    intros Hnone [Heq | Hin].
    + subst. rewrite String.eqb_refl in E. discriminate.
    + exact (IH k Hnone Hin).
Qed.

Lemma NoDup_keys_set :
  forall d k v, NoDup (keys d) -> NoDup (keys (set k v d)).
Proof.
  intros d k v Hnd. rewrite keys_set. unfold mem.
  destruct (get k d) as [x |] eqn:E; [exact Hnd |].
  apply NoDup_app.
  - exact Hnd.
  - constructor; [intros [] | constructor].
  - intros x Hx [Heq | []]. subst x. exact (get_none_not_key d k E Hx).
Qed.

Lemma in_items_get :
  forall d k v, NoDup (keys d) -> In (k, v) d -> get k d = Some v.
Proof.
  induction d as [| [k0 v0] rest IH]; intros k v Hnd Hin; simpl.
  - destruct Hin.
  - simpl in Hnd. inversion Hnd as [| x l Hnot Hrest]; subst.
    destruct Hin as [Heq | Hin].
    + injection Heq as -> ->. now rewrite String.eqb_refl.
    + destruct (String.eqb k k0) eqn:E.
      * apply String.eqb_eq in E. subst k0. exfalso. apply Hnot.
        unfold keys. change k with (fst (k, v)). now apply in_map.
      * now apply IH.
Qed.

Lemma in_items_set :
  forall d k v k0 v0,
    In (k, v) (set k0 v0 d) -> (k = k0 /\ v = v0) \/ In (k, v) d.
Proof.
  induction d as [| [k1 v1] rest IH]; intros k v k0 v0; simpl.
  - intros [Heq | []]. injection Heq as <- <-. now left.
  - destruct (String.eqb k0 k1); simpl.
    + intros [Heq | Hin]; [injection Heq as <- <-; now left | now right; right].
    + intros [Heq | Hin]; [now right; left |].
      destruct (IH _ _ _ _ Hin) as [H | H]; [now left | now right; right].
Qed.

Lemma in_values_set : forall d k v, In v (values (set k v d)).
Proof.
  intros d k v. apply (get_some_in_values _ k). apply get_set_same.
Qed.

Lemma in_items_adjust :
  forall (f : V -> V) d k v' k0,
    In (k, v') (adjust f k0 d) ->
    exists v, In (k, v) d /\ (v' = v \/ (k = k0 /\ v' = f v)).
Proof.
  intros f d. induction d as [| [k1 v1] rest IH]; intros k v' k0; simpl.
  - intros [].
  - destruct (String.eqb k0 k1) eqn:E; simpl.
    + apply String.eqb_eq in E. subst k1.
      intros [Heq | Hin].
      * injection Heq as <- <-. exists v1. split; [now left | now right].
      * exists v'. split; [now right | now left].
    + intros [Heq | Hin].
      * injection Heq as <- <-. exists v1. split; [now left | now left].
      * destruct (IH _ _ _ Hin) as [v [Hv Hor]].
        exists v. split; [now right | exact Hor].
Qed.

(** In a dictionary without repeated keys, the entry of [k0] after
    [adjust] is the image of the entry before. *)
Lemma in_items_adjust_same :
  forall (f : V -> V) d k0 v',
    NoDup (keys d) -> In (k0, v') (adjust f k0 d) ->
    exists v, get k0 d = Some v /\ v' = f v.
Proof.
  intros f d k0 v' Hnd Hin.
  assert (Hnd' : NoDup (keys (adjust f k0 d)))
    by (rewrite keys_adjust_any; exact Hnd).
  apply (in_items_get _ _ _ Hnd') in Hin.
  rewrite get_adjust_same in Hin.
  destruct (get k0 d) as [v |]; simpl in Hin; [| discriminate].
  injection Hin as <-. exists v. split; reflexivity.
Qed.
End DictOrder.

(* ===================================================================== *)
(** ** The reservation manager, continued *)
(* ===================================================================== *)

(** Where a request is granted, the statement is about the module with the
    declaration of [FileReservation] repaired ([FileReservation.new]), and
    it asks that the expiry date can be represented ([expiry_ok]); a
    request that is refused reaches neither the constructor nor the date
    arithmetic. *)

Section MoreLeases.
Import PyDict.
Import AgentMail.

Lemma prefix_app : forall p s : string, String.prefix p (p ++ s) = true.
Proof.
  induction p as [| c p IH]; intros s; simpl.
  - destruct s; reflexivity.
  - destruct (Ascii.ascii_dec c c) as [_ | Hneq]; [apply IH | congruence].
Qed.

Lemma first_blocker_none_values :
  forall (store : dict FileReservation.t) agent_name paths,
    first_blocker store agent_name paths = None ->
    forall res, In res (values store) -> blocks res agent_name paths = false.
Proof.
  intros store agent_name paths Hnone res Hin.
  apply in_values_items in Hin. destruct Hin as [k Hin].
  unfold first_blocker in Hnone. exact (find_none _ _ Hnone _ Hin).
Qed.

Lemma first_blocker_none_iff :
  forall (store : dict FileReservation.t) agent_name paths,
    first_blocker store agent_name paths = None <->
    (forall k res, In (k, res) store -> blocks res agent_name paths = false).
Proof.
  intros store agent_name paths. split.
  - intros Hnone k res Hin. unfold first_blocker in Hnone.
    exact (find_none _ _ Hnone _ Hin).
  - apply first_blocker_none.
Qed.

(** An unblocked request draws its id and reads the clock; it raises
    when the expiry date cannot be represented. Otherwise it reads the
    clock again and stores the reservation; after that the row is
    inserted, or refused. *)
Lemma reserve_files_unblocked :
  forall self w project_key agent_name paths exclusive ttl,
    first_blocker (reservations self) agent_name paths = None ->
    exists w',
      reserve_files project_key agent_name paths exclusive ttl self w
      = if negb (expiry_ok (utcnow_at w (ticks w)) ttl)
        then mkRan (Raise OverflowError) self w'
        else
        if existsb
             (fun row => String.eqb (FileReservation.id row)
                                    (uuid4_at w (draws w)))
             (Database.reservations (db self))
        then mkRan (Raise (IntegrityError "reservations"))
               (set_reservations
                  (set (uuid4_at w (draws w))
                     (reservation_built w project_key agent_name paths
                        exclusive ttl) (reservations self)) self)
               w'
        else mkRan
               (Return (reservation_built w project_key agent_name paths
                          exclusive ttl))
               (mk (agents self) (messages self)
                  (set (uuid4_at w (draws w))
                     (reservation_built w project_key agent_name paths
                        exclusive ttl) (reservations self))
                  (Database.mk (Database.agents (db self))
                     (Database.messages (db self))
                     (Database.reservations (db self)
                      ++ [reservation_built w project_key agent_name paths
                            exclusive ttl])%list))
               w'.
Proof.
  intros self w project_key agent_name paths exclusive ttl Hnone.
  unfold reserve_files, bind, get_self, items.
  rewrite check_conflicts_run, Hnone.
  unfold FileReservation.new, add_timedelta, bind, uuid4_12, utcnow, modify,
    raise, ret.
  simpl.
  destruct (expiry_ok (utcnow_at w (ticks w)) ttl); simpl.
  - unfold Database.insert_reservation. simpl.
    destruct (existsb _ (Database.reservations (db self)));
      eexists; reflexivity.
  - destruct self. eexists. reflexivity.
Qed.

Lemma fresh_row_absent :
  forall (rows : list FileReservation.t) (uid : string),
    (forall row, In row rows -> FileReservation.id row <> uid) ->
    existsb (fun row => String.eqb (FileReservation.id row) uid) rows = false.
Proof.
  intros rows uid Hfresh.
  destruct (existsb _ rows) eqn:E; [| reflexivity].
  apply existsb_exists in E. destruct E as [row [Hin Heq]].
  apply String.eqb_eq in Heq. destruct (Hfresh row Hin Heq).
Qed.

(** X1. [reserve_files] raises the conflict error exactly when the store
    holds a reservation that is active, belongs to another agent and
    overlaps the request. *)
Theorem reserve_files_conflict_iff :
  forall (self : AgentMail.t) (w : World) (project_key agent_name : string)
         (paths : list string) (exclusive : bool) (ttl_seconds : Z),
    (exists agent held,
        result (reserve_files project_key agent_name paths exclusive
                  ttl_seconds self w) = Raise (ValueError agent held))
    <-> (exists res,
            In res (values (reservations self))
            /\ FileReservation.status res = ACTIVE
            /\ FileReservation.agent_name res <> agent_name
            /\ paths_overlap (FileReservation.paths res) paths = true).
Proof.
  intros self w project_key agent_name paths exclusive ttl_seconds. split.
  - intros [agent [held Hrun]].
    destruct (first_blocker (reservations self) agent_name paths)
      as [[k blocker] |] eqn:E.
    + unfold first_blocker in E. apply find_some in E.
      destruct E as [Hin Hb]. simpl in Hb.
      apply blocks_true_iff in Hb. exists blocker.
      split; [| exact Hb].
      unfold values. change blocker with (snd (k, blocker)).
      now apply in_map.
    + destruct (reserve_files_unblocked self w project_key agent_name paths
                  exclusive ttl_seconds E) as [w' Hw'].
      rewrite Hw' in Hrun.
      destruct (expiry_ok (utcnow_at w (ticks w)) ttl_seconds);
        simpl in Hrun; [| discriminate].
      destruct (existsb _ (Database.reservations (db self)));
        simpl in Hrun; discriminate.
  - intros [res [Hin Hb]]. apply blocks_true_iff in Hb.
    destruct (reserve_files_blocked self w project_key agent_name paths
                exclusive ttl_seconds res Hin Hb) as [blocker [_ [_ Hrun]]].
    exists (FileReservation.agent_name blocker),
      (FileReservation.paths blocker).
    rewrite Hrun. reflexivity.
Qed.

(** X2. A request that overlaps only reservations of the requesting agent
    itself is granted: when every active reservation that overlaps the
    request belongs to [agent_name], the id drawn is not yet a row of the
    table and the expiry date can be represented, [reserve_files] returns
    the new reservation and stores it under its id. *)
Theorem reserve_files_same_agent :
  forall (self : AgentMail.t) (w : World) (project_key agent_name : string)
         (paths : list string) (exclusive : bool) (ttl_seconds : Z),
    (forall res,
        In res (values (reservations self)) ->
        FileReservation.status res = ACTIVE ->
        paths_overlap (FileReservation.paths res) paths = true ->
        FileReservation.agent_name res = agent_name) ->
    (forall row, In row (Database.reservations (db self)) ->
                 FileReservation.id row <> uuid4_at w (draws w)) ->
    expiry_ok (utcnow_at w (ticks w)) ttl_seconds = true ->
    exists self' w',
      reserve_files project_key agent_name paths exclusive ttl_seconds self w
      = mkRan (Return (reservation_built w project_key agent_name paths
                         exclusive ttl_seconds)) self' w'
      /\ reservations self'
         = set (uuid4_at w (draws w))
             (reservation_built w project_key agent_name paths exclusive
                ttl_seconds) (reservations self).
Proof.
  intros self w project_key agent_name paths exclusive ttl_seconds
         Hown Hfresh Hok.
  assert (Hnone : first_blocker (reservations self) agent_name paths = None).
  { apply first_blocker_none. intros k res Hin.
    destruct (blocks res agent_name paths) eqn:Hb; [| reflexivity].
    apply blocks_true_iff in Hb. destruct Hb as [Hs [Ha Ho]].
    exfalso. apply Ha. apply Hown; try assumption.
    unfold values. change res with (snd (k, res)). now apply in_map. }
  destruct (reserve_files_unblocked self w project_key agent_name paths
              exclusive ttl_seconds Hnone) as [w' Hw'].
  rewrite Hw', Hok, (fresh_row_absent _ _ Hfresh).
  eexists. exists w'. split; reflexivity.
Qed.

(** alice asks again for the path that she holds. *)
Lemma reserve_files_same_agent_witness :
  exists self' w',
    reserve_files "web" "alice" ["/src/a.py"] true 60
      (self_after Demo.alice_exclusive) (world_after Demo.alice_exclusive)
    = mkRan (Return (reservation_built (world_after Demo.alice_exclusive)
                       "web" "alice" ["/src/a.py"] true 60)) self' w'
    /\ reservations self'
       = set (uuid4_at (world_after Demo.alice_exclusive)
                (draws (world_after Demo.alice_exclusive)))
           (reservation_built (world_after Demo.alice_exclusive) "web"
              "alice" ["/src/a.py"] true 60)
           (reservations (self_after Demo.alice_exclusive)).
Proof.
  apply (reserve_files_same_agent
           (self_after Demo.alice_exclusive)
           (world_after Demo.alice_exclusive)
           "web" "alice" ["/src/a.py"] true 60).
  - intros res Hin _ _. vm_compute in Hin. destruct Hin as [<- | []].
    reflexivity.
  - intros row Hin. vm_compute in Hin. destruct Hin as [<- | []].
    vm_compute. discriminate.
  - vm_compute. reflexivity.
Defined.

(** X3. A request for no path at all is never refused as a conflict: it
    is granted when the id drawn is not yet a row of the table and the
    expiry date can be represented, and the reservation it creates stands
    in nobody's way. *)
Theorem reserve_files_empty_request :
  forall (self : AgentMail.t) (w : World) (project_key agent_name : string)
         (exclusive : bool) (ttl_seconds : Z),
    (forall row, In row (Database.reservations (db self)) ->
                 FileReservation.id row <> uuid4_at w (draws w)) ->
    expiry_ok (utcnow_at w (ticks w)) ttl_seconds = true ->
    (exists self' w',
        reserve_files project_key agent_name [] exclusive ttl_seconds self w
        = mkRan (Return (reservation_built w project_key agent_name []
                           exclusive ttl_seconds)) self' w')
    /\ forall other requested,
        blocks (reservation_built w project_key agent_name [] exclusive
                  ttl_seconds) other requested = false.
Proof.
  intros self w project_key agent_name exclusive ttl_seconds Hfresh Hok.
  split.
  - assert (Hnone : first_blocker (reservations self) agent_name [] = None).
    { apply first_blocker_none. intros k res _. unfold blocks.
      simpl. apply andb_false_r. }
    destruct (reserve_files_unblocked self w project_key agent_name []
                exclusive ttl_seconds Hnone) as [w' Hw'].
    rewrite Hw', Hok, (fresh_row_absent _ _ Hfresh).
    eexists. exists w'. reflexivity.
  - intros other requested. unfold blocks.
    assert (H : paths_overlap [] requested = false).
    { unfold paths_overlap.
      induction requested as [| q rest IH]; simpl; [reflexivity | exact IH]. }
    unfold reservation_built. cbn [FileReservation.paths].
    rewrite H. apply andb_false_r.
Qed.

(** bob asks for no path while alice holds ["/src/a.py"]. *)
Lemma reserve_files_empty_request_witness :
  (exists self' w',
      reserve_files "web" "bob" [] true 60
        (self_after Demo.alice_exclusive) (world_after Demo.alice_exclusive)
      = mkRan (Return (reservation_built (world_after Demo.alice_exclusive)
                         "web" "bob" [] true 60)) self' w')
  /\ forall other requested,
      blocks (reservation_built (world_after Demo.alice_exclusive) "web"
                "bob" [] true 60) other requested = false.
Proof.
  apply (reserve_files_empty_request
           (self_after Demo.alice_exclusive)
           (world_after Demo.alice_exclusive) "web" "bob" true 60).
  - intros row Hin. vm_compute in Hin. destruct Hin as [<- | []].
    vm_compute. discriminate.
  - vm_compute. reflexivity.
Defined.

(** X4. The overlap test compares characters, not path components: an
    active reservation of another agent on the path [p] refuses every
    request that names [p] followed by any string [s], and nothing is
    changed by the refused call. *)
Theorem reserve_files_prefix_extension :
  forall (self : AgentMail.t) (w : World) (res : FileReservation.t)
         (p s : string) (project_key agent_name : string)
         (paths : list string) (exclusive : bool) (ttl_seconds : Z),
    In res (values (reservations self)) ->
    FileReservation.status res = ACTIVE ->
    FileReservation.agent_name res <> agent_name ->
    In p (FileReservation.paths res) ->
    In (p ++ s) paths ->
    exists blocker,
      In blocker (values (reservations self))
      /\ reserve_files project_key agent_name paths exclusive ttl_seconds
           self w
         = mkRan (Raise (ValueError (FileReservation.agent_name blocker)
                                    (FileReservation.paths blocker)))
                 self w.
Proof.
  intros self w res p s project_key agent_name paths exclusive ttl_seconds
         Hin Hstatus Hagent Hp Hps.
  assert (Hb : blocks res agent_name paths = true).
  { apply blocks_true_iff. split; [exact Hstatus |].
    split; [exact Hagent |].
    apply (paths_overlap_intro _ _ p (p ++ s) Hp Hps).
    left. apply prefix_app. }
  destruct (reserve_files_blocked self w project_key agent_name paths
              exclusive ttl_seconds res Hin Hb) as [blocker [Hi [_ Hrun]]].
  exists blocker. split; assumption.
Qed.

(** alice holds "/src/a.py"; bob asks for "/src/a.pyc". *)
Lemma reserve_files_prefix_extension_witness :
  exists blocker,
    In blocker (values (reservations (self_after Demo.alice_exclusive)))
    /\ reserve_files "web" "bob" ["/src/a.py" ++ "c"] true 60
         (self_after Demo.alice_exclusive) (world_after Demo.alice_exclusive)
       = mkRan (Raise (ValueError (FileReservation.agent_name blocker)
                                  (FileReservation.paths blocker)))
               (self_after Demo.alice_exclusive)
               (world_after Demo.alice_exclusive).
Proof.
  apply (reserve_files_prefix_extension
           (self_after Demo.alice_exclusive)
           (world_after Demo.alice_exclusive)
           (FileReservation.mk "3f2a9c1e-7b4" "web" "alice" ["/src/a.py"]
              true ACTIVE 1700000000000001 1700003600000000 3600)
           "/src/a.py" "c" "web" "bob" ["/src/a.py" ++ "c"] true 60).
  - vm_compute. left. reflexivity.
  - reflexivity.
  - simpl. discriminate.
  - simpl. left. reflexivity.
  - left. reflexivity.
Defined.

End MoreLeases.

Section ReleaseAndListing.
Import PyDict.
Import AgentMail.

(** X5. [release_reservation] on an id that the store does not hold
    returns [False] and changes nothing. On an id that it holds, it returns
    [True] and sets the status of that reservation to released, whatever it
    was; the other reservations, the order of the store and the database
    row of the reservation are left as they were. *)
Theorem release_reservation_spec :
  forall (self : AgentMail.t) (w : World) (reservation_id : string),
    match get reservation_id (reservations self) with
    | None =>
        release_reservation reservation_id self w
        = mkRan (Return false) self w
    | Some res =>
        exists self',
          release_reservation reservation_id self w
          = mkRan (Return true) self' w
          /\ get reservation_id (reservations self')
             = Some (FileReservation.set_status RELEASED res)
          /\ (forall other, other <> reservation_id ->
                            get other (reservations self')
                            = get other (reservations self))
          /\ keys (reservations self') = keys (reservations self)
          /\ db self' = db self
          /\ agents self' = agents self
          /\ messages self' = messages self
    end.
Proof.
  intros self w reservation_id.
  destruct (get reservation_id (reservations self)) as [res |] eqn:E;
    unfold release_reservation, bind, get_self, modify, ret, mem;
    rewrite E.
  - eexists. split; [reflexivity |]. simpl.
    split; [rewrite get_adjust_same, E; reflexivity |].
    split; [intros other Hne; now apply get_adjust_other |].
    split; [apply keys_adjust_any |]. repeat split.
  - reflexivity.
Qed.

Lemma release_reservation_spec_witness :
  exists self',
    release_reservation "3f2a9c1e-7b4" (self_after Demo.alice_exclusive)
      (world_after Demo.alice_exclusive)
    = mkRan (Return true) self' (world_after Demo.alice_exclusive)
    /\ get "3f2a9c1e-7b4" (reservations self')
       = Some (FileReservation.set_status RELEASED
                 (FileReservation.mk "3f2a9c1e-7b4" "web" "alice"
                    ["/src/a.py"] true ACTIVE 1700000000000001
                    1700003600000000 3600))
    /\ (forall other, other <> "3f2a9c1e-7b4" ->
                      get other (reservations self')
                      = get other
                          (reservations (self_after Demo.alice_exclusive)))
    /\ keys (reservations self')
       = keys (reservations (self_after Demo.alice_exclusive))
    /\ db self' = db (self_after Demo.alice_exclusive)
    /\ agents self' = agents (self_after Demo.alice_exclusive)
    /\ messages self' = messages (self_after Demo.alice_exclusive).
Proof.
  exact (release_reservation_spec (self_after Demo.alice_exclusive)
           (world_after Demo.alice_exclusive) "3f2a9c1e-7b4").
Defined.

(** X6. A released reservation blocks nobody: after the release of the
    reservation stored under [rid], a request that no reservation stored
    under another id blocks is granted, when the id drawn is not yet a row
    of the table and the expiry date can be represented. *)
Theorem release_then_reserve :
  forall (self : AgentMail.t) (w : World) (rid : string)
         (res : FileReservation.t) (project_key agent_name : string)
         (paths : list string) (exclusive : bool) (ttl_seconds : Z),
    NoDup (keys (reservations self)) ->
    get rid (reservations self) = Some res ->
    (forall k r, In (k, r) (reservations self) -> k <> rid ->
                 blocks r agent_name paths = false) ->
    (forall row, In row (Database.reservations (db self)) ->
                 FileReservation.id row <> uuid4_at w (draws w)) ->
    expiry_ok (utcnow_at w (ticks w)) ttl_seconds = true ->
    exists self1 self2 w2,
      release_reservation rid self w = mkRan (Return true) self1 w
      /\ reserve_files project_key agent_name paths exclusive ttl_seconds
           self1 w
         = mkRan (Return (reservation_built w project_key agent_name paths
                            exclusive ttl_seconds)) self2 w2.
Proof.
  intros self w rid res project_key agent_name paths exclusive ttl_seconds
         Hnd Hget Hothers Hfresh Hok.
  unfold release_reservation, bind, get_self, modify, ret, mem.
  rewrite Hget.
  set (self1 := set_reservations
                  (adjust (FileReservation.set_status RELEASED) rid
                     (reservations self)) self).
  assert (Hnone : first_blocker (reservations self1) agent_name paths
                  = None).
  { apply first_blocker_none. intros k r Hin. unfold self1 in Hin.
    simpl in Hin. destruct (String.eqb_spec k rid) as [-> | Hne].
    - apply in_items_adjust_same in Hin; [| exact Hnd].
      destruct Hin as [v [_ ->]]. reflexivity.
    - apply in_items_adjust in Hin. destruct Hin as [v [Hv [-> | [Hk _]]]].
      + exact (Hothers k v Hv Hne).
      + contradiction. }
  destruct (reserve_files_unblocked self1 w project_key agent_name paths
              exclusive ttl_seconds Hnone) as [w2 Hw2].
  exists self1. eexists. exists w2. split; [reflexivity |].
  rewrite Hw2, Hok. unfold self1 at 1. simpl.
  rewrite (fresh_row_absent _ _ Hfresh). reflexivity.
Qed.

(** alice releases her lease, and bob's request for the same path and one
    more is granted. *)
Lemma release_then_reserve_witness :
  exists self1 self2 w2,
    release_reservation "3f2a9c1e-7b4" (self_after Demo.alice_exclusive)
      (world_after Demo.alice_exclusive)
    = mkRan (Return true) self1 (world_after Demo.alice_exclusive)
    /\ reserve_files "web" "bob" ["/src/a.py"; "/src/b.py"] true 3600 self1
         (world_after Demo.alice_exclusive)
       = mkRan (Return (reservation_built (world_after Demo.alice_exclusive)
                          "web" "bob" ["/src/a.py"; "/src/b.py"] true 3600))
               self2 w2.
Proof.
  apply (release_then_reserve
           (self_after Demo.alice_exclusive)
           (world_after Demo.alice_exclusive) "3f2a9c1e-7b4"
           (FileReservation.mk "3f2a9c1e-7b4" "web" "alice" ["/src/a.py"]
              true ACTIVE 1700000000000001 1700003600000000 3600)
           "web" "bob" ["/src/a.py"; "/src/b.py"] true 3600).
  - vm_compute. constructor; [intros [] | constructor].
  - reflexivity.
  - intros k r Hin Hne. vm_compute in Hin. destruct Hin as [Heq | []].
    injection Heq as <- _. contradiction.
  - intros row Hin. vm_compute in Hin. destruct Hin as [<- | []].
    vm_compute. discriminate.
  - vm_compute. reflexivity.
Defined.

(** X7. No reservation comes back to life: a reservation that is active
    after [release_reservation] or after [get_active_reservations] was
    stored under the same id, unchanged and active, before the call. *)
Theorem reservation_never_reactivated :
  forall (self : AgentMail.t) (w : World) (k : string)
         (after : FileReservation.t),
    FileReservation.status after = ACTIVE ->
    (forall reservation_id,
        get k (reservations
                 (self_after (release_reservation reservation_id self w)))
        = Some after ->
        get k (reservations self) = Some after)
    /\ (forall project_key,
           get k (reservations
                    (self_after (get_active_reservations project_key self w)))
           = Some after ->
           get k (reservations self) = Some after).
Proof.
  intros self w k after Hactive. split.
  - intros reservation_id.
    unfold release_reservation, bind, get_self, modify, ret, mem.
    destruct (get reservation_id (reservations self)) as [res |] eqn:E;
      simpl; [| trivial].
    rewrite get_adjust.
    destruct (String.eqb k reservation_id); [| trivial].
    destruct (get k (reservations self)) as [r |]; simpl; [| discriminate].
    intros [= <-]. simpl in Hactive. discriminate.
  - intros project_key. rewrite get_active_reservations_run. simpl.
    rewrite get_map_values.
    destruct (get k (reservations self)) as [r |]; simpl; [| discriminate].
    intros [= <-]. unfold swept_one in *.
    destruct (String.eqb (FileReservation.project_key r) project_key
              && ReservationStatus_eqb (FileReservation.status r) ACTIVE
              && negb (utcnow_at w (ticks w) <? FileReservation.expires_at r)).
    + simpl in Hactive. discriminate.
    + reflexivity.
Qed.

(** alice's shared lease is active after either call, and was before. *)
Lemma reservation_never_reactivated_witness :
  (forall reservation_id,
      get "3f2a9c1e-7b4"
        (reservations
           (self_after (release_reservation reservation_id
                          (self_after Demo.alice_holds)
                          (world_after Demo.alice_holds))))
      = Some (FileReservation.mk "3f2a9c1e-7b4" "web" "alice" ["/src/a.py"]
                false ACTIVE 1700000000000001 1700003600000000 3600) ->
      get "3f2a9c1e-7b4" (reservations (self_after Demo.alice_holds))
      = Some (FileReservation.mk "3f2a9c1e-7b4" "web" "alice" ["/src/a.py"]
                false ACTIVE 1700000000000001 1700003600000000 3600))
  /\ (forall project_key,
         get "3f2a9c1e-7b4"
           (reservations
              (self_after (get_active_reservations project_key
                             (self_after Demo.alice_holds)
                             (world_after Demo.alice_holds))))
         = Some (FileReservation.mk "3f2a9c1e-7b4" "web" "alice"
                   ["/src/a.py"] false ACTIVE 1700000000000001
                   1700003600000000 3600) ->
         get "3f2a9c1e-7b4" (reservations (self_after Demo.alice_holds))
         = Some (FileReservation.mk "3f2a9c1e-7b4" "web" "alice"
                   ["/src/a.py"] false ACTIVE 1700000000000001
                   1700003600000000 3600)).
Proof.
  apply (reservation_never_reactivated
           (self_after Demo.alice_holds) (world_after Demo.alice_holds)
           "3f2a9c1e-7b4"
           (FileReservation.mk "3f2a9c1e-7b4" "web" "alice" ["/src/a.py"]
              false ACTIVE 1700000000000001 1700003600000000 3600)).
  reflexivity.
Defined.

Lemma sweep_listed :
  forall project_key now (store : dict FileReservation.t),
    fst (sweep project_key now store)
    = filter (listed project_key now) (values store).
Proof.
  intros project_key now store.
  induction store as [| [k res] rest IH]; simpl.
  - reflexivity.
  - destruct (sweep project_key now rest) as [active rest'] eqn:E.
    simpl in IH. subst active.
    assert (Hl : listed project_key now res
                 = String.eqb (FileReservation.project_key res) project_key
                   && ReservationStatus_eqb (FileReservation.status res)
                                            ACTIVE
                   && (now <? FileReservation.expires_at res))
      by reflexivity.
    rewrite Hl.
    destruct (String.eqb (FileReservation.project_key res) project_key);
      simpl; [| reflexivity].
    destruct (ReservationStatus_eqb (FileReservation.status res) ACTIVE);
      simpl; [| reflexivity].
    destruct (now <? FileReservation.expires_at res); reflexivity.
Qed.

End ReleaseAndListing.

Section ListingAndFailure.
Import PyDict.
Import AgentMail.

Lemma keys_map_values :
  forall (f : FileReservation.t -> FileReservation.t)
         (store : dict FileReservation.t),
    keys (map (fun kv => (fst kv, f (snd kv))) store) = keys store.
Proof.
  intros f store. unfold keys. rewrite map_map. reflexivity.
Qed.

(** X8. [get_active_reservations] returns, in the order of the store, the
    reservations of the project asked for that are active and whose
    [expires_at] is later than the clock reading. Afterwards every stored
    reservation of that project that was active and has lapsed is expired;
    the reservations of other projects, the order of the store and the
    database are as before. *)
Theorem get_active_reservations_exact :
  forall (self : AgentMail.t) (w : World) (project_key : string),
    exists self' w',
      get_active_reservations project_key self w
      = mkRan (Return (filter (listed project_key (utcnow_at w (ticks w)))
                              (values (reservations self)))) self' w'
      /\ keys (reservations self') = keys (reservations self)
      /\ (forall k,
             get k (reservations self')
             = option_map (swept_one project_key (utcnow_at w (ticks w)))
                          (get k (reservations self)))
      /\ (forall k res,
             get k (reservations self) = Some res ->
             FileReservation.project_key res <> project_key ->
             get k (reservations self') = Some res)
      /\ db self' = db self.
Proof.
  intros self w project_key. rewrite get_active_reservations_run.
  eexists. eexists. split; [rewrite sweep_listed; reflexivity |]. simpl.
  split; [apply keys_map_values |].
  split; [intros k; apply get_map_values |].
  split; [| reflexivity].
  intros k res Hget Hne. rewrite get_map_values, Hget. simpl.
  unfold swept_one. apply String.eqb_neq in Hne. rewrite Hne. reflexivity.
Qed.

Lemma reserve_files_granted_run :
  forall self w project_key agent_name paths exclusive ttl,
    (forall k res, In (k, res) (reservations self) ->
                   blocks res agent_name paths = false) ->
    (forall row, In row (Database.reservations (db self)) ->
                 FileReservation.id row <> uuid4_at w (draws w)) ->
    expiry_ok (utcnow_at w (ticks w)) ttl = true ->
    reserve_files project_key agent_name paths exclusive ttl self w
    = mkRan
        (Return (reservation_built w project_key agent_name paths exclusive
                   ttl))
        (mk (agents self) (messages self)
           (set (uuid4_at w (draws w))
              (reservation_built w project_key agent_name paths exclusive
                 ttl) (reservations self))
           (Database.mk (Database.agents (db self))
              (Database.messages (db self))
              (Database.reservations (db self)
               ++ [reservation_built w project_key agent_name paths
                     exclusive ttl])%list))
        (mkWorld (utcnow_at w) (S (S (ticks w))) (uuid4_at w) (S (draws w))
                 (digest6 w)).
Proof.
  intros self w project_key agent_name paths exclusive ttl Hfree Hfresh Hok.
  unfold reserve_files, bind, get_self, items.
  rewrite check_conflicts_run, (first_blocker_none _ _ _ Hfree).
  unfold FileReservation.new, add_timedelta, bind, uuid4_12, utcnow, modify,
    ret.
  simpl. rewrite Hok. simpl.
  unfold Database.insert_reservation. simpl.
  rewrite (fresh_row_absent _ _ Hfresh). reflexivity.
Qed.

(** X9. A reservation that is granted (no stored reservation blocks the
    request, the id drawn is new to the table, the expiry date can be
    represented) appears in the next listing of its project, provided the
    clock reading of the listing is earlier than its [expires_at]. *)
Theorem granted_reservation_listed :
  forall (self : AgentMail.t) (w : World) (project_key agent_name : string)
         (paths : list string) (exclusive : bool) (ttl_seconds : Z),
    (forall k res, In (k, res) (reservations self) ->
                   blocks res agent_name paths = false) ->
    (forall row, In row (Database.reservations (db self)) ->
                 FileReservation.id row <> uuid4_at w (draws w)) ->
    expiry_ok (utcnow_at w (ticks w)) ttl_seconds = true ->
    utcnow_at w (S (S (ticks w)))
    < utcnow_at w (ticks w) + timedelta_seconds ttl_seconds ->
    exists self1 w1 active self2 w2,
      reserve_files project_key agent_name paths exclusive ttl_seconds self w
      = mkRan (Return (reservation_built w project_key agent_name paths
                         exclusive ttl_seconds)) self1 w1
      /\ get_active_reservations project_key self1 w1
         = mkRan (Return active) self2 w2
      /\ In (reservation_built w project_key agent_name paths exclusive
               ttl_seconds) active.
Proof.
  intros self w project_key agent_name paths exclusive ttl_seconds
         Hfree Hfresh Hok Hlater.
  rewrite (reserve_files_granted_run _ _ _ _ _ _ _ Hfree Hfresh Hok).
  eexists. eexists. eexists. eexists. eexists.
  split; [reflexivity |].
  rewrite get_active_reservations_run. split; [reflexivity |].
  rewrite sweep_listed. simpl. apply filter_In. split.
  - apply in_values_set.
  - unfold listed, reservation_built. simpl.
    rewrite String.eqb_refl. simpl. apply Z.ltb_lt. exact Hlater.
Qed.

Lemma granted_reservation_listed_witness :
  exists self1 w1 active self2 w2,
    reserve_files "web" "alice" ["/src/a.py"] true 3600 Demo.mail Demo.world
    = mkRan (Return (reservation_built Demo.world "web" "alice"
                       ["/src/a.py"] true 3600)) self1 w1
    /\ get_active_reservations "web" self1 w1
       = mkRan (Return active) self2 w2
    /\ In (reservation_built Demo.world "web" "alice" ["/src/a.py"] true
             3600) active.
Proof.
  apply (granted_reservation_listed Demo.mail Demo.world "web" "alice"
           ["/src/a.py"] true 3600).
  - intros k res [].
  - intros row [].
  - vm_compute. reflexivity.
  - vm_compute. reflexivity.
Defined.

(** X10. When the id drawn for an unblocked request whose expiry date can
    be represented is already a row of the reservations table,
    [reserve_files] raises the integrity error after it has stored the
    reservation: the database is unchanged, but the store holds the new,
    active reservation under that id. *)
Theorem reserve_files_duplicate_id :
  forall (self : AgentMail.t) (w : World) (project_key agent_name : string)
         (paths : list string) (exclusive : bool) (ttl_seconds : Z)
         (row : FileReservation.t),
    (forall k res, In (k, res) (reservations self) ->
                   blocks res agent_name paths = false) ->
    In row (Database.reservations (db self)) ->
    FileReservation.id row = uuid4_at w (draws w) ->
    expiry_ok (utcnow_at w (ticks w)) ttl_seconds = true ->
    exists self' w',
      reserve_files project_key agent_name paths exclusive ttl_seconds self w
      = mkRan (Raise (IntegrityError "reservations")) self' w'
      /\ get (uuid4_at w (draws w)) (reservations self')
         = Some (reservation_built w project_key agent_name paths exclusive
                   ttl_seconds)
      /\ db self' = db self.
Proof.
  intros self w project_key agent_name paths exclusive ttl_seconds row
         Hfree Hin Hid Hok.
  destruct (reserve_files_unblocked self w project_key agent_name paths
              exclusive ttl_seconds (first_blocker_none _ _ _ Hfree))
    as [w' Hw'].
  rewrite Hw', Hok. cbn [negb].
  assert (Hex : existsb
                  (fun x => String.eqb (FileReservation.id x)
                                       (uuid4_at w (draws w)))
                  (Database.reservations (db self)) = true).
  { apply existsb_exists. exists row. split; [exact Hin |].
    apply String.eqb_eq. exact Hid. }
  rewrite Hex. eexists. exists w'. split; [reflexivity |]. simpl.
  split; [apply get_set_same | reflexivity].
Qed.

Lemma reserve_files_duplicate_id_witness :
  exists self' w',
    reserve_files "web" "alice" ["/src/a.py"] true 3600
      (AgentMail.init Scenes.used_disk) Demo.world
    = mkRan (Raise (IntegrityError "reservations")) self' w'
    /\ get (uuid4_at Demo.world (draws Demo.world)) (reservations self')
       = Some (reservation_built Demo.world "web" "alice" ["/src/a.py"] true
                 3600)
    /\ db self' = db (AgentMail.init Scenes.used_disk).
Proof.
  apply (reserve_files_duplicate_id (AgentMail.init Scenes.used_disk)
           Demo.world "web" "alice" ["/src/a.py"] true 3600
           (FileReservation.mk "3f2a9c1e-7b4" "web" "carol" ["/tmp"] true
              RELEASED 1 2 1)).
  - intros k res [].
  - left. reflexivity.
  - reflexivity.
  - vm_compute. reflexivity.
Defined.

(** X11. A new [AgentMail] object starts from empty dictionaries whatever
    the database file holds: the rows of the reservations table, active
    ones included, refuse no request, which is granted when the id drawn
    is not one of theirs and the expiry date can be represented; and every
    inbox is empty. *)
Theorem init_forgets_database :
  forall (disk : Database.t) (w : World) (project_key agent_name : string)
         (paths : list string) (exclusive : bool) (ttl_seconds : Z),
    (forall row, In row (Database.reservations disk) ->
                 FileReservation.id row <> uuid4_at w (draws w)) ->
    expiry_ok (utcnow_at w (ticks w)) ttl_seconds = true ->
    exists self' w',
      reserve_files project_key agent_name paths exclusive ttl_seconds
        (AgentMail.init disk) w
      = mkRan (Return (reservation_built w project_key agent_name paths
                         exclusive ttl_seconds)) self' w'
      /\ forall name since w0,
          result (fetch_inbox name since (AgentMail.init disk) w0)
          = Return [].
Proof.
  intros disk w project_key agent_name paths exclusive ttl_seconds Hfresh
         Hok.
  rewrite reserve_files_granted_run.
  - eexists. eexists. split; [reflexivity |].
    intros name [since |] w0; reflexivity.
  - intros k res [].
  - exact Hfresh.
  - exact Hok.
Qed.

(** The file holds alice's active lease on "/src"; bob's request for
    "/src/a.py" to the new object is granted. *)
Lemma init_forgets_database_witness :
  exists self' w',
    reserve_files "web" "bob" ["/src/a.py"] true 60
      (AgentMail.init Scenes.old_disk) Demo.world
    = mkRan (Return (reservation_built Demo.world "web" "bob" ["/src/a.py"]
                       true 60)) self' w'
    /\ forall name since w0,
        result (fetch_inbox name since (AgentMail.init Scenes.old_disk) w0)
        = Return [].
Proof.
  apply (init_forgets_database Scenes.old_disk Demo.world "web" "bob"
           ["/src/a.py"] true 60).
  - intros row Hin. destruct Hin as [<- | []]. vm_compute. discriminate.
  - vm_compute. reflexivity.
Defined.

End ListingAndFailure.

(* ===================================================================== *)
(** ** The registry and the mailbox, continued *)
(* ===================================================================== *)

Section MoreMail.
Import PyDict.
Import AgentMail.

Lemma fetch_inbox_result :
  forall self w agent_name since_ts,
    result (fetch_inbox agent_name since_ts self w)
    = Return (sorted Message.created_at true
                (since_filter since_ts (inbox_of agent_name self))).
Proof. reflexivity. Qed.

(** X12. Sending is seen by the next fetch: whether or not the database
    accepts the row, the recipient's inbox fetched after [send_message]
    holds the messages fetched before and one more, addressed to the
    recipient; the inbox of every other agent, the sender's included,
    fetches as before. *)
Theorem send_then_fetch :
  forall (self : AgentMail.t) (w w1 w2 : World)
         (project_key sender recipient subject body : string)
         (thread_id : option string),
    exists message before after,
      result (fetch_inbox recipient None self w1) = Return before
      /\ result (fetch_inbox recipient None
                   (self_after (send_message project_key sender recipient
                                  subject body thread_id self w)) w2)
         = Return after
      /\ Message.recipient message = recipient
      /\ Message.sender message = sender
      /\ In message after
      /\ Permutation after (message :: before)
      /\ (forall other since,
             other <> recipient ->
             result (fetch_inbox other since
                       (self_after (send_message project_key sender recipient
                                      subject body thread_id self w)) w2)
             = result (fetch_inbox other since self w1)).
Proof.
  intros self w w1 w2 project_key sender recipient subject body thread_id.
  destruct (send_message_run self w project_key sender recipient subject
              body thread_id) as [w' Hrun].
  set (message := message_built w project_key sender recipient subject body
                    thread_id).
  assert (Hbox : forall self',
             messages self' = delivered message recipient (messages self) ->
             inbox_of recipient self'
             = (inbox_of recipient self ++ [message])%list).
  { intros self' Hm. unfold inbox_of at 1, get_default. rewrite Hm.
    unfold delivered. rewrite get_adjust_same, inbox_of_ensured.
    reflexivity. }
  assert (Hother : forall self' other,
             messages self' = delivered message recipient (messages self) ->
             other <> recipient ->
             inbox_of other self' = inbox_of other self).
  { intros self' other Hm Hne. unfold inbox_of, get_default. rewrite Hm.
    unfold delivered. rewrite get_adjust_other by exact Hne.
    rewrite get_ensured_other by exact Hne. reflexivity. }
  assert (Hm : messages (self_after (send_message project_key sender
                                       recipient subject body thread_id
                                       self w))
               = delivered message recipient (messages self)).
  { rewrite Hrun.
    destruct (existsb _ (Database.messages (db self))); reflexivity. }
  exists message.
  exists (sorted Message.created_at true (inbox_of recipient self)).
  exists (sorted Message.created_at true
            (inbox_of recipient self ++ [message])%list).
  split; [reflexivity |].
  split; [rewrite fetch_inbox_result, (Hbox _ Hm); reflexivity |].
  split; [reflexivity |]. split; [reflexivity |].
  assert (Hperm : Permutation
                    (sorted Message.created_at true
                       (inbox_of recipient self ++ [message])%list)
                    (message :: sorted Message.created_at true
                                  (inbox_of recipient self))).
  { eapply Permutation_trans; [apply sorted_reverse_perm |].
    eapply Permutation_trans.
    - apply Permutation_sym. apply Permutation_cons_append.
    - apply perm_skip. apply Permutation_sym. apply sorted_reverse_perm. }
  split.
  - apply (Permutation_in _ (Permutation_sym Hperm)). left. reflexivity.
  - split; [exact Hperm |].
    intros other since Hne.
    rewrite !fetch_inbox_result, (Hother _ other Hm Hne). reflexivity.
Qed.

(** X13. A thread id that the caller supplies, and that is not empty, is
    kept, and then a single uuid is drawn, for the id of the message. *)
Theorem send_message_supplied_thread :
  forall (self : AgentMail.t) (w : World)
         (project_key sender recipient subject body thread : string),
    thread <> "" ->
    (forall row, In row (Database.messages (db self)) ->
                 Message.id row <> uuid4_at w (draws w)) ->
    exists message self',
      send_message project_key sender recipient subject body (Some thread)
        self w
      = mkRan (Return message) self'
          (mkWorld (utcnow_at w) (S (ticks w)) (uuid4_at w) (S (draws w))
                   (digest6 w))
      /\ Message.id message = uuid4_at w (draws w)
      /\ Message.thread_id message = Some thread
      /\ Message.created_at message = utcnow_at w (ticks w)
      /\ Message.read message = false.
Proof.
  intros self w project_key sender recipient subject body thread
         Hthread Hfresh.
  apply String.eqb_neq in Hthread.
  unfold send_message, bind at 1. unfold uuid4_12 at 1.
  unfold bind at 1. cbn [thread_id_or_fresh]. rewrite Hthread.
  unfold utcnow, ensure_inbox, bind, modify, get_self, ret. simpl.
  destruct (mem recipient (messages self)); simpl;
    unfold Database.insert_message; simpl;
    (destruct (existsb _ (Database.messages (db self))) eqn:E;
     [ exfalso; apply existsb_exists in E; destruct E as [row [Hin Heq]];
       apply String.eqb_eq in Heq; exact (Hfresh row Hin Heq)
     | eexists; eexists; split; [reflexivity | repeat split] ]).
Qed.

Lemma send_message_supplied_thread_witness :
  exists message self',
    send_message "web" "alice" "bob" "re: review" "done" (Some "t-42")
      Demo.mail Demo.world
    = mkRan (Return message) self'
        (mkWorld (utcnow_at Demo.world) (S (ticks Demo.world))
                 (uuid4_at Demo.world) (S (draws Demo.world))
                 (digest6 Demo.world))
    /\ Message.id message = uuid4_at Demo.world (draws Demo.world)
    /\ Message.thread_id message = Some "t-42"
    /\ Message.created_at message = utcnow_at Demo.world (ticks Demo.world)
    /\ Message.read message = false.
Proof.
  apply (send_message_supplied_thread Demo.mail Demo.world
           "web" "alice" "bob" "re: review" "done" "t-42").
  - discriminate.
  - intros row [].
Defined.

(** X14. When the id drawn for a message is already a row of the messages
    table, [send_message] raises the integrity error after the message has
    been appended: the database is unchanged and no message is returned,
    but the recipient's inbox holds the message. *)
Theorem send_message_duplicate_id :
  forall (self : AgentMail.t) (w : World)
         (project_key sender recipient subject body : string)
         (thread_id : option string) (row : Message.t),
    In row (Database.messages (db self)) ->
    Message.id row = uuid4_at w (draws w) ->
    exists self' w',
      send_message project_key sender recipient subject body thread_id self w
      = mkRan (Raise (IntegrityError "messages")) self' w'
      /\ db self' = db self
      /\ inbox_of recipient self'
         = (inbox_of recipient self
            ++ [message_built w project_key sender recipient subject body
                  thread_id])%list.
Proof.
  intros self w project_key sender recipient subject body thread_id row
         Hin Hid.
  destruct (send_message_run self w project_key sender recipient subject
              body thread_id) as [w' Hrun].
  rewrite Hrun.
  assert (Hex : existsb
                  (fun x => String.eqb (Message.id x) (uuid4_at w (draws w)))
                  (Database.messages (db self)) = true).
  { apply existsb_exists. exists row. split; [exact Hin |].
    apply String.eqb_eq. exact Hid. }
  rewrite Hex. eexists. exists w'. split; [reflexivity |].
  split; [reflexivity |].
  unfold inbox_of at 1, get_default. simpl. unfold delivered.
  rewrite get_adjust_same, inbox_of_ensured. reflexivity.
Qed.

Lemma send_message_duplicate_id_witness :
  exists self' w',
    send_message "web" "alice" "bob" "review" "please look" None
      (AgentMail.init Scenes.used_disk) Demo.world
    = mkRan (Raise (IntegrityError "messages")) self' w'
    /\ db self' = db (AgentMail.init Scenes.used_disk)
    /\ inbox_of "bob" self'
       = (inbox_of "bob" (AgentMail.init Scenes.used_disk)
          ++ [message_built Demo.world "web" "alice" "bob" "review"
                "please look" None])%list.
Proof.
  apply (send_message_duplicate_id (AgentMail.init Scenes.used_disk)
           Demo.world "web" "alice" "bob" "review" "please look" None
           (Message.mk "3f2a9c1e-7b4" "web" "carol" "dave" "old" "" None 5
              false)).
  - left. reflexivity.
  - reflexivity.
Defined.

(** X15. A registration neither loses nor adds mail: for every agent name,
    the name registered included, [fetch_inbox] returns after
    [register_agent] what it returned before. *)
Theorem register_agent_keeps_mail :
  forall (self : AgentMail.t) (w w1 w2 : World)
         (name project_key program model : string)
         (capabilities : option (list string))
         (any : string) (since_ts : option datetime),
    result (fetch_inbox any since_ts
              (self_after (register_agent name project_key program model
                             capabilities self w)) w1)
    = result (fetch_inbox any since_ts self w2).
Proof.
  intros self w w1 w2 name project_key program model capabilities any
         since_ts.
  rewrite !fetch_inbox_result, register_agent_run. simpl.
  assert (H : inbox_of any
                (mk (set name
                       (Agent.mk (uuid4_at w (draws w)) name project_key
                          program model (list_or_empty capabilities)
                          (utcnow_at w (ticks w))
                          (utcnow_at w (S (ticks w)))) (agents self))
                   (if mem name (messages self) then messages self
                    else set name [] (messages self))
                   (reservations self)
                   (Database.insert_or_replace_agent
                      (Agent.mk (uuid4_at w (draws w)) name project_key
                         program model (list_or_empty capabilities)
                         (utcnow_at w (ticks w))
                         (utcnow_at w (S (ticks w)))) (db self)))
              = inbox_of any self).
  { unfold inbox_of, get_default. simpl.
    destruct (String.eqb_spec any name) as [-> | Hne].
    - rewrite inbox_of_ensured. unfold get_default.
      destruct (get name (messages self)); reflexivity.
    - rewrite get_ensured_other by exact Hne. reflexivity. }
  rewrite H. reflexivity.
Qed.

(** X16. After a registration the agents table holds the agent returned,
    and no other row with its name or with its id; the rows that differ
    from it in both are kept. The dictionary holds the same agent under the
    name. *)
Theorem register_agent_table_row :
  forall (self : AgentMail.t) (w : World)
         (name project_key program model : string)
         (capabilities : option (list string)),
    exists agent self' w',
      register_agent name project_key program model capabilities self w
      = mkRan (Return agent) self' w'
      /\ get name (agents self') = Some agent
      /\ In agent (Database.agents (db self'))
      /\ (forall row,
             In row (Database.agents (db self')) ->
             Agent.name row = Agent.name agent
             \/ Agent.id row = Agent.id agent ->
             row = agent)
      /\ (forall row,
             In row (Database.agents (db self)) ->
             Agent.name row <> Agent.name agent ->
             Agent.id row <> Agent.id agent ->
             In row (Database.agents (db self'))).
Proof.
  intros self w name project_key program model capabilities.
  rewrite register_agent_run.
  eexists. eexists. eexists. split; [reflexivity |]. simpl.
  split; [apply get_set_same |].
  split; [apply in_or_app; right; left; reflexivity |].
  split.
  - intros row Hin Hsame. apply in_app_or in Hin.
    destruct Hin as [Hin | [<- | []]]; [| reflexivity].
    apply filter_In in Hin. destruct Hin as [_ Hkeep].
    apply andb_true_iff in Hkeep. destruct Hkeep as [Hid Hname].
    apply negb_true_iff in Hid. apply negb_true_iff in Hname.
    apply String.eqb_neq in Hid. apply String.eqb_neq in Hname.
    simpl in Hid, Hname. destruct Hsame; contradiction.
  - intros row Hin Hname Hid. apply in_or_app. left.
    apply filter_In. split; [exact Hin |].
    apply andb_true_iff. simpl in Hname, Hid.
    split; apply negb_true_iff; apply String.eqb_neq; assumption.
Qed.

End MoreMail.

(* ===================================================================== *)
(** ** The issue graph, continued *)
(* ===================================================================== *)

Section IssueLog.
Import PyDict.
Import Beads.

Lemma _load_issues_snoc :
  forall lines issue,
    _load_issues (lines ++ [issue])
    = set (Issue.id issue) issue (_load_issues lines).
Proof.
  intros lines issue. unfold _load_issues. rewrite fold_left_app.
  reflexivity.
Qed.

Lemma keyed_set :
  forall (store : dict Issue.t) issue,
    keyed store -> keyed (set (Issue.id issue) issue store).
Proof.
  intros store issue [Hnd Hid]. split.
  - apply NoDup_keys_set. exact Hnd.
  - intros k i Hin. apply in_items_set in Hin.
    destruct Hin as [[-> ->] | Hin]; [reflexivity | now apply Hid].
Qed.

Lemma keyed_adjust :
  forall (f : Issue.t -> Issue.t) (store : dict Issue.t) k,
    (forall i, Issue.id (f i) = Issue.id i) ->
    keyed store -> keyed (adjust f k store).
Proof.
  intros f store k Hf [Hnd Hid]. split.
  - rewrite keys_adjust_any. exact Hnd.
  - intros k' i' Hin. apply in_items_adjust in Hin.
    destruct Hin as [i [Hi [-> | [_ ->]]]].
    + now apply Hid.
    + rewrite Hf. now apply Hid.
Qed.

Lemma keyed_linked :
  forall blocking issue_id (store : dict Issue.t),
    keyed store ->
    keyed (fold_left
             (fun store blocked_id =>
                adjust (Issue.append_blocked_by issue_id) blocked_id store)
             blocking store).
Proof.
  induction blocking as [| blocked_id rest IH]; intros issue_id store Hk;
    simpl.
  - exact Hk.
  - apply IH. apply keyed_adjust; [reflexivity | exact Hk].
Qed.

(** X17. A new [Beads] object replays the log: under each id it holds the
    last line of the log that carries this id, and nothing under an id
    that no line carries; every issue is stored under its own id, once. *)
Theorem load_issues_last_wins :
  forall (lines : list Issue.t) (k : string),
    get k (issues (Beads.init lines)) = last_record k lines
    /\ keyed (issues (Beads.init lines))
    /\ issues_db (Beads.init lines) = lines.
Proof.
  intros lines k. simpl. split; [| split; [| reflexivity]].
  - induction lines as [| issue lines IH] using rev_ind.
    + reflexivity.
    + rewrite _load_issues_snoc. unfold last_record.
      rewrite rev_unit. simpl.
      destruct (String.eqb_spec (Issue.id issue) k) as [<- | Hne].
      * apply get_set_same.
      * rewrite get_set_other by congruence. exact IH.
  - induction lines as [| issue lines IH] using rev_ind.
    + split; [constructor | intros k0 i []].
    + rewrite _load_issues_snoc. apply keyed_set. exact IH.
Qed.

(** X18. Both writing methods keep the store well formed: if every issue
    is stored under its own id and no key occurs twice, the same holds
    after [create_issue] and after [update_issue], whatever their
    arguments. *)
Theorem beads_store_keyed :
  forall (self : Beads.t) (w : World),
    keyed (issues self) ->
    (forall title description priority parent_id blocking,
        keyed (issues (self_after (create_issue title description priority
                                     parent_id blocking self w))))
    /\ (forall issue_id status assignee priority,
           keyed (issues (self_after (update_issue issue_id status assignee
                                        priority self w)))).
Proof.
  intros self w Hk. split.
  - intros title description priority parent_id blocking.
    rewrite create_issue_run. simpl.
    apply (keyed_set _
             (Issue.mk ("bd-" ++ digest6 w title (utcnow_at w (ticks w)))
                title description BACKLOG priority parent_id
                (list_or_empty blocking) [] None
                (utcnow_at w (S (ticks w)))
                (utcnow_at w (S (S (ticks w)))))).
    apply keyed_linked. exact Hk.
  - intros issue_id status assignee priority.
    unfold update_issue, bind, get_self, modify, utcnow, _save_issue, ret.
    destruct (mem issue_id (issues self)) eqn:E; simpl; [| exact Hk].
    assert (Hk' : keyed
                    (adjust (Issue.set_updated_at (utcnow_at w (ticks w)))
                       issue_id
                       (adjust (assign_fields status assignee priority)
                          issue_id (issues self)))).
    { apply keyed_adjust; [reflexivity |].
      apply keyed_adjust; [| exact Hk].
      intros i. unfold assign_fields.
      destruct status, (truthy_str assignee), priority as [p |];
        simpl; try destruct (String.eqb p ""); reflexivity. }
    destruct (get issue_id
                (adjust (Issue.set_updated_at (utcnow_at w (ticks w)))
                   issue_id
                   (adjust (assign_fields status assignee priority)
                      issue_id (issues self)))); exact Hk'.
Qed.

Lemma beads_store_keyed_witness :
  (forall title description priority parent_id blocking,
      keyed (issues (self_after (create_issue title description priority
                                   parent_id blocking
                                   (self_after Demo.parser_created)
                                   (world_after Demo.parser_created)))))
  /\ (forall issue_id status assignee priority,
         keyed (issues (self_after (update_issue issue_id status assignee
                                      priority
                                      (self_after Demo.parser_created)
                                      (world_after Demo.parser_created))))).
Proof.
  apply (beads_store_keyed (self_after Demo.parser_created)
           (world_after Demo.parser_created)).
  split.
  - vm_compute. constructor; [intros [] | constructor].
  - intros k issue Hin. vm_compute in Hin. destruct Hin as [Heq | []].
    injection Heq as <- <-. reflexivity.
Defined.

(** X19. An update survives a restart: when [old] is stored under its own
    id, [update_issue] returns the updated issue, and a [Beads] object
    built from the log as it is after the call holds that issue under the
    id. *)
Theorem update_issue_persisted :
  forall (self : Beads.t) (w : World) (issue_id : string) (old : Issue.t)
         (status : option IssueStatus) (assignee priority : option string),
    get issue_id (issues self) = Some old ->
    Issue.id old = issue_id ->
    exists updated self' w',
      update_issue issue_id status assignee priority self w
      = mkRan (Return (Some updated)) self' w'
      /\ get issue_id (issues self') = Some updated
      /\ get issue_id (issues (Beads.init (issues_db self'))) = Some updated.
Proof.
  intros self w issue_id old status assignee priority Hget Hid.
  assert (Hafter :
            get issue_id
              (adjust (Issue.set_updated_at (utcnow_at w (ticks w)))
                 issue_id
                 (adjust (assign_fields status assignee priority)
                    issue_id (issues self)))
            = Some (Issue.set_updated_at (utcnow_at w (ticks w))
                      (assign_fields status assignee priority old))).
  { rewrite !get_adjust_same, Hget. reflexivity. }
  unfold update_issue, bind, get_self, modify, utcnow, _save_issue, ret.
  unfold mem. rewrite Hget. simpl. rewrite Hafter.
  eexists. eexists. eexists. split; [reflexivity |]. simpl.
  split; [exact Hafter |].
  rewrite _load_issues_snoc.
  assert (Hsame : Issue.id (Issue.set_updated_at (utcnow_at w (ticks w))
                              (assign_fields status assignee priority old))
                  = issue_id).
  { rewrite assign_fields_fields. simpl. exact Hid. }
  rewrite Hsame. apply get_set_same.
Qed.

Lemma update_issue_persisted_witness :
  exists updated self' w',
    update_issue "bd-a1b2c3" (Some IN_PROGRESS) (Some "alice") None
      (self_after Demo.lexer_created) (world_after Demo.lexer_created)
    = mkRan (Return (Some updated)) self' w'
    /\ get "bd-a1b2c3" (issues self') = Some updated
    /\ get "bd-a1b2c3" (issues (Beads.init (issues_db self')))
       = Some updated.
Proof.
  apply (update_issue_persisted
           (self_after Demo.lexer_created) (world_after Demo.lexer_created)
           "bd-a1b2c3"
           (Issue.mk "bd-a1b2c3" "parser" "" BACKLOG "medium" None []
              ["bd-d4e5f6"] None 1700000000000001 1700000000000002)
           (Some IN_PROGRESS) (Some "alice") None).
  - reflexivity.
  - reflexivity.
Defined.

(** X20. The new issue is written to the log, the edge is not: after
    [create_issue] with [blocking = l], a [Beads] object built from the log
    holds the new issue under its id, but under the id [b_id] of a blocker
    that is stored, and that is not the id generated for the new issue, it
    holds what the log held before, while the store in memory holds the
    blocker with the new id appended to its [blocked_by]. *)
Theorem create_issue_edge_not_logged :
  forall (self : Beads.t) (w : World) (title description priority : string)
         (parent_id : option string) (l : list string) (b_id : string)
         (b : Issue.t),
    In b_id l ->
    get b_id (issues self) = Some b ->
    b_id <> "bd-" ++ digest6 w title (utcnow_at w (ticks w)) ->
    exists c self' w' held,
      create_issue title description priority parent_id (Some l) self w
      = mkRan (Return c) self' w'
      /\ get (Issue.id c) (issues (Beads.init (issues_db self'))) = Some c
      /\ get b_id (issues (Beads.init (issues_db self')))
         = get b_id (issues (Beads.init (issues_db self)))
      /\ get b_id (issues self') = Some held
      /\ Issue.blocked_by held
         = (Issue.blocked_by b
            ++ repeat (Issue.id c) (count_occ string_dec l b_id))%list
      /\ (count_occ string_dec l b_id > 0)%nat.
Proof.
  intros self w title description priority parent_id l b_id b
         Hin Hget Hnew.
  rewrite create_issue_run.
  eexists. eexists. eexists. eexists. split; [reflexivity |].
  cbn [Issue.id issues issues_db list_or_empty Beads.init].
  rewrite _load_issues_snoc. cbn [Issue.id].
  split; [apply get_set_same |].
  split; [apply get_set_other; exact Hnew |].
  split.
  { rewrite get_set_other by exact Hnew.
    rewrite get_linked, Hget. reflexivity. }
  split; [reflexivity |].
  apply count_occ_In. exact Hin.
Qed.

Lemma create_issue_edge_not_logged_witness :
  exists c self' w' held,
    create_issue "lexer" "" "high" None (Some ["bd-a1b2c3"; "bd-ffffff"])
      (self_after Demo.parser_created) (world_after Demo.parser_created)
    = mkRan (Return c) self' w'
    /\ get (Issue.id c) (issues (Beads.init (issues_db self'))) = Some c
    /\ get "bd-a1b2c3" (issues (Beads.init (issues_db self')))
       = get "bd-a1b2c3"
           (issues (Beads.init (issues_db (self_after Demo.parser_created))))
    /\ get "bd-a1b2c3" (issues self') = Some held
    /\ Issue.blocked_by held
       = ([] ++ repeat (Issue.id c)
                  (count_occ string_dec ["bd-a1b2c3"; "bd-ffffff"]
                     "bd-a1b2c3"))%list
    /\ (count_occ string_dec ["bd-a1b2c3"; "bd-ffffff"] "bd-a1b2c3" > 0)%nat.
Proof.
  apply (create_issue_edge_not_logged
           (self_after Demo.parser_created)
           (world_after Demo.parser_created)
           "lexer" "" "high" None ["bd-a1b2c3"; "bd-ffffff"] "bd-a1b2c3"
           (Issue.mk "bd-a1b2c3" "parser" "" BACKLOG "medium" None []
              [] None 1700000000000001 1700000000000002)).
  - simpl. left. reflexivity.
  - reflexivity.
  - vm_compute. discriminate.
Defined.

End IssueLog.

Section ReadyFrontier.
Import PyDict.
Import Beads.

Lemma get_ready_issues_run :
  forall self w,
    exists w',
      get_ready_issues self w
      = mkRan (Return (filter (is_ready (issues self))
                              (values (issues self)))) self w'.
Proof.
  intros self w. unfold get_ready_issues, bind, get_self.
  destruct (ready_loop_run (issues self) (values (issues self)) [] self w)
    as [w' Hw'].
  exists w'. exact Hw'.
Qed.

(** X21. The issue created holds back the issues it names: after
    [create_issue] with [blocking = l], neither the new issue, whose status
    is backlog, nor the issue stored under an id [b_id] of [l] is returned
    by [get_ready_issues], whatever the status of the latter. *)
Theorem created_issue_holds_back :
  forall (self : Beads.t) (w : World) (title description priority : string)
         (parent_id : option string) (l : list string) (b_id : string)
         (b : Issue.t),
    In b_id l ->
    get b_id (issues self) = Some b ->
    b_id <> "bd-" ++ digest6 w title (utcnow_at w (ticks w)) ->
    exists c self' w' held ready w'',
      create_issue title description priority parent_id (Some l) self w
      = mkRan (Return c) self' w'
      /\ get b_id (issues self') = Some held
      /\ get_ready_issues self' w' = mkRan (Return ready) self' w''
      /\ ~ In c ready
      /\ ~ In held ready.
Proof.
  intros self w title description priority parent_id l b_id b
         Hin Hget Hnew.
  rewrite create_issue_run.
  set (cid := "bd-" ++ digest6 w title (utcnow_at w (ticks w))) in *.
  set (c := Issue.mk cid title description BACKLOG priority parent_id
              (list_or_empty (Some l)) [] None (utcnow_at w (S (ticks w)))
              (utcnow_at w (S (S (ticks w))))).
  set (store := set cid c
                  (fold_left
                     (fun store blocked_id =>
                        adjust (Issue.append_blocked_by cid) blocked_id
                               store)
                     (list_or_empty (Some l)) (issues self))).
  set (self' := mk store (issues_db self ++ [c])%list).
  set (w' := mkWorld (utcnow_at w) (S (S (S (ticks w)))) (uuid4_at w)
                     (draws w) (digest6 w)).
  destruct (get_ready_issues_run self' w') as [w'' Hready].
  assert (Hheld : get b_id store
                  = Some (blocked_by_extended cid
                            (count_occ string_dec l b_id) b)).
  { unfold store. rewrite get_set_other by exact Hnew.
    simpl. rewrite get_linked, Hget. reflexivity. }
  exists c, self', w'.
  exists (blocked_by_extended cid (count_occ string_dec l b_id) b).
  eexists. exists w''.
  split; [reflexivity |]. split; [exact Hheld |].
  split; [exact Hready |]. simpl. split.
  - intros Hc. apply filter_In in Hc. destruct Hc as [_ Hc].
    unfold is_ready in Hc. simpl in Hc. discriminate.
  - intros Hh. apply filter_In in Hh. destruct Hh as [_ Hh].
    unfold is_ready in Hh. apply andb_true_iff in Hh.
    destruct Hh as [_ Hdone].
    rewrite blockers_done_spec in Hdone.
    assert (Hc : Issue.status c = DONE).
    { apply (Hdone cid c).
      - unfold blocked_by_extended. cbn [Issue.blocked_by].
        apply in_or_app. right.
        assert (Hpos : (count_occ string_dec l b_id > 0)%nat)
          by (apply count_occ_In; exact Hin).
        destruct (count_occ string_dec l b_id) as [| n]; [lia |].
        simpl. left. reflexivity.
      - unfold store. apply get_set_same. }
    simpl in Hc. discriminate.
Qed.

Lemma created_issue_holds_back_witness :
  exists c self' w' held ready w'',
    create_issue "lexer" "" "high" None (Some ["bd-a1b2c3"; "bd-ffffff"])
      (self_after Demo.parser_created) (world_after Demo.parser_created)
    = mkRan (Return c) self' w'
    /\ get "bd-a1b2c3" (issues self') = Some held
    /\ get_ready_issues self' w' = mkRan (Return ready) self' w''
    /\ ~ In c ready
    /\ ~ In held ready.
Proof.
  apply (created_issue_holds_back
           (self_after Demo.parser_created)
           (world_after Demo.parser_created)
           "lexer" "" "high" None ["bd-a1b2c3"; "bd-ffffff"] "bd-a1b2c3"
           (Issue.mk "bd-a1b2c3" "parser" "" BACKLOG "medium" None []
              [] None 1700000000000001 1700000000000002)).
  - simpl. left. reflexivity.
  - reflexivity.
  - vm_compute. discriminate.
Defined.

(** X22. Marking the last open blocker done releases the issue: let [b]
    be stored under [b_id] with status ready, and let every id of its
    [blocked_by] other than [c_id] that the store knows be the id of a done
    issue. After [update_issue] has set the issue under [c_id] to done,
    [get_ready_issues] returns [b]. *)
Theorem done_blocker_releases :
  forall (self : Beads.t) (w : World) (b_id c_id : string) (b c : Issue.t)
         (assignee priority : option string),
    get b_id (issues self) = Some b ->
    Issue.status b = READY ->
    get c_id (issues self) = Some c ->
    b_id <> c_id ->
    (forall bid blocker,
        In bid (Issue.blocked_by b) -> bid <> c_id ->
        get bid (issues self) = Some blocker ->
        Issue.status blocker = DONE) ->
    exists updated self' w' ready w'',
      update_issue c_id (Some DONE) assignee priority self w
      = mkRan (Return (Some updated)) self' w'
      /\ Issue.status updated = DONE
      /\ get_ready_issues self' w' = mkRan (Return ready) self' w''
      /\ In b ready.
Proof.
  intros self w b_id c_id b c assignee priority Hb Hready Hc Hne Hothers.
  assert (Hafter :
            forall k,
              get k
                (adjust (Issue.set_updated_at (utcnow_at w (ticks w))) c_id
                   (adjust (assign_fields (Some DONE) assignee priority)
                      c_id (issues self)))
              = if String.eqb k c_id
                then option_map
                       (fun i =>
                          Issue.set_updated_at (utcnow_at w (ticks w))
                            (assign_fields (Some DONE) assignee priority i))
                       (get k (issues self))
                else get k (issues self)).
  { intros k. rewrite !get_adjust.
    destruct (String.eqb k c_id); [| reflexivity].
    destruct (get k (issues self)); reflexivity. }
  unfold update_issue, bind, get_self, modify, utcnow, _save_issue, ret.
  unfold mem. rewrite Hc. simpl.
  rewrite (Hafter c_id), String.eqb_refl, Hc. simpl.
  set (updated := Issue.set_updated_at (utcnow_at w (ticks w))
                    (assign_fields (Some DONE) assignee priority c)).
  set (store := adjust (Issue.set_updated_at (utcnow_at w (ticks w))) c_id
                  (adjust (assign_fields (Some DONE) assignee priority)
                     c_id (issues self))) in *.
  set (self' := mk store (issues_db self ++ [updated])%list).
  set (w' := mkWorld (utcnow_at w) (S (ticks w)) (uuid4_at w) (draws w)
                     (digest6 w)).
  assert (Hdone : Issue.status updated = DONE).
  { unfold updated. rewrite assign_fields_fields. reflexivity. }
  destruct (get_ready_issues_run self' w') as [w'' Hrun].
  exists updated, self', w'. eexists. exists w''.
  split; [reflexivity |]. split; [exact Hdone |].
  split; [exact Hrun |]. simpl.
  apply filter_In. split.
  - apply (get_some_in_values _ b_id). rewrite Hafter.
    apply String.eqb_neq in Hne. rewrite Hne. exact Hb.
  - unfold is_ready. apply andb_true_iff. split.
    + apply IssueStatus_eqb_eq. exact Hready.
    + apply blockers_done_spec. intros bid blocker Hin Hget.
      rewrite Hafter in Hget.
      destruct (String.eqb_spec bid c_id) as [-> | Hbid].
      * rewrite Hc in Hget. simpl in Hget. injection Hget as <-.
        exact Hdone.
      * exact (Hothers bid blocker Hin Hbid Hget).
Qed.

(** "parser" is ready and waits for "lexer" only; "lexer" is set to
    done. *)
Lemma done_blocker_releases_witness :
  exists updated self' w' ready w'',
    update_issue "bd-d4e5f6" (Some DONE) None None
      (self_after Demo.parser_ready) (world_after Demo.parser_ready)
    = mkRan (Return (Some updated)) self' w'
    /\ Issue.status updated = DONE
    /\ get_ready_issues self' w' = mkRan (Return ready) self' w''
    /\ In (Issue.mk "bd-a1b2c3" "parser" "" READY "medium" None []
             ["bd-d4e5f6"] None 1700000000000001 1700000000000006) ready.
Proof.
  apply (done_blocker_releases
           (self_after Demo.parser_ready) (world_after Demo.parser_ready)
           "bd-a1b2c3" "bd-d4e5f6"
           (Issue.mk "bd-a1b2c3" "parser" "" READY "medium" None []
              ["bd-d4e5f6"] None 1700000000000001 1700000000000006)
           (Issue.mk "bd-d4e5f6" "lexer" "" BACKLOG "high" None
              ["bd-a1b2c3"; "bd-ffffff"] [] None 1700000000000004
              1700000000000005)
           None None).
  - reflexivity.
  - reflexivity.
  - reflexivity.
  - discriminate.
  - intros bid blocker [<- | []] Hne. contradiction.
Defined.

Lemma filter_filter :
  forall (A : Type) (f g : A -> bool) (l : list A),
    filter f (filter g l) = filter (fun x => g x && f x) l.
Proof.
  intros A f g. induction l as [| x r IH]; simpl.
  - reflexivity.
  - destruct (g x); simpl; [| exact IH].
    destruct (f x); [f_equal |]; exact IH.
Qed.

Lemma filter_all :
  forall (A : Type) (l : list A), filter (fun _ => true) l = l.
Proof.
  intros A. induction l as [| x r IH]; simpl; [| rewrite IH]; reflexivity.
Qed.

Lemma assignee_is_eq :
  forall a b, assignee_is a b = true <-> a = b.
Proof.
  intros [x |] [y |]; simpl; split; try congruence.
  - intros H. apply String.eqb_eq in H. now subst.
  - intros [= ->]. apply String.eqb_refl.
Qed.

Lemma list_issues_run :
  forall self w status assignee blocked,
    list_issues status assignee blocked self w
    = mkRan (Return (sorted Issue.created_at true
                       (filter (selected status assignee blocked)
                               (values (issues self))))) self w.
Proof.
  intros self w status assignee blocked.
  unfold list_issues, bind, get_self, ret. f_equal. f_equal. f_equal.
  unfold selected.
  destruct status as [s |], (truthy_str assignee), blocked;
    rewrite ?filter_filter;
    first [ apply filter_ext
          | rewrite <- (filter_all _ (values (issues self))) at 1;
            apply filter_ext ];
    intros i; rewrite ?andb_true_r, ?andb_assoc; reflexivity.
Qed.

(** X23. [list_issues] returns, and changes nothing. An issue of the store
    is returned if and only if it has the status asked for, if one is
    asked for, has the assignee asked for, if one is asked for and is not
    the empty string, and, when [blocked] is set, has a non-empty
    [blocked_by] and a status other than blocked. The issues come in weakly
    decreasing order of [created_at], those of equal [created_at] in the
    order of the store. *)
Theorem list_issues_spec :
  forall (self : Beads.t) (w : World) (status : option IssueStatus)
         (assignee : option string) (blocked : bool),
    exists found,
      list_issues status assignee blocked self w
      = mkRan (Return found) self w
      /\ (forall i,
             In i found <->
             In i (values (issues self))
             /\ (forall s, status = Some s -> Issue.status i = s)
             /\ (truthy_str assignee = true -> Issue.assignee i = assignee)
             /\ (blocked = true ->
                 Issue.status i <> BLOCKED /\ Issue.blocked_by i <> []))
      /\ StronglySorted
           (fun a b => Issue.created_at a >= Issue.created_at b) found
      /\ (forall t,
             with_key Issue.created_at t found
             = with_key Issue.created_at t
                 (filter (selected status assignee blocked)
                         (values (issues self)))).
Proof.
  intros self w status assignee blocked.
  rewrite list_issues_run. eexists. split; [reflexivity |].
  split; [| split; [apply sorted_reverse_descending
                   | intros t; apply sorted_reverse_stable]].
  intros i.
  assert (Hperm := sorted_reverse_perm Issue.created_at
                     (filter (selected status assignee blocked)
                             (values (issues self)))).
  assert (Hsel : selected status assignee blocked i = true <->
                 (forall s, status = Some s -> Issue.status i = s)
                 /\ (truthy_str assignee = true ->
                     Issue.assignee i = assignee)
                 /\ (blocked = true ->
                     Issue.status i <> BLOCKED
                     /\ Issue.blocked_by i <> [])).
  { unfold selected. rewrite !andb_true_iff. split.
    - intros [[Hs Ha] Hb]. split; [| split].
      + intros s ->. apply IssueStatus_eqb_eq. exact Hs.
      + intros Ht. rewrite Ht in Ha. apply assignee_is_eq. exact Ha.
      + intros ->. apply andb_true_iff in Hb. destruct Hb as [Hb1 Hb2].
        split.
        * intros Hst. rewrite Hst in Hb1. discriminate.
        * destruct (Issue.blocked_by i); [discriminate | discriminate].
    - intros [Hs [Ha Hb]]. split; [split |].
      + destruct status as [s |]; [| reflexivity].
        apply IssueStatus_eqb_eq. apply Hs. reflexivity.
      + destruct (truthy_str assignee); [| reflexivity].
        apply assignee_is_eq. apply Ha. reflexivity.
      + destruct blocked; [| reflexivity].
        destruct (Hb eq_refl) as [Hb1 Hb2]. apply andb_true_iff. split.
        * destruct (Issue.status i); try reflexivity. contradiction.
        * destruct (Issue.blocked_by i); [contradiction | reflexivity]. }
  split.
  - intros Hin. apply (Permutation_in i Hperm) in Hin.
    apply filter_In in Hin. destruct Hin as [Hin Hs].
    split; [exact Hin |]. apply Hsel. exact Hs.
  - intros [Hin Hs]. apply (Permutation_in i (Permutation_sym Hperm)).
    apply filter_In. split; [exact Hin |]. apply Hsel. exact Hs.
Qed.

End ReadyFrontier.

(* ===================================================================== *)
(** ** The accessors *)
(* ===================================================================== *)

Section Accessors.
Import PyDict.
Import Process.

Lemma call_agent_mail_run :
  forall (A : Type) (base_path : string) (method : Py AgentMail.t A)
         (proc : Process.t) (w : World),
    call_agent_mail base_path method proc w
    = mkRan
        (result
           (method
              match _agent_mail_instance proc with
              | Some instance => instance
              | None =>
                  AgentMail.init
                    (get_default base_path (mail_files proc)
                       (Database.mk [] [] []))
              end w))
        (mk (Some
               (self_after
                  (method
                     match _agent_mail_instance proc with
                     | Some instance => instance
                     | None =>
                         AgentMail.init
                           (get_default base_path (mail_files proc)
                              (Database.mk [] [] []))
                     end w)))
            (_beads_instance proc) (mail_files proc) (beads_files proc))
        (world_after
           (method
              match _agent_mail_instance proc with
              | Some instance => instance
              | None =>
                  AgentMail.init
                    (get_default base_path (mail_files proc)
                       (Database.mk [] [] []))
              end w)).
Proof.
  intros A base_path method proc w.
  unfold call_agent_mail, get_agent_mail, bind, get_self, modify, ret.
  destruct (_agent_mail_instance proc) as [instance |]; simpl;
    match goal with
    | |- context [method ?i w] => destruct (method i w); reflexivity
    end.
Qed.

Lemma call_beads_run :
  forall (A : Type) (base_path : string) (method : Py Beads.t A)
         (proc : Process.t) (w : World),
    call_beads base_path method proc w
    = mkRan
        (result
           (method
              match _beads_instance proc with
              | Some instance => instance
              | None =>
                  Beads.init (get_default base_path (beads_files proc) [])
              end w))
        (mk (_agent_mail_instance proc)
            (Some
               (self_after
                  (method
                     match _beads_instance proc with
                     | Some instance => instance
                     | None =>
                         Beads.init
                           (get_default base_path (beads_files proc) [])
                     end w)))
            (mail_files proc) (beads_files proc))
        (world_after
           (method
              match _beads_instance proc with
              | Some instance => instance
              | None =>
                  Beads.init (get_default base_path (beads_files proc) [])
              end w)).
Proof.
  intros A base_path method proc w.
  unfold call_beads, get_beads, bind, get_self, modify, ret.
  destruct (_beads_instance proc) as [instance |]; simpl;
    match goal with
    | |- context [method ?i w] => destruct (method i w); reflexivity
    end.
Qed.

(** X24. The mailbox is one per process: a message sent through
    [get_agent_mail(p1)] is fetched through [get_agent_mail(p2)], whatever
    the two paths are, because the second call returns the instance that
    the first one found or built. *)
Theorem accessor_shares_mailbox :
  forall (proc : Process.t) (w w' : World) (p1 p2 : string)
         (project_key sender recipient subject body : string)
         (thread_id : option string),
    exists message fetched,
      result (call_agent_mail p2 (AgentMail.fetch_inbox recipient None)
                (self_after
                   (call_agent_mail p1
                      (AgentMail.send_message project_key sender recipient
                         subject body thread_id) proc w)) w')
      = Return fetched
      /\ Message.recipient message = recipient
      /\ Message.subject message = subject
      /\ Message.body message = body
      /\ In message fetched.
Proof.
  intros proc w w' p1 p2 project_key sender recipient subject body thread_id.
  rewrite (call_agent_mail_run _ p1). cbn [self_after _agent_mail_instance].
  rewrite (call_agent_mail_run _ p2). cbn [result _agent_mail_instance].
  set (instance := match _agent_mail_instance proc with
                   | Some instance => instance
                   | None =>
                       AgentMail.init
                         (get_default p1 (mail_files proc)
                            (Database.mk [] [] []))
                   end).
  rewrite fetch_inbox_result.
  exists (message_built w project_key sender recipient subject body
            thread_id).
  eexists. split; [reflexivity |]. repeat split.
  apply (Permutation_in _
           (Permutation_sym (sorted_reverse_perm Message.created_at _))).
  destruct (send_message_run instance w project_key sender recipient
              subject body thread_id) as [w1 Hrun].
  rewrite Hrun.
  assert (Hbox :
            forall database,
              inbox_of recipient
                (AgentMail.mk (AgentMail.agents instance)
                   (delivered
                      (message_built w project_key sender recipient subject
                         body thread_id) recipient
                      (AgentMail.messages instance))
                   (AgentMail.reservations instance) database)
              = (inbox_of recipient instance
                 ++ [message_built w project_key sender recipient subject
                       body thread_id])%list).
  { intros database. unfold inbox_of at 1, get_default. simpl.
    unfold delivered. rewrite get_adjust_same, inbox_of_ensured.
    reflexivity. }
  destruct (existsb _ (Database.messages (AgentMail.db instance)));
    cbn [self_after since_filter]; rewrite Hbox;
    apply in_or_app; right; left; reflexivity.
Qed.

(** X25. The issue store is one per process as well: an issue created
    through [get_beads(p1)] is listed through [get_beads(p2)]. *)
Theorem accessor_shares_issues :
  forall (proc : Process.t) (w w' : World) (p1 p2 : string)
         (title description priority : string) (parent_id : option string)
         (blocking : option (list string)),
    exists created found,
      result (call_beads p1
                (Beads.create_issue title description priority parent_id
                   blocking) proc w)
      = Return created
      /\ result (call_beads p2 (Beads.list_issues None None false)
                   (self_after
                      (call_beads p1
                         (Beads.create_issue title description priority
                            parent_id blocking) proc w)) w')
         = Return found
      /\ Issue.title created = title
      /\ Issue.status created = BACKLOG
      /\ In created found.
Proof.
  intros proc w w' p1 p2 title description priority parent_id blocking.
  rewrite !(call_beads_run _ p1). cbn [self_after result _beads_instance].
  rewrite (call_beads_run _ p2). cbn [result _beads_instance].
  rewrite list_issues_run, create_issue_run. cbn [result self_after].
  eexists. eexists. split; [reflexivity |]. split; [reflexivity |].
  split; [reflexivity |]. split; [reflexivity |].
  apply (Permutation_in _
           (Permutation_sym (sorted_reverse_perm Issue.created_at _))).
  apply filter_In. split; [apply in_values_set | reflexivity].
Qed.

End Accessors.

(* ===================================================================== *)
(** ** The dashboard state *)
(* ===================================================================== *)

Section DashboardFacts.
Import PyDict.
Import Dashboard.

Lemma last_n_snoc :
  forall (A : Type) (l : list A) (x : A),
    (if (1000 <? length (l ++ [x]))%nat then last_n 1000 (l ++ [x])
     else (l ++ [x])%list)
    = (last_n 999 l ++ [x])%list.
Proof.
  intros A l x. unfold last_n. rewrite length_app. simpl.
  destruct (Nat.ltb_spec 1000 (length l + 1)) as [Hlong | Hshort].
  - rewrite skipn_app.
    replace (length l + 1 - 1000)%nat with (length l - 999)%nat by lia.
    replace (length l - 999 - length l)%nat with 0%nat by lia.
    reflexivity.
  - replace (length l - 999)%nat with 0%nat by lia. reflexivity.
Qed.

Lemma last_n_snoc_long :
  forall (A : Type) (l : list A) (x : A),
    (1000 <? length (l ++ [x]))%nat = true ->
    last_n 1000 (l ++ [x]) = (last_n 999 l ++ [x])%list.
Proof.
  intros A l x E. rewrite <- last_n_snoc, E. reflexivity.
Qed.

Lemma last_n_snoc_short :
  forall (A : Type) (l : list A) (x : A),
    (1000 <? length (l ++ [x]))%nat = false ->
    (l ++ [x])%list = (last_n 999 l ++ [x])%list.
Proof.
  intros A l x E. rewrite <- last_n_snoc, E. reflexivity.
Qed.

Lemma length_last_n :
  forall (A : Type) (n : nat) (l : list A),
    length (last_n n l) = Nat.min (length l) n.
Proof.
  intros A n l. unfold last_n. rewrite length_skipn. lia.
Qed.

(** X26. The log of the dashboard never grows beyond a thousand entries:
    [add_log] leaves it as the last 999 entries that it had, followed by
    the new entry, and changes nothing else. The call itself ends in the
    [TypeError] of the broadcast, after the log has been updated. *)
Theorem add_log_bounded :
  forall (isoformat : datetime -> string) (self : Dashboard.t) (w : World)
         (level message source : string),
    exists log complaint self' w',
      add_log isoformat level message source self w
      = mkRan (Raise (TypeError complaint)) self' w'
      /\ log = [("timestamp", JStr (isoformat (utcnow_at w (ticks w))));
                ("level", JStr level); ("message", JStr message);
                ("source", JStr source)]
      /\ logs self' = (last_n 999 (logs self) ++ [log])%list
      /\ (length (logs self') <= 1000)%nat
      /\ length (logs self') = S (Nat.min (length (logs self)) 999)
      /\ agents self' = agents self
      /\ messages self' = messages self
      /\ issues self' = issues self.
Proof.
  intros isoformat self w level message source.
  set (log := [("timestamp", JStr (isoformat (utcnow_at w (ticks w))));
               ("level", JStr level); ("message", JStr message);
               ("source", JStr source)]).
  assert (Hlen : length (last_n 999 (logs self) ++ [log])%list
                 = S (Nat.min (length (logs self)) 999)).
  { rewrite length_app, length_last_n. simpl. lia. }
  unfold add_log, emit, bind, utcnow, modify, get_self, raise, ret.
  cbn -[Nat.ltb last_n length app]. fold log.
  destruct (1000 <? length (logs self ++ [log]))%nat eqn:E;
    cbn -[Nat.ltb last_n length app];
    (exists log; eexists; eexists; eexists; split; [reflexivity |];
     split; [reflexivity |]; cbn -[Nat.ltb last_n length app]).
  - match goal with
    | |- ?kept = ?wanted /\ _ =>
        assert (H1 : kept = wanted) by exact (last_n_snoc_long _ _ _ E);
        rewrite H1
    end.
    split; [reflexivity |]. split; [rewrite Hlen; lia |].
    split; [exact Hlen |]. repeat split.
  - match goal with
    | |- ?kept = ?wanted /\ _ =>
        assert (H1 : kept = wanted) by exact (last_n_snoc_short _ _ _ E);
        rewrite H1
    end.
    split; [reflexivity |]. split; [rewrite Hlen; lia |].
    split; [exact Hlen |]. repeat split.
Qed.

Lemma replace_first_length :
  forall issue_id data todo,
    length (fst (replace_first issue_id data todo)) = length todo.
Proof.
  intros issue_id data. induction todo as [| issue rest IH]; simpl.
  - reflexivity.
  - destruct (equals_str (get "id" issue) issue_id); simpl.
    + reflexivity.
    + destruct (replace_first issue_id data rest) as [rest' hit].
      simpl in *. now rewrite IH.
Qed.

Lemma replace_first_miss :
  forall issue_id data todo,
    (forall i, In i todo -> equals_str (get "id" i) issue_id = false) ->
    replace_first issue_id data todo = (todo, None).
Proof.
  intros issue_id data. induction todo as [| issue rest IH]; intros Hmiss;
    simpl.
  - reflexivity.
  - rewrite (Hmiss issue) by (left; reflexivity).
    rewrite IH by (intros i Hi; apply Hmiss; right; exact Hi).
    reflexivity.
Qed.

Lemma replace_first_hit :
  forall issue_id data before issue after,
    (forall i, In i before -> equals_str (get "id" i) issue_id = false) ->
    equals_str (get "id" issue) issue_id = true ->
    replace_first issue_id data (before ++ issue :: after)
    = ((before ++ merge issue data :: after)%list,
       Some (merge issue data)).
Proof.
  intros issue_id data. induction before as [| x before IH];
    intros issue after Hmiss Hhit; simpl.
  - rewrite Hhit. reflexivity.
  - rewrite (Hmiss x) by (left; reflexivity).
    rewrite IH; [reflexivity | | exact Hhit].
    intros i Hi. apply Hmiss. right. exact Hi.
Qed.

(** X27. [DashboardState.update_issue] changes the first issue that
    carries the id, and only that one: the issues before it and after it,
    later ones of the same id included, are as they were; the call then
    ends in the [TypeError] of the broadcast. When no issue carries the id,
    the call returns and nothing is changed. The number of issues is the
    same in both cases. *)
Theorem dashboard_update_issue_first :
  forall (self : Dashboard.t) (w : World) (issue_id : string)
         (data : dict Json),
    length (issues (self_after (Dashboard.update_issue issue_id data self w)))
    = length (issues self)
    /\ ((forall i, In i (issues self) ->
                   equals_str (get "id" i) issue_id = false) ->
        Dashboard.update_issue issue_id data self w
        = mkRan (Return tt) self w)
    /\ (forall before issue after,
           issues self = (before ++ issue :: after)%list ->
           (forall i, In i before ->
                      equals_str (get "id" i) issue_id = false) ->
           equals_str (get "id" issue) issue_id = true ->
           exists complaint,
             Dashboard.update_issue issue_id data self w
             = mkRan (Raise (TypeError complaint))
                 (set_issues (before ++ merge issue data :: after)%list self)
                 w).
Proof.
  intros self w issue_id data.
  unfold Dashboard.update_issue, bind, get_self, modify, emit, raise, ret.
  destruct (replace_first issue_id data (issues self)) as [issues' hit]
    eqn:E.
  assert (Hlen := replace_first_length issue_id data (issues self)).
  rewrite E in Hlen. simpl in Hlen.
  split; [destruct hit; exact Hlen |]. split.
  - intros Hmiss. rewrite (replace_first_miss _ _ _ Hmiss) in E.
    injection E as <- <-. destruct self. reflexivity.
  - intros before issue after Hsplit Hmiss Hhit.
    rewrite Hsplit, (replace_first_hit _ _ _ _ _ Hmiss Hhit) in E.
    injection E as <- <-. eexists. reflexivity.
Qed.

(** The second of the three issues carries "bd-2", and so does the third;
    only the second is updated. *)
Example dashboard_update_issue_board :
  issues (self_after
            (Dashboard.update_issue "bd-2" [("status", JStr "done")]
               Scenes.board Demo.world))
  = [[("id", JStr "bd-1"); ("status", JStr "backlog")];
     [("id", JStr "bd-2"); ("status", JStr "done")];
     [("id", JStr "bd-2"); ("status", JStr "ready")]].
Proof. reflexivity. Qed.

Lemma not_key_get_none :
  forall (d : dict Json) k, ~ In k (keys d) -> get k d = None.
Proof.
  induction d as [| [k0 v0] rest IH]; intros k Hnot; simpl.
  - reflexivity.
  - destruct (String.eqb_spec k k0) as [-> | Hne].
    + exfalso. apply Hnot. left. reflexivity.
    + apply IH. intros Hin. apply Hnot. right. exact Hin.
Qed.

Lemma get_merge :
  forall (b a : dict Json) k,
    NoDup (keys b) ->
    get k (merge a b)
    = match get k b with
      | Some v => Some v
      | None => get k a
      end.
Proof.
  unfold merge. induction b as [| [k0 v0] rest IH]; intros a k Hnd; simpl.
  - reflexivity.
  - simpl in Hnd. inversion Hnd as [| x l Hnot Hrest]; subst.
    rewrite IH by exact Hrest.
    destruct (String.eqb_spec k k0) as [-> | Hne].
    + rewrite (not_key_get_none rest k0 Hnot). apply get_set_same.
    + destruct (get k rest); [reflexivity |].
      apply get_set_other. exact Hne.
Qed.

(** X28. [update_agent] stores under [agent_id] the record that was there,
    or an empty one, overlaid with [data] and stamped: "updated_at" is the
    clock reading of the call, every other key has the value that [data]
    gives it, or else the value it had. The records of other agents are
    untouched. The call then ends in the [TypeError] of the broadcast. *)
Theorem update_agent_merges :
  forall (isoformat : datetime -> string) (self : Dashboard.t) (w : World)
         (agent_id : string) (data : dict Json),
    NoDup (keys data) ->
    exists record complaint self' w',
      update_agent isoformat agent_id data self w
      = mkRan (Raise (TypeError complaint)) self' w'
      /\ get agent_id (agents self') = Some record
      /\ get "updated_at" record
         = Some (JStr (isoformat (utcnow_at w (ticks w))))
      /\ (forall k, k <> "updated_at" ->
                    get k record
                    = match get k data with
                      | Some v => Some v
                      | None => get k (get_default agent_id (agents self) [])
                      end)
      /\ (forall other, other <> agent_id ->
                        get other (agents self') = get other (agents self)).
Proof.
  intros isoformat self w agent_id data Hnd.
  unfold update_agent, emit, bind, utcnow, modify, get_self, raise, ret.
  simpl.
  eexists. eexists. eexists. eexists. split; [reflexivity |]. simpl.
  split; [apply get_set_same |].
  split; [apply get_set_same |].
  split.
  - intros k Hk. rewrite get_set_other by exact Hk.
    apply get_merge. exact Hnd.
  - intros other Hne. apply get_set_other. exact Hne.
Qed.

Lemma update_agent_merges_witness :
  exists record complaint self' w',
    update_agent Scenes.iso "alice"
      [("status", JStr "working"); ("model", JStr "opus")]
      Scenes.board Demo.world
    = mkRan (Raise (TypeError complaint)) self' w'
    /\ get "alice" (agents self') = Some record
    /\ get "updated_at" record
       = Some (JStr (Scenes.iso (utcnow_at Demo.world (ticks Demo.world))))
    /\ (forall k, k <> "updated_at" ->
                  get k record
                  = match get k [("status", JStr "working");
                                 ("model", JStr "opus")] with
                    | Some v => Some v
                    | None =>
                        get k (get_default "alice" (agents Scenes.board) [])
                    end)
    /\ (forall other, other <> "alice" ->
                      get other (agents self')
                      = get other (agents Scenes.board)).
Proof.
  apply (update_agent_merges Scenes.iso Scenes.board Demo.world "alice"
           [("status", JStr "working"); ("model", JStr "opus")]).
  simpl. constructor.
  - intros [H | []]. discriminate.
  - constructor; [intros [] | constructor].
Defined.

End DashboardFacts.

(* ===================================================================== *)
(** ** The module as it is declared, and dates out of range *)
(* ===================================================================== *)

Section DeclarationAndRange.
Import PyDict.
Import AgentMail.

(** X29. As it is declared, the module cannot be imported: in the class
    [FileReservation] the field [expires_at], which has no default,
    follows [created_at], which has one, and [dataclass] raises [TypeError]
    when it reaches it. The classes [Agent] and [Message], declared before
    it, and [Issue], declared after it, are accepted. *)
Theorem module_import_fails :
  module_import
  = Raise (TypeError
             "non-default argument 'expires_at' follows default argument")
  /\ dataclass Agent.declared = Return tt
  /\ dataclass Message.declared = Return tt
  /\ dataclass Issue.declared = Return tt
  /\ misplaced_field false FileReservation.declared = Some "expires_at".
Proof. repeat split. Qed.

(** X30. A request that nothing blocks, but whose expiry date cannot be
    represented, ends in [OverflowError]: an id has been drawn and the
    clock read once, and nothing is stored, neither in the dictionary nor
    in the database. *)
Theorem reserve_files_overflow :
  forall (self : AgentMail.t) (w : World) (project_key agent_name : string)
         (paths : list string) (exclusive : bool) (ttl_seconds : Z),
    (forall k res, In (k, res) (reservations self) ->
                   blocks res agent_name paths = false) ->
    expiry_ok (utcnow_at w (ticks w)) ttl_seconds = false ->
    reserve_files project_key agent_name paths exclusive ttl_seconds self w
    = mkRan (Raise OverflowError) self
        (mkWorld (utcnow_at w) (S (ticks w)) (uuid4_at w) (S (draws w))
                 (digest6 w)).
Proof.
  intros self w project_key agent_name paths exclusive ttl_seconds
         Hfree Hbad.
  unfold reserve_files, bind, get_self, items.
  rewrite check_conflicts_run, (first_blocker_none _ _ _ Hfree).
  unfold add_timedelta, bind, uuid4_12, utcnow, raise. simpl.
  rewrite Hbad. reflexivity.
Qed.

(** A lease of 10^15 seconds would end after the year 9999. *)
Lemma reserve_files_overflow_witness :
  reserve_files "web" "alice" ["/src/a.py"] true 1000000000000000 Demo.mail
    Demo.world
  = mkRan (Raise OverflowError) Demo.mail
      (mkWorld (utcnow_at Demo.world) (S (ticks Demo.world))
               (uuid4_at Demo.world) (S (draws Demo.world))
               (digest6 Demo.world)).
Proof.
  apply (reserve_files_overflow Demo.mail Demo.world "web" "alice"
           ["/src/a.py"] true 1000000000000000).
  - intros k res [].
  - vm_compute. reflexivity.
Defined.

End DeclarationAndRange.
